(** * TCAN1463-Q1 simulator: a shallow embedding of the simulation kernel

    The C sources are embedded function by function.  A [double] is an IEEE
    binary64 primitive float, compared with the hardware comparisons the C
    operators denote; a [uint64_t] is a [Z] with its wrap-around written
    out; enumerations are inductive types; structures are records.  The two
    file-scope / function-local [static] variables of the sources and the
    heap cell behind [sim->inh_controller] live in an explicit [Memory]
    that every function touching them takes and returns. *)

From Stdlib Require Import ZArith List Bool Lia.
From Stdlib Require Import Floats.
Import ListNotations.

Local Open Scope Z_scope.
Set Warnings "-inexact-float".

(** ** include/tcan1463q1_types.h *)

Inductive PinType :=
| PIN_TXD | PIN_RXD | PIN_EN | PIN_NSTB | PIN_NFAULT | PIN_WAKE | PIN_INH
| PIN_INH_MASK | PIN_CANH | PIN_CANL | PIN_VSUP | PIN_VCC | PIN_VIO | PIN_GND.

Inductive PinState :=
| PIN_STATE_LOW | PIN_STATE_HIGH | PIN_STATE_HIGH_IMPEDANCE | PIN_STATE_ANALOG.

Inductive OperatingMode :=
| MODE_NORMAL | MODE_SILENT | MODE_STANDBY | MODE_GO_TO_SLEEP | MODE_SLEEP
| MODE_OFF.

Inductive BusState :=
| BUS_STATE_DOMINANT | BUS_STATE_RECESSIVE | BUS_STATE_INDETERMINATE.

Inductive CANTransceiverState :=
| CAN_STATE_OFF | CAN_STATE_AUTONOMOUS_INACTIVE | CAN_STATE_AUTONOMOUS_ACTIVE
| CAN_STATE_ACTIVE.

Inductive BusBiasState :=
| BIAS_STATE_OFF | BIAS_STATE_AUTONOMOUS_INACTIVE
| BIAS_STATE_AUTONOMOUS_ACTIVE | BIAS_STATE_ACTIVE.

Inductive WUPState :=
| WUP_STATE_IDLE | WUP_STATE_FIRST_DOMINANT | WUP_STATE_RECESSIVE
| WUP_STATE_SECOND_DOMINANT | WUP_STATE_COMPLETE.

Scheme Equality for PinType.
Scheme Equality for PinState.
Scheme Equality for OperatingMode.
Scheme Equality for BusState.
Scheme Equality for CANTransceiverState.
Scheme Equality for BusBiasState.
Scheme Equality for WUPState.

(** The ordinal of a pin in [Pin pins[14]], and the decoding of an index the
    way the bounds check [pin < 0 || pin >= 14] admits it. *)
Definition pin_index (p : PinType) : Z :=
  match p with
  | PIN_TXD => 0 | PIN_RXD => 1 | PIN_EN => 2 | PIN_NSTB => 3
  | PIN_NFAULT => 4 | PIN_WAKE => 5 | PIN_INH => 6 | PIN_INH_MASK => 7
  | PIN_CANH => 8 | PIN_CANL => 9 | PIN_VSUP => 10 | PIN_VCC => 11
  | PIN_VIO => 12 | PIN_GND => 13
  end.

Definition all_pins : list PinType :=
  [PIN_TXD; PIN_RXD; PIN_EN; PIN_NSTB; PIN_NFAULT; PIN_WAKE; PIN_INH;
   PIN_INH_MASK; PIN_CANH; PIN_CANL; PIN_VSUP; PIN_VCC; PIN_VIO; PIN_GND].

Definition pin_of_index (i : Z) : option PinType :=
  if (i <? 0) || (i >=? 14) then None
  else find (fun p => pin_index p =? i) all_pins.

(** Field names are those of the C structures, except where two structures
    share one: [state] stays with [Pin] ([can_state], [bias_state] for the
    transceiver and the bias controller), [wakerq_flag] with [WakeState]
    ([mode_wakerq_flag] for [ModeState]). *)
Record Pin := mkPin {
  state : PinState;
  voltage : float;
  is_input : bool;
  is_output : bool;
  min_voltage : float;
  max_voltage : float
}.

Record ModeState := mkModeState {
  current_mode : OperatingMode;
  previous_mode : OperatingMode;
  mode_entry_time : Z;
  mode_wakerq_flag : bool
}.

Record CANTransceiver := mkCANTransceiver {
  can_state : CANTransceiverState;
  driver_enabled : bool;
  receiver_enabled : bool;
  canh_voltage : float;
  canl_voltage : float;
  rxd_output : bool;
  rxd_pending : bool;
  rxd_pending_value : bool;
  rxd_update_time : Z
}.

Record PowerState := mkPowerState {
  vsup : float;
  vcc : float;
  vio : float;
  uvsup_flag : bool;
  uvcc_flag : bool;
  uvio_flag : bool;
  pwron_flag : bool;
  uvcc_start_time : Z;
  uvio_start_time : Z
}.

Record FaultState := mkFaultState {
  txdclp_flag : bool;
  txddto_flag : bool;
  txdrxd_flag : bool;
  candom_flag : bool;
  tsd_flag : bool;
  cbf_flag : bool;
  txd_dominant_start : Z;
  bus_dominant_start : Z;
  cbf_transition_count : Z
}.

Record WakeState := mkWakeState {
  wakerq_flag : bool;
  wakesr_flag : bool;
  wake_source_local : bool;
  wup_state : WUPState;
  wup_phase_start : Z;
  wup_timeout_start : Z;
  wake_pin_prev_state : bool
}.

Record BusBiasController := mkBusBiasController {
  bias_state : BusBiasState;
  last_bus_activity : Z
}.

Record TimingEngine := mkTimingEngine {
  current_time_ns : Z;
  last_update_ns : Z
}.

(** include/inh_controller.h *)
Record INHController := mkINHController {
  inh_enabled : bool;
  inh_output_high : bool;
  wake_event_time : Z;
  pending_inh_assertion : bool
}.

(** ** Machine arithmetic *)

Definition UINT64_MAX : Z := 2 ^ 64 - 1.

Definition add64 (a b : Z) : Z := (a + b) mod 2 ^ 64.
Definition sub64 (a b : Z) : Z := (a - b) mod 2 ^ 64.

(** [(uint64_t) x] for a non-negative finite double below 2^64: truncation
    toward zero, read off the binary expansion of [x]. *)
Definition double_to_uint64 (x : float) : Z :=
  match Prim2SF x with
  | S754_finite false m e =>
      if 0 <=? e then Z.pos m * 2 ^ e else Z.pos m / 2 ^ (- e)
  | _ => 0
  end.

(** The conversion macros; each source file defines its own. *)
Definition fault_MS_TO_NS (ms : float) : Z :=
  double_to_uint64 (ms * 1000000.0)%float.
Definition wake_US_TO_NS (us : float) : Z :=
  double_to_uint64 (us * 1000.0)%float.
Definition wake_MS_TO_NS (ms : float) : Z :=
  double_to_uint64 (ms * 1000000.0)%float.
Definition mode_S_TO_NS (s : float) : Z :=
  double_to_uint64 (s * 1000000000.0)%float.
Definition power_MS_TO_NS (ms : Z) : Z := (ms * 1000000) mod 2 ^ 64.

(** Timing constants of tcan1463q1_types.h. *)
Definition TUV_MIN_MS : Z := 100.
Definition TTXDDTO_MIN_MS : float := 1.2%float.
Definition TBUSDOM_MIN_MS : float := 1.4%float.
Definition TWK_FILTER_MIN_US : float := 0.5%float.
Definition TWK_TIMEOUT_MAX_MS : float := 2.0%float.
Definition TSILENCE_MIN_S : float := 0.6%float.
Definition TPROP_LOOP1_MIN_NS : Z := 100.
Definition TPROP_LOOP1_MAX_NS : Z := 190.
Definition TPROP_LOOP2_MIN_NS : Z := 110.
Definition TPROP_LOOP2_MAX_NS : Z := 190.
Definition TINH_SLP_STB_US : Z := 100.
Definition TSDR_CELSIUS : float := 165.0%float.

Definition TTXDDTO_MIN_NS : Z := Eval vm_compute in fault_MS_TO_NS TTXDDTO_MIN_MS.
Definition TBUSDOM_MIN_NS : Z := Eval vm_compute in fault_MS_TO_NS TBUSDOM_MIN_MS.
Definition TWK_FILTER_NS : Z := Eval vm_compute in wake_US_TO_NS TWK_FILTER_MIN_US.
Definition TWK_TIMEOUT_NS : Z := Eval vm_compute in wake_MS_TO_NS TWK_TIMEOUT_MAX_MS.
Definition mode_TSILENCE_NS : Z := Eval vm_compute in mode_S_TO_NS TSILENCE_MIN_S.
Definition TUV_MIN_NS : Z := Eval vm_compute in power_MS_TO_NS TUV_MIN_MS.

(** ** src/pin_manager.cpp *)

Definition pin_voltage_ranges (p : PinType) : float * float :=
  match p with
  | PIN_TXD | PIN_RXD | PIN_EN | PIN_NSTB | PIN_NFAULT | PIN_WAKE
  | PIN_INH_MASK => (0.0, 5.5)
  | PIN_INH => (0.0, 42.0)
  | PIN_CANH | PIN_CANL => (-27.0, 42.0)
  | PIN_VSUP => (4.5, 42.0)
  | PIN_VCC => (4.5, 5.5)
  | PIN_VIO => (1.65, 5.5)
  | PIN_GND => (0.0, 0.0)
  end%float.

(** [(is_input, is_output)] *)
Definition pin_directions (p : PinType) : bool * bool :=
  match p with
  | PIN_RXD | PIN_NFAULT | PIN_INH => (false, true)
  | PIN_CANH | PIN_CANL => (true, true)
  | _ => (true, false)
  end.

Definition pin_init (is_in is_out : bool) (minv maxv : float) : Pin :=
  mkPin PIN_STATE_LOW 0.0%float is_in is_out minv maxv.

Definition pin_validate_voltage (pin : Pin) (v : float) : bool :=
  if negb (PinState_beq (state pin) PIN_STATE_ANALOG) && (v =? 0.0)%float
  then true
  else if (v <? min_voltage pin)%float || (max_voltage pin <? v)%float
  then false
  else true.

(** The returned pin is the pin after the call: untouched on rejection. *)
Definition pin_set_value (pin : Pin) (st : PinState) (v : float) : bool * Pin :=
  if negb (pin_validate_voltage pin v) then (false, pin)
  else (true, mkPin st v (is_input pin) (is_output pin)
                    (min_voltage pin) (max_voltage pin)).

Definition pin_get_value (pin : Pin) : PinState * float :=
  (state pin, voltage pin).

(** [Pin pins[14]], indexed by the enumeration. *)
Definition PinArray := PinType -> Pin.

Definition pin_store (pins : PinArray) (p : PinType) (x : Pin) : PinArray :=
  fun q => if PinType_beq q p then x else pins q.

Definition with_state (pin : Pin) (st : PinState) : Pin :=
  mkPin st (voltage pin) (is_input pin) (is_output pin)
        (min_voltage pin) (max_voltage pin).

Definition with_state_voltage (pin : Pin) (st : PinState) (v : float) : Pin :=
  mkPin st v (is_input pin) (is_output pin) (min_voltage pin) (max_voltage pin).

Definition pin_manager_init : PinArray :=
  fun p =>
    let base := pin_init (fst (pin_directions p)) (snd (pin_directions p))
                         (fst (pin_voltage_ranges p))
                         (snd (pin_voltage_ranges p)) in
    match p with
    | PIN_TXD => with_state base PIN_STATE_HIGH
    | PIN_EN | PIN_NSTB | PIN_WAKE | PIN_INH_MASK => with_state base PIN_STATE_LOW
    | PIN_RXD | PIN_NFAULT => with_state base PIN_STATE_HIGH
    | PIN_INH => with_state base PIN_STATE_HIGH_IMPEDANCE
    | PIN_CANH | PIN_CANL =>
        with_state_voltage base PIN_STATE_HIGH_IMPEDANCE 0.0%float
    | PIN_VSUP => with_state_voltage base PIN_STATE_ANALOG 12.0%float
    | PIN_VCC => with_state_voltage base PIN_STATE_ANALOG 5.0%float
    | PIN_VIO => with_state_voltage base PIN_STATE_ANALOG 3.3%float
    | PIN_GND => with_state_voltage base PIN_STATE_ANALOG 0.0%float
    end.

Definition pin_manager_set_pin (pins : PinArray) (pin_type : Z)
    (st : PinState) (v : float) : bool * PinArray :=
  match pin_of_index pin_type with
  | None => (false, pins)
  | Some p =>
      let pin := pins p in
      if negb (is_input pin) then (false, pins)
      else let r := pin_set_value pin st v in
           (fst r, pin_store pins p (snd r))
  end.

Definition pin_manager_get_pin (pins : PinArray) (pin_type : Z)
    : option (PinState * float) :=
  match pin_of_index pin_type with
  | None => None
  | Some p => Some (pin_get_value (pins p))
  end.

Definition pin_manager_validate_pin (pins : PinArray) (pin_type : Z)
    (v : float) : bool :=
  match pin_of_index pin_type with
  | None => false
  | Some p => pin_validate_voltage (pins p) v
  end.

(** ** timing_engine.cpp *)

Definition timing_engine_init : TimingEngine := mkTimingEngine 0 0.

Definition timing_engine_advance (e : TimingEngine) (delta_ns : Z)
    : TimingEngine :=
  mkTimingEngine (add64 (current_time_ns e) delta_ns) (current_time_ns e).

Definition timing_engine_get_time (e : TimingEngine) : Z := current_time_ns e.

(** ** power_monitor.cpp *)

Definition UVSUP_FALLING_MIN : float := 3.5%float.
Definition UVSUP_RISING_MIN : float := 3.85%float.
Definition UVCC_FALLING_MAX : float := 3.9%float.
Definition UVCC_RISING_MIN : float := 4.1%float.
Definition UVIO_FALLING_MAX : float := 1.25%float.
Definition UVIO_RISING_MIN : float := 1.4%float.

Definition power_monitor_init : PowerState :=
  mkPowerState 12.0%float 5.0%float 3.3%float false false false false
               UINT64_MAX UINT64_MAX.

(** One rail with a filter timer (the VCC and the VIO blocks are the same
    code over different thresholds): returns the flag and the timer. *)
Definition filtered_rail (v prev_v falling_max rising_min : float)
    (flag : bool) (start current_time : Z) : bool * Z :=
  if (v <? falling_max)%float then
    let start1 := if start =? UINT64_MAX then current_time else start in
    let elapsed_ns := sub64 current_time start1 in
    if (elapsed_ns >=? TUV_MIN_NS) && negb flag then (true, start1)
    else (flag, start1)
  else if (rising_min <? v)%float then (false, UINT64_MAX)
  else if (prev_v <? v)%float then (flag, UINT64_MAX)
  else (flag, start).

Definition power_monitor_update (st : PowerState) (vsup_v vcc_v vio_v : float)
    (current_time : Z) : PowerState :=
  let prev_vcc := vcc st in
  let prev_vio := vio st in
  let '(uvsup1, pwron1) :=
    if negb (uvsup_flag st) && (vsup_v <=? UVSUP_FALLING_MIN)%float
    then (true, pwron_flag st)
    else if uvsup_flag st && (UVSUP_RISING_MIN <? vsup_v)%float
    then (false, true)
    else (uvsup_flag st, pwron_flag st) in
  let rcc := filtered_rail vcc_v prev_vcc UVCC_FALLING_MAX UVCC_RISING_MIN
                           (uvcc_flag st) (uvcc_start_time st) current_time in
  let rio := filtered_rail vio_v prev_vio UVIO_FALLING_MAX UVIO_RISING_MIN
                           (uvio_flag st) (uvio_start_time st) current_time in
  mkPowerState vsup_v vcc_v vio_v uvsup1 (fst rcc) (fst rio) pwron1
               (snd rcc) (snd rio).

Definition power_monitor_is_vsup_valid (st : PowerState) : bool :=
  negb (uvsup_flag st).

Definition power_monitor_clear_pwron_flag (st : PowerState) : PowerState :=
  mkPowerState (vsup st) (vcc st) (vio st) (uvsup_flag st) (uvcc_flag st)
               (uvio_flag st) false (uvcc_start_time st) (uvio_start_time st).

(** ** wake_handler.cpp *)

Definition wake_handler_init : WakeState :=
  mkWakeState false false false WUP_STATE_IDLE UINT64_MAX UINT64_MAX false.

(** The three assignments that put the pattern machine back to idle. *)
Definition wup_reset (st : WakeState) : WakeState :=
  mkWakeState (wakerq_flag st) (wakesr_flag st) (wake_source_local st)
              WUP_STATE_IDLE UINT64_MAX UINT64_MAX (wake_pin_prev_state st).

Definition wup_goto (st : WakeState) (s : WUPState) (phase_start timeout_start : Z)
    : WakeState :=
  mkWakeState (wakerq_flag st) (wakesr_flag st) (wake_source_local st)
              s phase_start timeout_start (wake_pin_prev_state st).

Definition wake_handler_process_wup (st : WakeState) (bus_state : BusState)
    (current_time : Z) : WakeState :=
  let filter_time_ns := TWK_FILTER_NS in
  let timeout_ns := TWK_TIMEOUT_NS in
  if negb (wup_timeout_start st =? UINT64_MAX)
     && negb (WUPState_beq (wup_state st) WUP_STATE_IDLE)
     && negb (WUPState_beq (wup_state st) WUP_STATE_COMPLETE)
     && (sub64 current_time (wup_timeout_start st) >=? timeout_ns)
  then wup_reset st
  else
    let elapsed := sub64 current_time (wup_phase_start st) in
    match wup_state st with
    | WUP_STATE_IDLE =>
        match bus_state with
        | BUS_STATE_DOMINANT =>
            wup_goto st WUP_STATE_FIRST_DOMINANT current_time current_time
        | _ => st
        end
    | WUP_STATE_FIRST_DOMINANT =>
        match bus_state with
        | BUS_STATE_DOMINANT =>
            if elapsed >=? filter_time_ns
            then wup_goto st WUP_STATE_RECESSIVE current_time (wup_timeout_start st)
            else st
        | _ => wup_reset st
        end
    | WUP_STATE_RECESSIVE =>
        match bus_state with
        | BUS_STATE_RECESSIVE =>
            if elapsed >=? filter_time_ns
            then wup_goto st WUP_STATE_SECOND_DOMINANT current_time
                          (wup_timeout_start st)
            else st
        | BUS_STATE_DOMINANT =>
            if elapsed >=? filter_time_ns
            then wup_goto st WUP_STATE_SECOND_DOMINANT current_time
                          (wup_timeout_start st)
            else wup_reset st
        | BUS_STATE_INDETERMINATE => st
        end
    | WUP_STATE_SECOND_DOMINANT =>
        match bus_state with
        | BUS_STATE_DOMINANT =>
            if elapsed >=? filter_time_ns
            then mkWakeState true true false WUP_STATE_COMPLETE UINT64_MAX
                             UINT64_MAX (wake_pin_prev_state st)
            else st
        | _ => wup_reset st
        end
    | WUP_STATE_COMPLETE => st
    end.

Definition wake_handler_process_lwu (st : WakeState) (wake_pin_high : bool)
    (current_time : Z) : WakeState :=
  let edge_detected := negb (Bool.eqb wake_pin_high (wake_pin_prev_state st)) in
  if edge_detected
  then mkWakeState true true true WUP_STATE_IDLE UINT64_MAX UINT64_MAX
                   (wake_pin_prev_state st)
  else st.

Definition wake_handler_update (st : WakeState) (bus_state : BusState)
    (wake_pin_high : bool) (mode : OperatingMode) (current_time : Z)
    : WakeState :=
  let st1 :=
    if OperatingMode_beq mode MODE_STANDBY || OperatingMode_beq mode MODE_SLEEP
    then
      let st2 := wake_handler_process_wup st bus_state current_time in
      if OperatingMode_beq mode MODE_SLEEP
      then wake_handler_process_lwu st2 wake_pin_high current_time
      else st2
    else
      if negb (WUPState_beq (wup_state st) WUP_STATE_IDLE)
      then wup_reset st
      else st in
  mkWakeState (wakerq_flag st1) (wakesr_flag st1) (wake_source_local st1)
              (wup_state st1) (wup_phase_start st1) (wup_timeout_start st1)
              wake_pin_high.

Definition wake_handler_clear_flags (st : WakeState) : WakeState :=
  mkWakeState false (wakesr_flag st) (wake_source_local st)
              WUP_STATE_IDLE UINT64_MAX UINT64_MAX (wake_pin_prev_state st).

Definition wake_handler_get_wakerq (st : WakeState) : bool := wakerq_flag st.

(** ** mode_controller.cpp *)

Definition valid_transitions : list (OperatingMode * OperatingMode) :=
  [ (MODE_OFF, MODE_NORMAL); (MODE_OFF, MODE_SILENT);
    (MODE_NORMAL, MODE_SILENT); (MODE_SILENT, MODE_NORMAL);
    (MODE_NORMAL, MODE_STANDBY); (MODE_SILENT, MODE_STANDBY);
    (MODE_NORMAL, MODE_GO_TO_SLEEP); (MODE_SILENT, MODE_GO_TO_SLEEP);
    (MODE_GO_TO_SLEEP, MODE_SLEEP);
    (MODE_STANDBY, MODE_NORMAL); (MODE_STANDBY, MODE_SILENT);
    (MODE_SLEEP, MODE_STANDBY);
    (MODE_NORMAL, MODE_OFF); (MODE_SILENT, MODE_OFF); (MODE_STANDBY, MODE_OFF);
    (MODE_GO_TO_SLEEP, MODE_OFF); (MODE_SLEEP, MODE_OFF) ].

Definition mode_controller_init : ModeState :=
  mkModeState MODE_OFF MODE_OFF 0 false.

Definition mode_controller_can_transition (from to : OperatingMode) : bool :=
  if OperatingMode_beq from to then true
  else existsb (fun tr => OperatingMode_beq (fst tr) from
                          && OperatingMode_beq (snd tr) to)
               valid_transitions.

Definition determine_target_mode (cur : OperatingMode)
    (en_high nstb_high vsup_valid wakerq_set : bool) (time_in_mode : Z)
    : OperatingMode :=
  if negb vsup_valid then MODE_OFF
  else if OperatingMode_beq cur MODE_GO_TO_SLEEP
          && (time_in_mode >=? mode_TSILENCE_NS) then MODE_SLEEP
  else if nstb_high then (if en_high then MODE_NORMAL else MODE_SILENT)
  else if wakerq_set then MODE_STANDBY
  else if OperatingMode_beq cur MODE_SLEEP then MODE_SLEEP
  else MODE_GO_TO_SLEEP.

Definition mode_time_in_mode (st : ModeState) (current_time : Z) : Z :=
  if current_time >=? mode_entry_time st
  then sub64 current_time (mode_entry_time st) else 0.

Definition mode_controller_update (st : ModeState)
    (en_high nstb_high vsup_valid wakerq_set : bool) (current_time : Z)
    : ModeState :=
  let time_in_mode := mode_time_in_mode st current_time in
  let target_mode :=
    determine_target_mode (current_mode st) en_high nstb_high vsup_valid
                          wakerq_set time_in_mode in
  if negb (OperatingMode_beq target_mode (current_mode st)) then
    if mode_controller_can_transition (current_mode st) target_mode
    then mkModeState target_mode (current_mode st) current_time
                     (mode_wakerq_flag st)
    else st
  else st.

(** ** can_transceiver.cpp

    [static uint64_t last_bus_activity_time] is file-scope: the functions
    that read or write it take it and hand it back. *)

Definition VDIFF_DOMINANT_THRESHOLD : float := 0.9%float.
Definition VDIFF_RECESSIVE_THRESHOLD : float := 0.5%float.
Definition CANH_DOMINANT_VOLTAGE : float := 3.5%float.
Definition CANL_DOMINANT_VOLTAGE : float := 1.5%float.
Definition CANH_RECESSIVE_VOLTAGE : float := 2.5%float.
Definition CANL_RECESSIVE_VOLTAGE : float := 2.5%float.
Definition can_TSILENCE_NS : Z := 1000000000.

(** [memset] to zero, then the listed assignments; also resets the static. *)
Definition can_transceiver_init : Z * CANTransceiver :=
  (0, mkCANTransceiver CAN_STATE_OFF false false 0.0%float 0.0%float
                       true false true 0).

Definition can_transceiver_get_bus_state (vdiff : float) : BusState :=
  if (VDIFF_DOMINANT_THRESHOLD <=? vdiff)%float then BUS_STATE_DOMINANT
  else if (vdiff <=? VDIFF_RECESSIVE_THRESHOLD)%float then BUS_STATE_RECESSIVE
  else BUS_STATE_INDETERMINATE.

Definition set_bus_voltages (t : CANTransceiver) (h l : float) : CANTransceiver :=
  mkCANTransceiver (can_state t) (driver_enabled t) (receiver_enabled t) h l
                   (rxd_output t) (rxd_pending t) (rxd_pending_value t)
                   (rxd_update_time t).

(** Returns the transceiver and the two voltages written through the
    output pointers. *)
Definition can_transceiver_drive_bus (t : CANTransceiver) (dominant : bool)
    : CANTransceiver * float * float :=
  if dominant && driver_enabled t
  then (set_bus_voltages t CANH_DOMINANT_VOLTAGE CANL_DOMINANT_VOLTAGE,
        CANH_DOMINANT_VOLTAGE, CANL_DOMINANT_VOLTAGE)
  else (set_bus_voltages t CANH_RECESSIVE_VOLTAGE CANL_RECESSIVE_VOLTAGE,
        CANH_RECESSIVE_VOLTAGE, CANL_RECESSIVE_VOLTAGE).

Definition set_rxd (t : CANTransceiver) (out pending pending_value : bool)
    (update_time : Z) : CANTransceiver :=
  mkCANTransceiver (can_state t) (driver_enabled t) (receiver_enabled t)
                   (canh_voltage t) (canl_voltage t)
                   out pending pending_value update_time.

(** The propagation delay chosen for a target level: the middle of the
    documented window. *)
Definition prop_delay (target_rxd : bool) : Z :=
  if negb target_rxd
  then (TPROP_LOOP1_MIN_NS + TPROP_LOOP1_MAX_NS) / 2
  else (TPROP_LOOP2_MIN_NS + TPROP_LOOP2_MAX_NS) / 2.

Definition can_transceiver_update_rxd (t : CANTransceiver)
    (bus_state : BusState) (current_time schedule_time : Z) : CANTransceiver :=
  if negb (receiver_enabled t)
  then set_rxd t true false (rxd_pending_value t) (rxd_update_time t)
  else
    let t1 :=
      if rxd_pending t && (current_time >=? rxd_update_time t)
      then set_rxd t (rxd_pending_value t) false (rxd_pending_value t)
                   (rxd_update_time t)
      else t in
    let schedule (target_rxd : bool) :=
      let needs_update := negb (Bool.eqb target_rxd (rxd_output t1)) in
      let pending_is_stale :=
        rxd_pending t1 && negb (Bool.eqb (rxd_pending_value t1) target_rxd) in
      if needs_update && (negb (rxd_pending t1) || pending_is_stale) then
        let update_time := add64 schedule_time (prop_delay target_rxd) in
        if update_time <=? current_time
        then set_rxd t1 target_rxd false (rxd_pending_value t1)
                     (rxd_update_time t1)
        else set_rxd t1 (rxd_output t1) true target_rxd update_time
      else t1 in
    match bus_state with
    | BUS_STATE_DOMINANT => schedule false
    | BUS_STATE_RECESSIVE => schedule true
    | BUS_STATE_INDETERMINATE => t1
    end.

Definition set_can_state (t : CANTransceiver) (s : CANTransceiverState)
    (drv rcv : bool) : CANTransceiver :=
  mkCANTransceiver s drv rcv (canh_voltage t) (canl_voltage t)
                   (rxd_output t) (rxd_pending t) (rxd_pending_value t)
                   (rxd_update_time t).

Definition mode_is_active (mode : OperatingMode) : bool :=
  OperatingMode_beq mode MODE_NORMAL || OperatingMode_beq mode MODE_SILENT.

Definition can_transceiver_update_state_machine (last_bus_activity_time : Z)
    (t : CANTransceiver) (mode : OperatingMode) (bus_state : BusState)
    (vsup_valid : bool) (current_time : Z) : Z * CANTransceiver :=
  let dominant := BusState_beq bus_state BUS_STATE_DOMINANT in
  let lbat1 := if dominant then current_time else last_bus_activity_time in
  let lbat2 := if lbat1 =? 0 then current_time else lbat1 in
  let '(lbat3, s) :=
    match can_state t with
    | CAN_STATE_OFF =>
        (lbat2, if vsup_valid then CAN_STATE_AUTONOMOUS_INACTIVE
                else CAN_STATE_OFF)
    | CAN_STATE_AUTONOMOUS_INACTIVE =>
        if negb vsup_valid then (lbat2, CAN_STATE_OFF)
        else if mode_is_active mode then (lbat2, CAN_STATE_ACTIVE)
        else if dominant then (current_time, CAN_STATE_AUTONOMOUS_ACTIVE)
        else (lbat2, CAN_STATE_AUTONOMOUS_INACTIVE)
    | CAN_STATE_AUTONOMOUS_ACTIVE =>
        if negb vsup_valid then (lbat2, CAN_STATE_OFF)
        else if mode_is_active mode then (lbat2, CAN_STATE_ACTIVE)
        else if sub64 current_time lbat2 >? can_TSILENCE_NS
        then (lbat2, CAN_STATE_AUTONOMOUS_INACTIVE)
        else (lbat2, CAN_STATE_AUTONOMOUS_ACTIVE)
    | CAN_STATE_ACTIVE =>
        if negb vsup_valid then (lbat2, CAN_STATE_OFF)
        else if negb (mode_is_active mode) then
          if dominant || (sub64 current_time lbat2 <=? can_TSILENCE_NS)
          then (lbat2, CAN_STATE_AUTONOMOUS_ACTIVE)
          else (lbat2, CAN_STATE_AUTONOMOUS_INACTIVE)
        else (lbat2, CAN_STATE_ACTIVE)
    end in
  let '(drv, rcv) :=
    match s with
    | CAN_STATE_OFF => (false, false)
    | CAN_STATE_AUTONOMOUS_INACTIVE | CAN_STATE_AUTONOMOUS_ACTIVE =>
        (false, true)
    | CAN_STATE_ACTIVE =>
        match mode with
        | MODE_NORMAL => (true, true)
        | MODE_SILENT => (false, true)
        | _ => (false, false)
        end
    end in
  (lbat3, set_can_state t s drv rcv).

Definition can_transceiver_update (last_bus_activity_time : Z)
    (t : CANTransceiver) (mode : OperatingMode) (txd_low : bool)
    (canh canl : float) (current_time : Z) : Z * CANTransceiver :=
  let vdiff := (canh - canl)%float in
  let bus_state := can_transceiver_get_bus_state vdiff in
  let vsup_valid := negb (OperatingMode_beq mode MODE_OFF) in
  let r := can_transceiver_update_state_machine last_bus_activity_time t mode
             bus_state vsup_valid current_time in
  let '(t2, _, _) := can_transceiver_drive_bus (snd r) txd_low in
  (fst r, t2).

(** ** bus_bias_controller.cpp *)

Definition BIAS_VOLTAGE_2_5V : float := 2.5%float.
Definition BIAS_VOLTAGE_GND : float := 0.0%float.

Definition bus_bias_controller_init : BusBiasController :=
  mkBusBiasController BIAS_STATE_OFF 0.

Definition bus_bias_controller_update (c : BusBiasController)
    (can_st : CANTransceiverState) (bus_state : BusState) (current_time : Z)
    : BusBiasController :=
  let a1 := if BusState_beq bus_state BUS_STATE_DOMINANT then current_time
            else last_bus_activity c in
  let a2 := if a1 =? 0 then current_time else a1 in
  mkBusBiasController
    match can_st with
    | CAN_STATE_OFF => BIAS_STATE_OFF
    | CAN_STATE_AUTONOMOUS_INACTIVE => BIAS_STATE_AUTONOMOUS_INACTIVE
    | CAN_STATE_AUTONOMOUS_ACTIVE => BIAS_STATE_AUTONOMOUS_ACTIVE
    | CAN_STATE_ACTIVE => BIAS_STATE_ACTIVE
    end a2.

Definition bus_bias_controller_get_bias (c : BusBiasController) (vcc_v : float)
    : float * float :=
  match bias_state c with
  | BIAS_STATE_OFF => (0.0, 0.0)
  | BIAS_STATE_AUTONOMOUS_INACTIVE => (BIAS_VOLTAGE_GND, BIAS_VOLTAGE_GND)
  | BIAS_STATE_AUTONOMOUS_ACTIVE => (BIAS_VOLTAGE_2_5V, BIAS_VOLTAGE_2_5V)
  | BIAS_STATE_ACTIVE => (vcc_v / 2.0, vcc_v / 2.0)
  end%float.

(** ** src/fault_detector.cpp

    [static BusState prev_bus_state] inside [fault_detector_check_cbf] is
    one variable for the whole program: it is taken and handed back. *)

Definition fault_detector_init : FaultState :=
  mkFaultState false false false false false false UINT64_MAX UINT64_MAX 0.

Definition fault_detector_check_txdclp (st : FaultState) (txd_low : bool)
    (entering_mode : OperatingMode) : FaultState :=
  if OperatingMode_beq entering_mode MODE_NORMAL && txd_low
  then mkFaultState true (txddto_flag st) (txdrxd_flag st) (candom_flag st)
                    (tsd_flag st) (cbf_flag st) (txd_dominant_start st)
                    (bus_dominant_start st) (cbf_transition_count st)
  else st.

Definition set_txd_timer (st : FaultState) (txddto txdrxd : bool) (start : Z)
    : FaultState :=
  mkFaultState (txdclp_flag st) txddto txdrxd (candom_flag st) (tsd_flag st)
               (cbf_flag st) start (bus_dominant_start st)
               (cbf_transition_count st).

Definition fault_detector_check_txddto (st : FaultState) (txd_low : bool)
    (current_time : Z) : FaultState :=
  if txd_low then
    if txd_dominant_start st =? UINT64_MAX
    then set_txd_timer st (txddto_flag st) (txdrxd_flag st) current_time
    else
      let dominant_duration := sub64 current_time (txd_dominant_start st) in
      if dominant_duration >=? TTXDDTO_MIN_NS
      then set_txd_timer st true (txdrxd_flag st) (txd_dominant_start st)
      else st
  else set_txd_timer st (txddto_flag st) (txdrxd_flag st) UINT64_MAX.

Definition fault_detector_check_txdrxd (st : FaultState) (txd_low rxd_low : bool)
    (current_time : Z) : FaultState :=
  let shorted := Bool.eqb txd_low rxd_low in
  if shorted then
    if txd_dominant_start st =? UINT64_MAX
    then set_txd_timer st (txddto_flag st) (txdrxd_flag st) current_time
    else
      let short_duration := sub64 current_time (txd_dominant_start st) in
      if short_duration >=? TTXDDTO_MIN_NS
      then set_txd_timer st (txddto_flag st) true (txd_dominant_start st)
      else st
  else set_txd_timer st (txddto_flag st) (txdrxd_flag st) UINT64_MAX.

Definition set_bus_timer (st : FaultState) (candom : bool) (start : Z)
    : FaultState :=
  mkFaultState (txdclp_flag st) (txddto_flag st) (txdrxd_flag st) candom
               (tsd_flag st) (cbf_flag st) (txd_dominant_start st) start
               (cbf_transition_count st).

Definition fault_detector_check_candom (st : FaultState) (bus_state : BusState)
    (current_time : Z) : FaultState :=
  if BusState_beq bus_state BUS_STATE_DOMINANT then
    if bus_dominant_start st =? UINT64_MAX
    then set_bus_timer st (candom_flag st) current_time
    else
      let dominant_duration := sub64 current_time (bus_dominant_start st) in
      if dominant_duration >=? TBUSDOM_MIN_NS
      then set_bus_timer st true (bus_dominant_start st)
      else st
  else set_bus_timer st (candom_flag st) UINT64_MAX.

Definition fault_detector_check_tsd (st : FaultState) (tj_temperature : float)
    : FaultState :=
  mkFaultState (txdclp_flag st) (txddto_flag st) (txdrxd_flag st)
               (candom_flag st) (TSDR_CELSIUS <=? tj_temperature)%float
               (cbf_flag st) (txd_dominant_start st) (bus_dominant_start st)
               (cbf_transition_count st).

Definition set_cbf (st : FaultState) (cbf : bool) (count : Z) : FaultState :=
  mkFaultState (txdclp_flag st) (txddto_flag st) (txdrxd_flag st)
               (candom_flag st) (tsd_flag st) cbf (txd_dominant_start st)
               (bus_dominant_start st) count.

(** The counter is a C [int]; it is not wrapped here (it would take 2^31
    observed transitions to leave the range). *)
Definition fault_detector_check_cbf (prev_bus_state : BusState)
    (st : FaultState) (bus_state : BusState) (mode : OperatingMode)
    : BusState * FaultState :=
  if negb (OperatingMode_beq mode MODE_NORMAL)
     && negb (OperatingMode_beq mode MODE_SILENT)
  then (prev_bus_state, set_cbf st (cbf_flag st) 0)
  else
    let st1 :=
      if BusState_beq prev_bus_state BUS_STATE_DOMINANT
         && BusState_beq bus_state BUS_STATE_RECESSIVE
      then
        let count := cbf_transition_count st + 1 in
        set_cbf st (if count >=? 4 then true else cbf_flag st) count
      else st in
    (bus_state, st1).

Definition fault_detector_update (prev_bus_state : BusState) (st : FaultState)
    (txd_low rxd_low : bool) (bus_state : BusState) (tj_temperature : float)
    (current_time : Z) (mode : OperatingMode) : BusState * FaultState :=
  let st1 := fault_detector_check_txddto st txd_low current_time in
  let st2 := fault_detector_check_txdrxd st1 txd_low rxd_low current_time in
  let st3 := fault_detector_check_candom st2 bus_state current_time in
  let st4 := fault_detector_check_tsd st3 tj_temperature in
  fault_detector_check_cbf prev_bus_state st4 bus_state mode.

Definition fault_detector_has_any_fault (st : FaultState) : bool :=
  txdclp_flag st || txddto_flag st || txdrxd_flag st || candom_flag st
  || tsd_flag st || cbf_flag st.

Definition fault_detector_get_nfault_state (st : FaultState) : bool :=
  fault_detector_has_any_fault st.

Definition fault_detector_should_disable_driver (st : FaultState) : bool :=
  txdclp_flag st || txddto_flag st || txdrxd_flag st || tsd_flag st.

(** ** inh_controller.cpp *)

Definition TINH_SLP_STB_NS : Z := TINH_SLP_STB_US * 1000.
Definition INH_OUTPUT_VOLTAGE_DROP : float := 0.75%float.

Definition inh_controller_init : INHController :=
  mkINHController true false 0 false.

Definition inh_controller_update (c : INHController) (mode : OperatingMode)
    (inh_mask_high wake_event : bool) (current_time : Z) : INHController :=
  let enabled := negb inh_mask_high in
  if negb enabled
  then mkINHController enabled false (wake_event_time c) false
  else
    let wet := if wake_event then current_time else wake_event_time c in
    let pend1 := if wake_event then true else pending_inh_assertion c in
    let pend2 :=
      if pend1 && (sub64 current_time wet >=? TINH_SLP_STB_NS)
      then false else pend1 in
    let should_be_high :=
      match mode with
      | MODE_NORMAL | MODE_SILENT | MODE_STANDBY => true
      | MODE_SLEEP | MODE_GO_TO_SLEEP | MODE_OFF => false
      end in
    let out := if should_be_high && pend2 then false else should_be_high in
    mkINHController enabled out wet pend2.

Definition inh_controller_get_pin_state (c : INHController)
    : PinState * float :=
  if negb (inh_enabled c) || negb (inh_output_high c)
  then (PIN_STATE_HIGH_IMPEDANCE, 0.0%float)
  else (PIN_STATE_HIGH, (5.0 - INH_OUTPUT_VOLTAGE_DROP)%float).

(** ** tcan1463q1_simulator.h / tcan1463q1_simulator.cpp *)

Record TimingParameters := mkTimingParameters {
  tuv_ms : float;
  ttxddto_ms : float;
  tbusdom_ms : float;
  twk_filter_us : float;
  twk_timeout_ms : float;
  tsilence_s : float
}.

(** An address of the heap. *)
Definition addr := nat.

Record TCAN1463Q1Simulator := mkSim {
  pins : PinArray;
  mode_state : ModeState;
  can_transceiver : CANTransceiver;
  power_state : PowerState;
  fault_state : FaultState;
  wake_state : WakeState;
  bus_bias : BusBiasController;
  inh_controller : option addr;       (* INHController*, NULL is None *)
  timing : TimingEngine;
  tj_temperature : float;
  rl_resistance : float;
  cl_capacitance : float;
  timing_params : TimingParameters;
  callbacks : list (option addr)      (* heads of the five callback lists *)
}.

(** What lies outside every simulator structure: the two [static]
    variables and the heap cells the [inh_controller] pointers refer to. *)
Record Memory := mkMemory {
  last_bus_activity_time : Z;
  prev_bus_state : BusState;
  inh_heap : addr -> option INHController
}.

Definition heap_store (h : addr -> option INHController) (a : addr)
    (c : INHController) : addr -> option INHController :=
  fun b => if Nat.eqb b a then Some c else h b.

(** The state of the program before any call: statics at their
    initialisers, nothing allocated. *)
Definition initial_memory : Memory :=
  mkMemory 0 BUS_STATE_RECESSIVE (fun _ => None).

(** [*p] for the pointer of a simulator. *)
Definition deref_inh (m : Memory) (sim : TCAN1463Q1Simulator)
    : option INHController :=
  match inh_controller sim with
  | Some a => inh_heap m a
  | None => None
  end.

Definition default_timing_params : TimingParameters :=
  mkTimingParameters ((100 + 350) / 2.0) ((1.2 + 3.8) / 2.0)
                     ((1.4 + 3.8) / 2.0) ((0.5 + 1.8) / 2.0)
                     ((0.8 + 2.0) / 2.0) ((0.6 + 1.2) / 2.0)%float.

(** [tcan1463q1_simulator_reset]: everything but the controller pointer and
    the callback lists is re-initialised; [can_transceiver_init] also
    zeroes the file-scope activity time. *)
Definition tcan1463q1_simulator_reset (m : Memory) (sim : TCAN1463Q1Simulator)
    : Memory * TCAN1463Q1Simulator :=
  let ci := can_transceiver_init in
  let heap1 :=
    match inh_controller sim with
    | Some a => heap_store (inh_heap m) a inh_controller_init
    | None => inh_heap m
    end in
  (mkMemory (fst ci) (prev_bus_state m) heap1,
   mkSim pin_manager_init mode_controller_init (snd ci) power_monitor_init
         fault_detector_init wake_handler_init bus_bias_controller_init
         (inh_controller sim) timing_engine_init
         25.0%float 60.0%float 100e-12%float default_timing_params
         (callbacks sim)).

(** The structure after [memset(sim, 0, ...)]; every enumeration's first
    constant is its zero. *)
Definition zeroed_pin : Pin :=
  mkPin PIN_STATE_LOW 0.0%float false false 0.0%float 0.0%float.

Definition zeroed_sim : TCAN1463Q1Simulator :=
  mkSim (fun _ => zeroed_pin)
        (mkModeState MODE_NORMAL MODE_NORMAL 0 false)
        (mkCANTransceiver CAN_STATE_OFF false false 0.0%float 0.0%float
                          false false false 0)
        (mkPowerState 0.0%float 0.0%float 0.0%float false false false false 0 0)
        (mkFaultState false false false false false false 0 0 0)
        (mkWakeState false false false WUP_STATE_IDLE 0 0 false)
        (mkBusBiasController BIAS_STATE_OFF 0)
        None (mkTimingEngine 0 0) 0.0%float 0.0%float 0.0%float
        (mkTimingParameters 0.0 0.0 0.0 0.0 0.0 0.0)%float
        [None; None; None; None; None].

Definition set_inh_pointer (sim : TCAN1463Q1Simulator) (p : option addr)
    : TCAN1463Q1Simulator :=
  mkSim (pins sim) (mode_state sim) (can_transceiver sim) (power_state sim)
        (fault_state sim) (wake_state sim) (bus_bias sim) p (timing sim)
        (tj_temperature sim) (rl_resistance sim) (cl_capacitance sim)
        (timing_params sim) (callbacks sim).

(** [tcan1463q1_simulator_create]; [a] is what the allocator returns for the
    controller ([None]: allocation failed, the call returns NULL). *)
Definition tcan1463q1_simulator_create (m : Memory) (a : option addr)
    : Memory * option TCAN1463Q1Simulator :=
  match a with
  | None => (m, None)
  | Some p =>
      let r := tcan1463q1_simulator_reset m (set_inh_pointer zeroed_sim (Some p)) in
      (fst r, Some (snd r))
  end.

Definition set_pins (sim : TCAN1463Q1Simulator) (ps : PinArray)
    : TCAN1463Q1Simulator :=
  mkSim ps (mode_state sim) (can_transceiver sim) (power_state sim)
        (fault_state sim) (wake_state sim) (bus_bias sim) (inh_controller sim)
        (timing sim) (tj_temperature sim) (rl_resistance sim)
        (cl_capacitance sim) (timing_params sim) (callbacks sim).

(** [pin_set_value(&pins[p], st, v)] with the result ignored. *)
Definition write_pin (ps : PinArray) (p : PinType) (st : PinState) (v : float)
    : PinArray :=
  pin_store ps p (snd (pin_set_value (ps p) st v)).

Definition tcan1463q1_simulator_set_pin (sim : TCAN1463Q1Simulator) (pin : Z)
    (st : PinState) (v : float) : bool * TCAN1463Q1Simulator :=
  match pin_of_index pin with
  | None => (false, sim)
  | Some p =>
      let r := pin_set_value (pins sim p) st v in
      (fst r, set_pins sim (pin_store (pins sim) p (snd r)))
  end.

Definition tcan1463q1_simulator_get_pin (sim : TCAN1463Q1Simulator) (pin : Z)
    : option (PinState * float) :=
  match pin_of_index pin with
  | None => None
  | Some p => Some (pin_get_value (pins sim p))
  end.

Definition tcan1463q1_simulator_get_mode (sim : TCAN1463Q1Simulator)
    : OperatingMode :=
  current_mode (mode_state sim).

(** The twelve flags in the order of the output parameters: pwron, wakerq,
    wakesr, uvsup, uvcc, uvio, cbf, txdclp, txddto, txdrxd, candom, tsd. *)
Definition tcan1463q1_simulator_get_flags (sim : TCAN1463Q1Simulator)
    : list bool :=
  [ pwron_flag (power_state sim); wakerq_flag (wake_state sim);
    wakesr_flag (wake_state sim); uvsup_flag (power_state sim);
    uvcc_flag (power_state sim); uvio_flag (power_state sim);
    cbf_flag (fault_state sim); txdclp_flag (fault_state sim);
    txddto_flag (fault_state sim); txdrxd_flag (fault_state sim);
    candom_flag (fault_state sim); tsd_flag (fault_state sim) ].

(** *** tcan1463q1_simulator_step *)

(** "STEP 1: DRIVE BUS": the driven levels if the driver is enabled and no
    driver-disabling fault is present, the bias levels otherwise. *)
Definition drive_bus_pins (ct : CANTransceiver) (fs : FaultState)
    (bb : BusBiasController) (vcc_v : float) (txd_low : bool) (ps : PinArray)
    : CANTransceiver * PinArray :=
  if driver_enabled ct && negb (fault_detector_should_disable_driver fs) then
    let r := can_transceiver_drive_bus ct txd_low in
    let ps1 := write_pin ps PIN_CANH PIN_STATE_ANALOG (snd (fst r)) in
    (fst (fst r), write_pin ps1 PIN_CANL PIN_STATE_ANALOG (snd r))
  else
    let bias := bus_bias_controller_get_bias bb vcc_v in
    if negb (BusBiasState_beq (bias_state bb) BIAS_STATE_OFF) then
      let ps1 := write_pin ps PIN_CANH PIN_STATE_ANALOG (fst bias) in
      (ct, write_pin ps1 PIN_CANL PIN_STATE_ANALOG (snd bias))
    else
      let ps1 := write_pin ps PIN_CANH PIN_STATE_HIGH_IMPEDANCE 0.0%float in
      (ct, write_pin ps1 PIN_CANL PIN_STATE_HIGH_IMPEDANCE 0.0%float).

(** "INH output": written only through a non-null controller pointer. *)
Definition write_inh_pin (inh : option INHController) (ps : PinArray)
    : PinArray :=
  match inh with
  | Some c =>
      let r := inh_controller_get_pin_state c in
      write_pin ps PIN_INH (fst r) (snd r)
  | None => ps
  end.

(** The wake state right after the wake handler update of a step, before
    the mode controller runs, and the wake-request flag the step samples
    from it. *)
Definition step_wake_update (sim : TCAN1463Q1Simulator) (delta_ns : Z)
    : WakeState :=
  let current_time := add64 (timing_engine_get_time (timing sim)) delta_ns in
  let vdiff_prev :=
    (voltage (pins sim PIN_CANH) - voltage (pins sim PIN_CANL))%float in
  wake_handler_update (wake_state sim)
    (can_transceiver_get_bus_state vdiff_prev)
    (PinState_beq (state (pins sim PIN_WAKE)) PIN_STATE_HIGH)
    (current_mode (mode_state sim)) current_time.

Definition step_wakerq (sim : TCAN1463Q1Simulator) (delta_ns : Z) : bool :=
  wake_handler_get_wakerq (step_wake_update sim delta_ns).

(** The body of the step over what it reads outside the structure: the two
    statics and the controller the pointer refers to. *)
Definition step_core (lbat : Z) (prev : BusState) (inh : option INHController)
    (sim : TCAN1463Q1Simulator) (delta_ns : Z)
    : Z * BusState * option INHController * TCAN1463Q1Simulator :=
  let time_before_step := timing_engine_get_time (timing sim) in
  let tm := timing_engine_advance (timing sim) delta_ns in
  let current_time := timing_engine_get_time tm in
  (* input pins *)
  let txd_low := PinState_beq (state (pins sim PIN_TXD)) PIN_STATE_LOW in
  let en_high := PinState_beq (state (pins sim PIN_EN)) PIN_STATE_HIGH in
  let nstb_high := PinState_beq (state (pins sim PIN_NSTB)) PIN_STATE_HIGH in
  let wake_pin_high := PinState_beq (state (pins sim PIN_WAKE)) PIN_STATE_HIGH in
  let inh_mask_high :=
    PinState_beq (state (pins sim PIN_INH_MASK)) PIN_STATE_HIGH in
  (* supplies *)
  let vsup_v := voltage (pins sim PIN_VSUP) in
  let vcc_v := voltage (pins sim PIN_VCC) in
  let vio_v := voltage (pins sim PIN_VIO) in
  let ps0 := power_monitor_update (power_state sim) vsup_v vcc_v vio_v
                                  current_time in
  let vsup_valid := power_monitor_is_vsup_valid ps0 in
  (* wake handler, on the bus as the previous step left it *)
  let canh_voltage_prev := voltage (pins sim PIN_CANH) in
  let canl_voltage_prev := voltage (pins sim PIN_CANL) in
  let vdiff_prev := (canh_voltage_prev - canl_voltage_prev)%float in
  let bus_state_prev := can_transceiver_get_bus_state vdiff_prev in
  let ws0 := wake_handler_update (wake_state sim) bus_state_prev wake_pin_high
                                 (current_mode (mode_state sim)) current_time in
  let wakerq := wake_handler_get_wakerq ws0 in
  (* mode controller *)
  let old_mode := current_mode (mode_state sim) in
  let ms := mode_controller_update (mode_state sim) en_high nstb_high
                                   vsup_valid wakerq current_time in
  let new_mode := current_mode ms in
  let entering_normal :=
    OperatingMode_beq new_mode MODE_NORMAL
    && negb (OperatingMode_beq old_mode MODE_NORMAL) in
  let ps1 := if entering_normal then power_monitor_clear_pwron_flag ps0
             else ps0 in
  let ws1 := if entering_normal then wake_handler_clear_flags ws0 else ws0 in
  (* transceiver state machine, twice, and the bias controller *)
  let r1 := can_transceiver_update lbat (can_transceiver sim) new_mode txd_low
              canh_voltage_prev canl_voltage_prev current_time in
  let r2 := can_transceiver_update_state_machine (fst r1) (snd r1) new_mode
              bus_state_prev vsup_valid current_time in
  let bb := bus_bias_controller_update (bus_bias sim) (can_state (snd r2))
              bus_state_prev current_time in
  (* mode entry fault *)
  let fs0 := if entering_normal
             then fault_detector_check_txdclp (fault_state sim) txd_low new_mode
             else fault_state sim in
  (* inhibit controller *)
  let inh1 :=
    match inh with
    | Some c => Some (inh_controller_update c new_mode inh_mask_high wakerq
                                            current_time)
    | None => None
    end in
  (* drive the bus, read it back *)
  let dr := drive_bus_pins (snd r2) fs0 bb vcc_v txd_low (pins sim) in
  let canh_v := voltage (snd dr PIN_CANH) in
  let canl_v := voltage (snd dr PIN_CANL) in
  let bus_state := can_transceiver_get_bus_state (canh_v - canl_v)%float in
  (* receive output *)
  let ct := can_transceiver_update_rxd (fst dr) bus_state current_time
                                       time_before_step in
  let rxd_high := rxd_output ct in
  (* fault detector *)
  let fr := fault_detector_update prev fs0 txd_low (negb rxd_high) bus_state
              (tj_temperature sim) current_time new_mode in
  (* output pins *)
  let pa := write_pin (snd dr) PIN_RXD
              (if rxd_high then PIN_STATE_HIGH else PIN_STATE_LOW)
              (if rxd_high then vio_v else 0.0%float) in
  let nfault_low := fault_detector_get_nfault_state (snd fr) || wakerq in
  let pb := write_pin pa PIN_NFAULT
              (if nfault_low then PIN_STATE_LOW else PIN_STATE_HIGH)
              (if nfault_low then 0.0%float else vio_v) in
  let pc := write_inh_pin inh1 pb in
  (fst r2, fst fr, inh1,
   mkSim pc ms ct ps1 (snd fr) ws1 bb (inh_controller sim) tm
         (tj_temperature sim) (rl_resistance sim) (cl_capacitance sim)
         (timing_params sim) (callbacks sim)).

Definition tcan1463q1_simulator_step (m : Memory) (sim : TCAN1463Q1Simulator)
    (delta_ns : Z) : Memory * TCAN1463Q1Simulator :=
  let r := step_core (last_bus_activity_time m) (prev_bus_state m)
                     (deref_inh m sim) sim delta_ns in
  let heap1 :=
    match inh_controller sim, snd (fst r) with
    | Some a, Some c => heap_store (inh_heap m) a c
    | _, _ => inh_heap m
    end in
  (mkMemory (fst (fst (fst r))) (snd (fst (fst r))) heap1, snd r).

(** *** Snapshot and restore

    The byte image a snapshot holds is represented by the structure value
    it was copied from; [sizeof_sim] stands for
    [sizeof(TCAN1463Q1Simulator)], which the sources leave to the compiler. *)

Record SimulatorSnapshot := mkSnapshot {
  data : option TCAN1463Q1Simulator;   (* uint8_t*, NULL is None *)
  size : Z
}.

Section Snapshot.

Variable sizeof_sim : Z.

(** The two booleans say whether each [malloc] succeeds. *)
Definition tcan1463q1_simulator_snapshot (sim : TCAN1463Q1Simulator)
    (snapshot_allocated data_allocated : bool) : option SimulatorSnapshot :=
  if negb snapshot_allocated then None
  else if negb data_allocated then None
  else Some (mkSnapshot (Some sim) sizeof_sim).

Definition tcan1463q1_simulator_restore (sim : TCAN1463Q1Simulator)
    (snapshot : option SimulatorSnapshot) : bool * TCAN1463Q1Simulator :=
  match snapshot with
  | None => (false, sim)
  | Some s =>
      match data s with
      | None => (false, sim)
      | Some image =>
          if negb (size s =? sizeof_sim) then (false, sim)
          else (true, set_inh_pointer image (inh_controller sim))
      end
  end.

End Snapshot.

(** Everything a caller can query: the mode, the twelve flags, every pin's
    state and voltage, and the simulated time. *)
Definition observe (sim : TCAN1463Q1Simulator)
    : OperatingMode * list bool * (PinType -> PinState * float) * Z :=
  (tcan1463q1_simulator_get_mode sim,
   tcan1463q1_simulator_get_flags sim,
   (fun p => pin_get_value (pins sim p)),
   timing_engine_get_time (timing sim)).

(** ** Call sequences used in the examples *)

Definition World := (Memory * TCAN1463Q1Simulator)%type.

Definition set_input (w : World) (p : PinType) (st : PinState) (v : float)
    : World :=
  (fst w, snd (tcan1463q1_simulator_set_pin (snd w) (pin_index p) st v)).

Definition step (w : World) (delta_ns : Z) : World :=
  tcan1463q1_simulator_step (fst w) (snd w) delta_ns.

Fixpoint steps (w : World) (deltas : list Z) : World :=
  match deltas with
  | [] => w
  | d :: rest => steps (step w d) rest
  end.

(** A simulator created with its controller at heap address [a]. *)
Definition created (m : Memory) (a : addr) : World :=
  let r := tcan1463q1_simulator_create m (Some a) in
  (fst r, match snd r with Some s => s | None => zeroed_sim end).

(** The way the repository's tests reach Normal mode: EN, nSTB and TXD
    high, a 500 ms step, then 10 us to settle. *)
Definition to_normal (w : World) : World :=
  let w1 := set_input w PIN_EN PIN_STATE_HIGH 3.3%float in
  let w2 := set_input w1 PIN_NSTB PIN_STATE_HIGH 3.3%float in
  let w3 := set_input w2 PIN_TXD PIN_STATE_HIGH 3.3%float in
  steps w3 [500000000; 10000].

Definition normal_world : World := to_normal (created initial_memory 1%nat).

(** From Normal to Sleep (nSTB low, a 1 us step into Go-to-Sleep, then
    700 ms of silence), then one edge on the WAKE pin, not yet stepped. *)
Definition woken_world : World :=
  let w1 := set_input normal_world PIN_NSTB PIN_STATE_LOW 0.0%float in
  let w2 := steps w1 [1000; 700000000] in
  let w3 := set_input w2 PIN_WAKE PIN_STATE_HIGH 3.3%float in
  w3.

(** Standby with a wake request recorded (wake-request and wake-source
    flags set), then nSTB raised: the next step enters Normal. *)
Definition standby_to_normal : World :=
  set_input (step woken_world 1000) PIN_NSTB PIN_STATE_HIGH 3.3%float.

(** Normal mode, then TXD pulled low: the transmit-level change whose
    effect on RXD the next step shows. *)
Definition txd_falls : World :=
  set_input normal_world PIN_TXD PIN_STATE_LOW 0.0%float.

(** A 10 ns dominant pulse on TXD, then steps to 20, 140, 150 and 200 ns
    after the falling edge. *)
Definition short_pulse : World :=
  let w1 := step txd_falls 10 in
  let w2 := set_input w1 PIN_TXD PIN_STATE_HIGH 3.3%float in
  steps w2 [10; 120; 10; 50].

(** Two simulators in one program: [a] at heap address 1, [b] at address 2,
    both brought to Normal mode, then [b] transmitting dominant. *)
Record TwoInstances := mkTwo {
  shared : Memory;
  inst_a : TCAN1463Q1Simulator;
  inst_b : TCAN1463Q1Simulator
}.

Definition step_a (t : TwoInstances) (d : Z) : TwoInstances :=
  let r := tcan1463q1_simulator_step (shared t) (inst_a t) d in
  mkTwo (fst r) (snd r) (inst_b t).

Definition step_b (t : TwoInstances) (d : Z) : TwoInstances :=
  let r := tcan1463q1_simulator_step (shared t) (inst_b t) d in
  mkTwo (fst r) (inst_a t) (snd r).

Definition two_normal : TwoInstances :=
  let wa := to_normal (created initial_memory 1%nat) in
  let wb := to_normal (created (fst wa) 2%nat) in
  let wb1 := set_input wb PIN_TXD PIN_STATE_LOW 0.0%float in
  mkTwo (fst wb1) (snd wa) (snd wb1).

(** [n] rounds of "step [b], then step [a]", 10 ns each. *)
Fixpoint interleaved (n : nat) (t : TwoInstances) : TwoInstances :=
  match n with
  | O => t
  | S k => interleaved k (step_a (step_b t 10) 10)
  end.

Definition three_rounds : TwoInstances := interleaved 3 two_normal.

(** A memory holding the same statics as [shared three_rounds] and, at
    address 1, a copy of the controller of instance [a]; nothing else. *)
Definition private_copy : Memory :=
  mkMemory (last_bus_activity_time (shared three_rounds))
           (prev_bus_state (shared three_rounds))
           (heap_store (fun _ => None) 1%nat
              (match deref_inh (shared three_rounds) (inst_a three_rounds) with
               | Some c => c
               | None => inh_controller_init
               end)).

(** ** Runs of single components *)

(** One set of arguments of [mode_controller_update]. *)
Record ModeInputs := mkModeInputs {
  in_en_high : bool;
  in_nstb_high : bool;
  in_vsup_valid : bool;
  in_wakerq_set : bool;
  in_time : Z
}.

Definition mode_controller_apply (st : ModeState) (i : ModeInputs) : ModeState :=
  mode_controller_update st (in_en_high i) (in_nstb_high i) (in_vsup_valid i)
                         (in_wakerq_set i) (in_time i).

(** The modes a sequence of updates goes through, the starting one first. *)
Fixpoint mode_trace (st : ModeState) (inputs : list ModeInputs)
    : list OperatingMode :=
  current_mode st ::
  match inputs with
  | [] => []
  | i :: rest => mode_trace (mode_controller_apply st i) rest
  end.

(** Every two consecutive modes are equal or a pair of the table. *)
Fixpoint table_chain (l : list OperatingMode) : Prop :=
  match l with
  | a :: ((b :: _) as rest) =>
      (a = b \/ In (a, b) valid_transitions) /\ table_chain rest
  | _ => True
  end.

(** [fault_detector_update] called repeatedly with TXD and RXD both high
    (both "low" arguments false); a call is (bus state, temperature,
    time, mode). *)
Fixpoint both_high_updates (prev : BusState) (st : FaultState)
    (calls : list (BusState * float * Z * OperatingMode))
    : BusState * FaultState :=
  match calls with
  | [] => (prev, st)
  | (bus, tj, t, mode) :: rest =>
      let r := fault_detector_update prev st false false bus tj t mode in
      both_high_updates (fst r) (snd r) rest
  end.





(** ** The specification's sentences that the code does not satisfy, as
    propositions *)

(** "The fault indicator is asserted iff at least one of the six fault
    flags is set", after a step. *)
Definition fault_aggregation_claim : Prop :=
  forall (m : Memory) (sim : TCAN1463Q1Simulator) (d : Z),
    let sim' := snd (tcan1463q1_simulator_step m sim d) in
    state (pins sim' PIN_NFAULT) = PIN_STATE_LOW <->
    fault_detector_has_any_fault (fault_state sim') = true.

Definition bus_of (sim : TCAN1463Q1Simulator) : BusState :=
  can_transceiver_get_bus_state
    (voltage (pins sim PIN_CANH) - voltage (pins sim PIN_CANL))%float.



(** "Stepping an instance depends only on that instance": a step of
    another instance in between does not change what a step yields. *)
Definition instance_isolation_claim : Prop :=
  forall (m : Memory) (a b : TCAN1463Q1Simulator) (da db : Z),
    inh_controller a <> inh_controller b ->
    observe (snd (tcan1463q1_simulator_step
                    (fst (tcan1463q1_simulator_step m b db)) a da))
    = observe (snd (tcan1463q1_simulator_step m a da)).

(** The pins the step only reads. *)
Definition input_and_supply_pins : list PinType :=
  [PIN_TXD; PIN_EN; PIN_NSTB; PIN_WAKE; PIN_INH_MASK;
   PIN_VSUP; PIN_VCC; PIN_VIO; PIN_GND].




(** The bus may change between calls: a call is (bus state,
    current_time, schedule_time). *)
Fixpoint rxd_calls (t : CANTransceiver) (calls : list (BusState * Z * Z))
    : CANTransceiver :=
  match calls with
  | [] => t
  | (bus, c, s) :: rest =>
      rxd_calls (can_transceiver_update_rxd t bus c s) rest
  end.

(** The states the API leads to: a reset (which ends creation too), an
    external pin write, a step, and any call that leaves the pin array as
    some such state has it. *)
Inductive api_reachable : TCAN1463Q1Simulator -> Prop :=
| reach_reset (m : Memory) (sim : TCAN1463Q1Simulator) :
    api_reachable (snd (tcan1463q1_simulator_reset m sim))
| reach_set_pin (sim : TCAN1463Q1Simulator) (i : Z) (st : PinState)
    (v : float) :
    api_reachable sim ->
    api_reachable (snd (tcan1463q1_simulator_set_pin sim i st v))
| reach_step (m : Memory) (sim : TCAN1463Q1Simulator) (d : Z) :
    api_reachable sim ->
    api_reachable (snd (tcan1463q1_simulator_step m sim d))
| reach_same_pins (sim sim' : TCAN1463Q1Simulator) :
    (* configuration setters, and a restore of a snapshot of [sim] *)
    api_reachable sim -> pins sim' = pins sim -> api_reachable sim'.

(** Every pin carries the range of the static table. *)
Definition pins_static_ok (ps : PinArray) : Prop :=
  forall p, min_voltage (ps p) = fst (pin_voltage_ranges p)
            /\ max_voltage (ps p) = snd (pin_voltage_ranges p).

(** The VIO pin stores a voltage its validation lets through. *)
Definition vio_ok (ps : PinArray) : Prop :=
  (voltage (ps PIN_VIO) =? 0.0)%float = true
  \/ ((voltage (ps PIN_VIO) <? 1.65)%float = false
      /\ (5.5 <? voltage (ps PIN_VIO))%float = false).

(** ** The rest of the pin API *)

Definition pin_manager_get_pin_info (ps : PinArray) (pin_type : Z)
    : option (bool * bool * float * float) :=
  match pin_of_index pin_type with
  | None => None
  | Some p =>
      Some (is_input (ps p), is_output (ps p),
            min_voltage (ps p), max_voltage (ps p))
  end.

Definition tcan1463q1_simulator_get_pin_info (sim : TCAN1463Q1Simulator)
    (pin : Z) : option (bool * bool * float * float) :=
  match pin_of_index pin with
  | None => None
  | Some p =>
      Some (is_input (pins sim p), is_output (pins sim p),
            min_voltage (pins sim p), max_voltage (pins sim p))
  end.




(** A property of every pin of the array, by pin. *)
Definition pins_forall (Q : PinType -> Pin -> Prop) (ps : PinArray) : Prop :=
  forall p, Q p (ps p).

(** The pin carries the direction and range of the static tables. *)
Definition pin_table_ok (p : PinType) (pin : Pin) : Prop :=
  is_input pin = fst (pin_directions p)
  /\ is_output pin = snd (pin_directions p)
  /\ min_voltage pin = fst (pin_voltage_ranges p)
  /\ max_voltage pin = snd (pin_voltage_ranges p).

(** The stored voltage compares equal to zero or is not outside the pin's
    range, in the sense of the two comparisons of [pin_validate_voltage]. *)
Definition stored_voltage_ok (pin : Pin) : Prop :=
  (voltage pin =? 0.0)%float = true
  \/ ((voltage pin <? min_voltage pin)%float = false
      /\ (max_voltage pin <? voltage pin)%float = false).

Definition pin_wellformed (p : PinType) (pin : Pin) : Prop :=
  pin_table_ok p pin /\ stored_voltage_ok pin.

(** Whether a voltage on a supply pin is in the undervoltage region of the
    power monitor: the comparisons of [power_monitor_update]. *)
Definition supply_undervoltage (p : PinType) (v : float) : bool :=
  match p with
  | PIN_VSUP => (v <=? UVSUP_FALLING_MIN)%float
  | PIN_VCC => (v <? UVCC_FALLING_MAX)%float
  | PIN_VIO => (v <? UVIO_FALLING_MAX)%float
  | _ => false
  end.

(** ** The rest of the timing engine *)

Definition timing_engine_add_delay (e : TimingEngine) (base_time delay_ns : Z)
    : Z :=
  add64 base_time delay_ns.

Definition timing_engine_is_timeout (e : TimingEngine) (start_time timeout_ns : Z)
    : bool :=
  let current_time := current_time_ns e in
  let elapsed := sub64 current_time start_time in
  elapsed >=? timeout_ns.

(** ** Runs of the power monitor *)

(** The arguments of one [power_monitor_update] call. *)
Record PowerInputs := mkPowerInputs {
  pi_vsup : float;
  pi_vcc : float;
  pi_vio : float;
  pi_time : Z
}.

Fixpoint power_monitor_updates (st : PowerState) (calls : list PowerInputs)
    : PowerState :=
  match calls with
  | [] => st
  | c :: rest =>
      power_monitor_updates
        (power_monitor_update st (pi_vsup c) (pi_vcc c) (pi_vio c) (pi_time c))
        rest
  end.

(** Some call comes at least the filter time after [t0]. *)
Definition filter_time_reached (t0 : Z) (calls : list PowerInputs) : bool :=
  existsb (fun c => t0 + TUV_MIN_NS <=? pi_time c) calls.

(** ** Runs of the fault detector *)

(** The arguments of one [fault_detector_update] call. *)
Record FaultInputs := mkFaultInputs {
  fi_txd_low : bool;
  fi_rxd_low : bool;
  fi_bus : BusState;
  fi_tj : float;
  fi_time : Z;
  fi_mode : OperatingMode
}.

Fixpoint fault_detector_updates (prev : BusState) (st : FaultState)
    (calls : list FaultInputs) : BusState * FaultState :=
  match calls with
  | [] => (prev, st)
  | c :: rest =>
      let r := fault_detector_update prev st (fi_txd_low c) (fi_rxd_low c)
                 (fi_bus c) (fi_tj c) (fi_time c) (fi_mode c) in
      fault_detector_updates (fst r) (snd r) rest
  end.

(** Some call comes at least [limit] after [t0]. *)
Definition timeout_reached (t0 limit : Z) (calls : list FaultInputs) : bool :=
  existsb (fun c => t0 + limit <=? fi_time c) calls.


(** EN and nSTB high with TXD pulled low on a freshly created simulator:
    the next step enters Normal mode with TXD low. *)
Definition clamped_entry : World :=
  let w1 := set_input (created initial_memory 1%nat) PIN_EN PIN_STATE_HIGH
              3.3%float in
  let w2 := set_input w1 PIN_NSTB PIN_STATE_HIGH 3.3%float in
  set_input w2 PIN_TXD PIN_STATE_LOW 0.0%float.

(** ** Runs of the wake handler *)

(** The arguments of one [wake_handler_update] call. *)
Record WakeInputs := mkWakeInputs {
  wi_bus : BusState;
  wi_wake_pin_high : bool;
  wi_mode : OperatingMode;
  wi_time : Z
}.

Fixpoint wake_handler_updates (st : WakeState) (calls : list WakeInputs)
    : WakeState :=
  match calls with
  | [] => st
  | c :: rest =>
      wake_handler_updates
        (wake_handler_update st (wi_bus c) (wi_wake_pin_high c) (wi_mode c)
           (wi_time c))
        rest
  end.

(** Normal mode, then VSUP taken to 0 V: a first write leaves the pin in
    a digital state, for which the second write's 0 V is accepted. *)
Definition supply_lost : World :=
  let w1 := set_input normal_world PIN_VSUP PIN_STATE_LOW 12.0%float in
  set_input w1 PIN_VSUP PIN_STATE_LOW 0.0%float.

(** The inhibit controller the simulator of [woken_world] points to. *)
Definition woken_inh : INHController :=
  Eval vm_compute in
    match deref_inh (fst woken_world) (snd woken_world) with
    | Some c => c
    | None => inh_controller_init
    end.

(** ** Configuration: tcan1463q1_simulator.cpp *)

Definition TTXDDTO_MAX_MS : float := 3.8%float.
Definition TBUSDOM_MAX_MS : float := 3.8%float.
Definition TWK_FILTER_MAX_US : float := 1.8%float.
Definition TWK_TIMEOUT_MIN_MS : float := 0.8%float.
Definition TSILENCE_MAX_S : float := 1.2%float.

(** [sim->power_state.vsup = vsup; ... vcc ...; ... vio ...]. *)
Definition set_power_voltages (sim : TCAN1463Q1Simulator)
    (vsup_v vcc_v vio_v : float) : TCAN1463Q1Simulator :=
  let ps := power_state sim in
  mkSim (pins sim) (mode_state sim) (can_transceiver sim)
        (mkPowerState vsup_v vcc_v vio_v (uvsup_flag ps) (uvcc_flag ps)
                      (uvio_flag ps) (pwron_flag ps) (uvcc_start_time ps)
                      (uvio_start_time ps))
        (fault_state sim) (wake_state sim) (bus_bias sim) (inh_controller sim)
        (timing sim) (tj_temperature sim) (rl_resistance sim)
        (cl_capacitance sim) (timing_params sim) (callbacks sim).

(** The three fields no component reads: junction temperature aside, the
    load values and the timing parameters. *)
Definition set_environment (sim : TCAN1463Q1Simulator) (tj rl cl : float)
    (tp : TimingParameters) : TCAN1463Q1Simulator :=
  mkSim (pins sim) (mode_state sim) (can_transceiver sim) (power_state sim)
        (fault_state sim) (wake_state sim) (bus_bias sim) (inh_controller sim)
        (timing sim) tj rl cl tp (callbacks sim).

Definition tcan1463q1_simulator_configure (sim : TCAN1463Q1Simulator)
    (vsup_v vcc_v vio_v tj rl cl : float) : TCAN1463Q1Simulator :=
  set_environment (set_power_voltages sim vsup_v vcc_v vio_v) tj rl cl
                  (timing_params sim).

(** [x >= a && x <= b] on doubles. *)
Definition tcan1463q1_simulator_validate_vsup (vsup_v : float) : bool :=
  (0.0 <=? vsup_v)%float && (vsup_v <=? 40.0)%float.

Definition tcan1463q1_simulator_validate_vcc (vcc_v : float) : bool :=
  (0.0 <=? vcc_v)%float && (vcc_v <=? 6.0)%float.

Definition tcan1463q1_simulator_validate_vio (vio_v : float) : bool :=
  (0.0 <=? vio_v)%float && (vio_v <=? 5.5)%float.

(** [TUV_MIN_MS] and [TUV_MAX_MS] are the integers 100 and 350; the
    comparison converts them to double. *)
Definition tcan1463q1_simulator_validate_timing_parameters
    (params : TimingParameters) : bool :=
  if (tuv_ms params <? 100.0)%float || (350.0 <? tuv_ms params)%float
  then false
  else if (ttxddto_ms params <? TTXDDTO_MIN_MS)%float
          || (TTXDDTO_MAX_MS <? ttxddto_ms params)%float then false
  else if (tbusdom_ms params <? TBUSDOM_MIN_MS)%float
          || (TBUSDOM_MAX_MS <? tbusdom_ms params)%float then false
  else if (twk_filter_us params <? TWK_FILTER_MIN_US)%float
          || (TWK_FILTER_MAX_US <? twk_filter_us params)%float then false
  else if (twk_timeout_ms params <? TWK_TIMEOUT_MIN_MS)%float
          || (TWK_TIMEOUT_MAX_MS <? twk_timeout_ms params)%float then false
  else if (tsilence_s params <? TSILENCE_MIN_S)%float
          || (TSILENCE_MAX_S <? tsilence_s params)%float then false
  else true.

Definition tcan1463q1_simulator_set_supply_voltages
    (sim : TCAN1463Q1Simulator) (vsup_v vcc_v vio_v : float)
    : bool * TCAN1463Q1Simulator :=
  if negb (tcan1463q1_simulator_validate_vsup vsup_v) then (false, sim)
  else if negb (tcan1463q1_simulator_validate_vcc vcc_v) then (false, sim)
  else if negb (tcan1463q1_simulator_validate_vio vio_v) then (false, sim)
  else (true, set_power_voltages sim vsup_v vcc_v vio_v).

Definition tcan1463q1_simulator_set_bus_parameters
    (sim : TCAN1463Q1Simulator) (rl cl : float)
    : bool * TCAN1463Q1Simulator :=
  if (rl <? 0.0)%float || (cl <? 0.0)%float then (false, sim)
  else (true, set_environment sim (tj_temperature sim) rl cl
                              (timing_params sim)).

Definition tcan1463q1_simulator_set_timing_parameters
    (sim : TCAN1463Q1Simulator) (params : TimingParameters)
    : bool * TCAN1463Q1Simulator :=
  if negb (tcan1463q1_simulator_validate_timing_parameters params)
  then (false, sim)
  else (true, set_environment sim (tj_temperature sim) (rl_resistance sim)
                              (cl_capacitance sim) params).

Definition tcan1463q1_simulator_get_timing_parameters
    (sim : TCAN1463Q1Simulator) : TimingParameters :=
  timing_params sim.

(** ** Running until a condition holds *)

(** The loop of [tcan1463q1_simulator_run_until]. The condition callback
    is taken as a function of the structure that does not write to it.
    [elapsed] is recomputed from the clock at the loop head: it is 0 before
    the first iteration, as in the source, the start time being the clock
    then. [fuel] bounds the iterations followed; [None] says the loop has
    not ended within them. *)
Fixpoint run_until_loop (fuel : nat)
    (condition : TCAN1463Q1Simulator -> bool) (start_time timeout_ns : Z)
    (w : World) : option (bool * World) :=
  match fuel with
  | O => None
  | S k =>
      let elapsed :=
        sub64 (timing_engine_get_time (timing (snd w))) start_time in
      if elapsed <? timeout_ns then
        if condition (snd w) then Some (true, w)
        else run_until_loop k condition start_time timeout_ns (step w 1000)
      else Some (condition (snd w), w)
  end.

(** [condition] is [None] for a null function pointer. *)
Definition tcan1463q1_simulator_run_until (fuel : nat)
    (condition : option (TCAN1463Q1Simulator -> bool)) (timeout_ns : Z)
    (w : World) : option (bool * World) :=
  match condition with
  | None => Some (false, w)
  | Some c =>
      run_until_loop fuel c (timing_engine_get_time (timing (snd w)))
                     timeout_ns w
  end.

(** The time that has passed on the clock of [w'] since [w]. *)
Definition elapsed_since (w w' : World) : Z :=
  sub64 (timing_engine_get_time (timing (snd w')))
        (timing_engine_get_time (timing (snd w))).

(** * Properties *)

(** ** Enumerations *)

Lemma PinType_beq_eq (p q : PinType) : PinType_beq p q = true <-> p = q.
Proof. destruct p, q; simpl; split; intro H; congruence. Qed.

Lemma PinType_beq_refl (p : PinType) : PinType_beq p p = true.
Proof. destruct p; reflexivity. Qed.

Lemma PinType_beq_neq (p q : PinType) : p <> q -> PinType_beq p q = false.
Proof.
  intro H. destruct (PinType_beq p q) eqn:E; [|reflexivity].
  apply PinType_beq_eq in E. contradiction.
Qed.

Lemma OperatingMode_beq_eq (a b : OperatingMode) :
  OperatingMode_beq a b = true <-> a = b.
Proof. destruct a, b; simpl; split; intro H; congruence. Qed.

Lemma pin_of_index_pin_index (p : PinType) : pin_of_index (pin_index p) = Some p.
Proof. destruct p; reflexivity. Qed.

Lemma pin_of_index_inv (i : Z) (p : PinType) :
  pin_of_index i = Some p -> i = pin_index p.
Proof.
  unfold pin_of_index.
  destruct ((i <? 0) || (i >=? 14)); [discriminate|].
  intro H. apply find_some in H. destruct H as [_ H].
  apply Z.eqb_eq in H. symmetry. exact H.
Qed.

(** ** Pin store *)

Lemma pin_store_same (ps : PinArray) (p : PinType) (x : Pin) :
  pin_store ps p x p = x.
Proof. unfold pin_store. rewrite PinType_beq_refl. reflexivity. Qed.

Lemma pin_store_other (ps : PinArray) (p q : PinType) (x : Pin) :
  q <> p -> pin_store ps p x q = ps q.
Proof. intro H. unfold pin_store. rewrite PinType_beq_neq; auto. Qed.

Lemma write_pin_other (ps : PinArray) (p q : PinType) (st : PinState)
    (v : float) :
  q <> p -> write_pin ps p st v q = ps q.
Proof. intro H. unfold write_pin. apply pin_store_other. exact H. Qed.

Lemma pin_set_value_rejected (pin : Pin) (st : PinState) (v : float) :
  fst (pin_set_value pin st v) = false -> snd (pin_set_value pin st v) = pin.
Proof.
  unfold pin_set_value. destruct (pin_validate_voltage pin v); simpl.
  - discriminate.
  - reflexivity.
Qed.

Lemma pin_set_value_accepted (pin : Pin) (st : PinState) (v : float) :
  pin_validate_voltage pin v = true ->
  pin_set_value pin st v =
  (true, mkPin st v (is_input pin) (is_output pin)
               (min_voltage pin) (max_voltage pin)).
Proof. intro H. unfold pin_set_value. rewrite H. reflexivity. Qed.

Lemma pin_set_value_fst (pin : Pin) (st : PinState) (v : float) :
  fst (pin_set_value pin st v) = pin_validate_voltage pin v.
Proof.
  unfold pin_set_value. destruct (pin_validate_voltage pin v); reflexivity.
Qed.

(** The pin store's [set]: it succeeds exactly on an input-capable pin whose
    validation passes, and a failed call leaves every pin as it was. *)
Lemma pin_manager_set_pin_succeeds_iff (ps : PinArray) (p : PinType)
    (st : PinState) (v : float) :
  fst (pin_manager_set_pin ps (pin_index p) st v) = true <->
  is_input (ps p) = true /\ pin_validate_voltage (ps p) v = true.
Proof.
  unfold pin_manager_set_pin. rewrite pin_of_index_pin_index.
  destruct (is_input (ps p)); simpl.
  - rewrite pin_set_value_fst. tauto.
  - split; [discriminate | intros [H _]; discriminate].
Qed.

Lemma pin_manager_set_pin_failure_unchanged (ps : PinArray) (i : Z)
    (st : PinState) (v : float) (q : PinType) :
  fst (pin_manager_set_pin ps i st v) = false ->
  snd (pin_manager_set_pin ps i st v) q = ps q.
Proof.
  unfold pin_manager_set_pin.
  destruct (pin_of_index i) as [p|]; [|reflexivity].
  destruct (is_input (ps p)); simpl; [|reflexivity].
  intro H. apply pin_set_value_rejected in H. rewrite H.
  unfold pin_store. destruct (PinType_beq q p) eqn:E; [|reflexivity].
  apply PinType_beq_eq in E. subst. reflexivity.
Qed.

Lemma simulator_set_pin_failure_unchanged (sim : TCAN1463Q1Simulator) (i : Z)
    (st : PinState) (v : float) (q : PinType) :
  fst (tcan1463q1_simulator_set_pin sim i st v) = false ->
  pins (snd (tcan1463q1_simulator_set_pin sim i st v)) q = pins sim q.
Proof.
  unfold tcan1463q1_simulator_set_pin.
  destruct (pin_of_index i) as [p|]; [|reflexivity].
  simpl. intro H. apply pin_set_value_rejected in H. rewrite H.
  unfold pin_store. destruct (PinType_beq q p) eqn:E; [|reflexivity].
  apply PinType_beq_eq in E. subst. reflexivity.
Qed.

(** The simulator's [set_pin] has no direction check: it succeeds exactly
    when validation passes. *)
Lemma simulator_set_pin_succeeds_iff (sim : TCAN1463Q1Simulator) (p : PinType)
    (st : PinState) (v : float) :
  fst (tcan1463q1_simulator_set_pin sim (pin_index p) st v)
  = pin_validate_voltage (pins sim p) v.
Proof.
  unfold tcan1463q1_simulator_set_pin. rewrite pin_of_index_pin_index.
  simpl. apply pin_set_value_fst.
Qed.

(** C2. The external pin-set operation of the simulator accepts a write to
    RXD, a pin without input capability, on a freshly created simulator,
    and the pin takes the written state; the pin store's own set operation
    rejects the same call. *)
Theorem simulator_set_pin_accepts_output_only_pin :
  let sim := snd (created initial_memory 1%nat) in
  let r := tcan1463q1_simulator_set_pin sim (pin_index PIN_RXD)
             PIN_STATE_LOW 0.0%float in
  is_input (pins sim PIN_RXD) = false
  /\ state (pins sim PIN_RXD) = PIN_STATE_HIGH
  /\ fst r = true
  /\ state (pins (snd r) PIN_RXD) = PIN_STATE_LOW
  /\ fst (pin_manager_set_pin (pins sim) (pin_index PIN_RXD)
            PIN_STATE_LOW 0.0%float) = false.
Proof. vm_compute. repeat split. Qed.

(** C10. Validation consults the state the pin currently stores: a pin that
    stores a non-ANALOG state accepts 0.0 V whatever its range and whatever
    state is being assigned; a pin that stores ANALOG gets the plain range
    check; so after initialisation the supply pins VSUP, VCC and VIO reject
    a digital state with 0.0 V and keep their value. *)
Theorem pin_validate_voltage_uses_stored_state (pin : Pin) (st : PinState)
    (v : float) :
  (state pin <> PIN_STATE_ANALOG ->
     pin_validate_voltage pin 0.0%float = true
     /\ fst (pin_set_value pin st 0.0%float) = true)
  /\ (state pin = PIN_STATE_ANALOG ->
        pin_validate_voltage pin v
        = negb ((v <? min_voltage pin)%float || (max_voltage pin <? v)%float))
  /\ (forall p, In p [PIN_VSUP; PIN_VCC; PIN_VIO] ->
        state (pin_manager_init p) = PIN_STATE_ANALOG
        /\ pin_set_value (pin_manager_init p) st 0.0%float
           = (false, pin_manager_init p)).
Proof.
  split; [|split].
  - intro H.
    assert (V : pin_validate_voltage pin 0.0%float = true).
    { unfold pin_validate_voltage.
      destruct (state pin); try reflexivity. contradiction H. reflexivity. }
    split; [exact V|]. rewrite pin_set_value_fst. exact V.
  - intro H. unfold pin_validate_voltage. rewrite H. simpl.
    destruct ((v <? min_voltage pin)%float || (max_voltage pin <? v)%float);
      reflexivity.
  - intros p Hp. simpl in Hp.
    destruct Hp as [<-|[<-|[<-|[]]]]; split; reflexivity.
Qed.

Lemma pin_validate_voltage_uses_stored_state_witness :
  pin_validate_voltage (pin_manager_init PIN_TXD) 0.0%float = true
  /\ pin_validate_voltage (pin_manager_init PIN_VSUP) 0.0%float
     = negb ((0.0 <? min_voltage (pin_manager_init PIN_VSUP))%float
             || (max_voltage (pin_manager_init PIN_VSUP) <? 0.0)%float)
  /\ pin_set_value (pin_manager_init PIN_VSUP) PIN_STATE_LOW 0.0%float
     = (false, pin_manager_init PIN_VSUP).
Proof.
  split; [|split].
  - apply (proj1 (pin_validate_voltage_uses_stored_state
                    (pin_manager_init PIN_TXD) PIN_STATE_LOW 0.0%float)).
    simpl. discriminate.
  - apply (proj1 (proj2 (pin_validate_voltage_uses_stored_state
                    (pin_manager_init PIN_VSUP) PIN_STATE_LOW 0.0%float))).
    reflexivity.
  - apply (proj2 (proj2 (pin_validate_voltage_uses_stored_state
                    (pin_manager_init PIN_VSUP) PIN_STATE_LOW 0.0%float))).
    simpl. auto.
Defined.

(** ** Mode controller *)

Lemma mode_controller_can_transition_spec (a b : OperatingMode) :
  mode_controller_can_transition a b = true <->
  a = b \/ In (a, b) valid_transitions.
Proof.
  destruct a, b; vm_compute; split; intro H;
    try reflexivity; try discriminate;
    try (left; reflexivity);
    try (right; repeat (first [left; reflexivity | right]));
    try (destruct H as [H|H]; [discriminate|];
         repeat (destruct H as [H|H]; [discriminate|]); contradiction).
Qed.

Lemma mode_controller_can_transition_refl (m : OperatingMode) :
  mode_controller_can_transition m m = true.
Proof. destruct m; reflexivity. Qed.

Lemma mode_controller_update_cases (st : ModeState)
    (en nstb vs wk : bool) (t : Z) :
  let target := determine_target_mode (current_mode st) en nstb vs wk
                  (mode_time_in_mode st t) in
  (mode_controller_update st en nstb vs wk t = st
   /\ (target = current_mode st
       \/ mode_controller_can_transition (current_mode st) target = false))
  \/ (mode_controller_update st en nstb vs wk t
      = mkModeState target (current_mode st) t (mode_wakerq_flag st)
      /\ target <> current_mode st
      /\ mode_controller_can_transition (current_mode st) target = true).
Proof.
  intro target. unfold mode_controller_update. fold target.
  destruct (OperatingMode_beq target (current_mode st)) eqn:E; simpl.
  - left. split; [reflexivity|]. left. apply OperatingMode_beq_eq. exact E.
  - assert (N : target <> current_mode st).
    { intro H. apply OperatingMode_beq_eq in H. congruence. }
    destruct (mode_controller_can_transition (current_mode st) target) eqn:C.
    + right. auto.
    + left. auto.
Qed.

Lemma mode_controller_update_step (st : ModeState) (en nstb vs wk : bool)
    (t : Z) :
  current_mode (mode_controller_update st en nstb vs wk t) = current_mode st
  \/ In (current_mode st,
         current_mode (mode_controller_update st en nstb vs wk t))
        valid_transitions.
Proof.
  destruct (mode_controller_update_cases st en nstb vs wk t)
    as [[E _]|[E [N C]]]; rewrite E.
  - left. reflexivity.
  - simpl. apply mode_controller_can_transition_spec in C.
    destruct C as [C|C]; [|right; exact C].
    left. symmetry. exact C.
Qed.

Lemma mode_trace_table_chain (inputs : list ModeInputs) :
  forall st, table_chain (mode_trace st inputs).
Proof.
  induction inputs as [|i rest IH]; intro st.
  - simpl. exact I.
  - specialize (IH (mode_controller_apply st i)).
    change (table_chain
              (current_mode st :: mode_trace (mode_controller_apply st i) rest)).
    destruct rest as [|j rest'].
    + simpl. split; [|exact I].
      destruct (mode_controller_update_step st (in_en_high i) (in_nstb_high i)
                  (in_vsup_valid i) (in_wakerq_set i) (in_time i)) as [H|H].
      * left. symmetry. exact H.
      * right. exact H.
    + simpl in IH |- *. split; [|exact IH].
      destruct (mode_controller_update_step st (in_en_high i) (in_nstb_high i)
                  (in_vsup_valid i) (in_wakerq_set i) (in_time i)) as [H|H].
      * left. symmetry. exact H.
      * right. exact H.
Qed.

(** C3. One update of the mode controller: a change of mode is a pair of
    the static table (and goes to the computed target, recording the old
    mode and the time); a mode [to] whose pair with the current mode is not
    in the table is not reached; when the computed target cannot be reached
    per the table the state is unchanged; a mode may always stay.  And over
    any sequence of updates every two consecutive modes are equal or a pair
    of the table. *)
Theorem mode_transitions_follow_table (st : ModeState)
    (en nstb vs wk : bool) (t : Z) (inputs : list ModeInputs) :
  let st' := mode_controller_update st en nstb vs wk t in
  let target := determine_target_mode (current_mode st) en nstb vs wk
                  (mode_time_in_mode st t) in
  (current_mode st' <> current_mode st ->
     In (current_mode st, current_mode st') valid_transitions
     /\ st' = mkModeState target (current_mode st) t (mode_wakerq_flag st))
  /\ (forall to, to <> current_mode st ->
        ~ In (current_mode st, to) valid_transitions ->
        current_mode st' <> to)
  /\ (mode_controller_can_transition (current_mode st) target = false ->
        st' = st)
  /\ (forall m, mode_controller_can_transition m m = true)
  /\ table_chain (mode_trace st inputs).
Proof.
  intros st' target.
  pose proof (mode_controller_update_cases st en nstb vs wk t) as C.
  fold target in C. fold st' in C.
  split; [|split; [|split; [|split]]].
  - intro N. destruct C as [[E _]|[E [_ C]]].
    + rewrite E in N. contradiction.
    + split; [|exact E]. rewrite E. simpl.
      apply mode_controller_can_transition_spec in C.
      destruct C as [C|C]; [|exact C].
      rewrite E in N. simpl in N. congruence.
  - intros to Hne Hnot Heq.
    destruct (mode_controller_update_step st en nstb vs wk t) as [H|H];
      fold st' in H.
    + congruence.
    + rewrite Heq in H. contradiction.
  - intro F. destruct C as [[E _]|[_ [_ C]]]; [exact E|congruence].
  - apply mode_controller_can_transition_refl.
  - apply mode_trace_table_chain.
Qed.

Lemma mode_transitions_follow_table_witness :
  (let st := mkModeState MODE_OFF MODE_OFF 0 false in
   In (MODE_OFF, current_mode (mode_controller_update st true true true false 5))
      valid_transitions)
  /\ (let st := mkModeState MODE_SLEEP MODE_GO_TO_SLEEP 0 false in
      current_mode (mode_controller_update st true true true false 5)
      <> MODE_NORMAL)
  /\ (let st := mkModeState MODE_SLEEP MODE_GO_TO_SLEEP 0 false in
      mode_controller_update st true true true false 5 = st).
Proof.
  split; [|split].
  - apply (proj1 (mode_transitions_follow_table
                    (mkModeState MODE_OFF MODE_OFF 0 false)
                    true true true false 5 [])).
    vm_compute. discriminate.
  - apply (proj1 (proj2 (mode_transitions_follow_table
                    (mkModeState MODE_SLEEP MODE_GO_TO_SLEEP 0 false)
                    true true true false 5 []))).
    + vm_compute. discriminate.
    + vm_compute. intro H.
      repeat (destruct H as [H|H]; [discriminate|]). contradiction.
  - apply (proj1 (proj2 (proj2 (mode_transitions_follow_table
                    (mkModeState MODE_SLEEP MODE_GO_TO_SLEEP 0 false)
                    true true true false 5 [])))).
    vm_compute. reflexivity.
Defined.

(** ** Fault detector *)

Lemma check_candom_txdrxd (st : FaultState) (bus : BusState) (t : Z) :
  txdrxd_flag (fault_detector_check_candom st bus t) = txdrxd_flag st.
Proof.
  unfold fault_detector_check_candom.
  destruct (BusState_beq bus BUS_STATE_DOMINANT); [|reflexivity].
  destruct (bus_dominant_start st =? UINT64_MAX); [reflexivity|].
  destruct (sub64 t (bus_dominant_start st) >=? TBUSDOM_MIN_NS); reflexivity.
Qed.

Lemma check_cbf_txdrxd (prev : BusState) (st : FaultState) (bus : BusState)
    (mode : OperatingMode) :
  txdrxd_flag (snd (fault_detector_check_cbf prev st bus mode))
  = txdrxd_flag st.
Proof.
  unfold fault_detector_check_cbf.
  destruct (negb (OperatingMode_beq mode MODE_NORMAL)
            && negb (OperatingMode_beq mode MODE_SILENT)); [reflexivity|].
  simpl.
  destruct (BusState_beq prev BUS_STATE_DOMINANT
            && BusState_beq bus BUS_STATE_RECESSIVE); reflexivity.
Qed.

(** With TXD high the dominant-timeout check clears the shared timestamp
    just before the short check reads it, so the short check can only
    restart the timer. *)
Lemma fault_detector_update_txd_high (prev : BusState) (st : FaultState)
    (rxd_low : bool) (bus : BusState) (tj : float) (t : Z)
    (mode : OperatingMode) :
  txdrxd_flag (snd (fault_detector_update prev st false rxd_low bus tj t mode))
  = txdrxd_flag st.
Proof.
  unfold fault_detector_update.
  rewrite check_cbf_txdrxd.
  unfold fault_detector_check_tsd. cbn [txdrxd_flag].
  rewrite check_candom_txdrxd.
  unfold fault_detector_check_txdrxd, fault_detector_check_txddto.
  cbn [set_txd_timer txd_dominant_start txdrxd_flag txddto_flag].
  rewrite Z.eqb_refl.
  destruct (Bool.eqb false rxd_low); reflexivity.
Qed.

Lemma both_high_updates_txdrxd
    (calls : list (BusState * float * Z * OperatingMode)) :
  forall prev st,
    txdrxd_flag (snd (both_high_updates prev st calls)) = txdrxd_flag st.
Proof.
  induction calls as [|[[[bus tj] t] mode] rest IH]; intros prev st.
  - reflexivity.
  - simpl. rewrite IH. apply fault_detector_update_txd_high.
Qed.

(** C4. Fed through [fault_detector_update], TXD and RXD both high never
    raise the short flag, however long they match: from the initial state
    the flag is clear after any sequence of such updates, in particular
    after two updates 1.3 ms apart, although [fault_detector_check_txdrxd]
    called alone on the same levels and times raises it. *)
Theorem txdrxd_short_missed_when_both_high
    (prev : BusState) (calls : list (BusState * float * Z * OperatingMode)) :
  txdrxd_flag (snd (both_high_updates prev fault_detector_init calls)) = false
  /\ txdrxd_flag
       (snd (both_high_updates BUS_STATE_RECESSIVE fault_detector_init
               [ (BUS_STATE_RECESSIVE, 25.0%float, 0, MODE_NORMAL);
                 (BUS_STATE_RECESSIVE, 25.0%float, 1300000, MODE_NORMAL) ]))
     = false
  /\ txdrxd_flag
       (fault_detector_check_txdrxd
          (fault_detector_check_txdrxd fault_detector_init false false 0)
          false false 1300000)
     = true.
Proof.
  split; [|split].
  - rewrite both_high_updates_txdrxd. reflexivity.
  - vm_compute. reflexivity.
  - vm_compute. reflexivity.
Qed.

(** ** Receive output and propagation delay *)


Lemma prop_delay_values :
  prop_delay false = 145 /\ prop_delay true = 150.
Proof. split; reflexivity. Qed.










(** The step hands the receive path the post-advance time as current time
    and the pre-advance time as scheduling reference. *)
Lemma step_calls_update_rxd (m : Memory) (sim : TCAN1463Q1Simulator) (d : Z) :
  exists ct bus,
    can_transceiver (snd (tcan1463q1_simulator_step m sim d))
    = can_transceiver_update_rxd ct bus
        (add64 (current_time_ns (timing sim)) d) (current_time_ns (timing sim)).
Proof. eexists. eexists. reflexivity. Qed.

(** A pending update is not dropped when the bus returns to the level RXD
    already shows: after a dominant pulse shorter than the delay the
    pending "low" is still applied.  On the receive path alone, and in the
    simulator: TXD low for 10 ns from Normal mode, then high; 200 ns after
    the falling edge (190 ns after the rising one) RXD reads low. *)
Lemma stale_pending_update_is_applied :
  rxd_output
    (rxd_calls (set_can_state (snd can_transceiver_init)
                              CAN_STATE_ACTIVE true true)
       [ (BUS_STATE_DOMINANT, 10, 0); (BUS_STATE_RECESSIVE, 20, 10);
         (BUS_STATE_RECESSIVE, 150, 140); (BUS_STATE_RECESSIVE, 200, 150) ])
  = false
  /\ bus_of (snd short_pulse) = BUS_STATE_RECESSIVE
  /\ state (pins (snd short_pulse) PIN_TXD) = PIN_STATE_HIGH
  /\ state (pins (snd short_pulse) PIN_RXD) = PIN_STATE_LOW
  /\ current_time_ns (timing (snd short_pulse))
     = current_time_ns (timing (snd txd_falls)) + 200.
Proof. vm_compute. repeat split. Qed.

(** ** The simulation step *)

Lemma write_inh_pin_other (inh : option INHController) (ps : PinArray)
    (p : PinType) :
  p <> PIN_INH -> write_inh_pin inh ps p = ps p.
Proof.
  intro H. destruct inh as [c|]; simpl; [|reflexivity].
  apply write_pin_other. exact H.
Qed.

Lemma drive_bus_pins_other (ct : CANTransceiver) (fs : FaultState)
    (bb : BusBiasController) (vcc_v : float) (txd_low : bool) (ps : PinArray)
    (p : PinType) :
  p <> PIN_CANH -> p <> PIN_CANL ->
  snd (drive_bus_pins ct fs bb vcc_v txd_low ps) p = ps p.
Proof.
  intros H1 H2. unfold drive_bus_pins.
  destruct (driver_enabled ct && negb (fault_detector_should_disable_driver fs)).
  - simpl. rewrite !write_pin_other by assumption. reflexivity.
  - destruct (negb (BusBiasState_beq (bias_state bb) BIAS_STATE_OFF)); simpl;
      rewrite !write_pin_other by assumption; reflexivity.
Qed.

(** The components of the structure after a step, as the body computes
    them. *)
Lemma step_sim_eq (m : Memory) (sim : TCAN1463Q1Simulator) (d : Z) :
  snd (tcan1463q1_simulator_step m sim d)
  = snd (step_core (last_bus_activity_time m) (prev_bus_state m)
                   (deref_inh m sim) sim d).
Proof. reflexivity. Qed.

Lemma step_core_pins_frame (lbat : Z) (prev : BusState)
    (inh : option INHController) (sim : TCAN1463Q1Simulator) (d : Z)
    (p : PinType) :
  p <> PIN_CANH -> p <> PIN_CANL -> p <> PIN_RXD -> p <> PIN_NFAULT ->
  p <> PIN_INH ->
  pins (snd (step_core lbat prev inh sim d)) p = pins sim p.
Proof.
  intros H1 H2 H3 H4 H5. unfold step_core. cbn [snd pins].
  rewrite write_inh_pin_other by assumption.
  rewrite !write_pin_other by assumption.
  apply drive_bus_pins_other; assumption.
Qed.

(** C9. A step leaves the pins it only reads (TXD, EN, nSTB, WAKE, INH_MASK,
    VSUP, VCC, VIO, GND) exactly as they were: state, voltage, direction
    and range; only CANH, CANL, RXD, NFAULT and INH can differ. *)
Theorem step_writes_only_output_pins (m : Memory) (sim : TCAN1463Q1Simulator)
    (d : Z) (p : PinType) :
  In p input_and_supply_pins ->
  pins (snd (tcan1463q1_simulator_step m sim d)) p = pins sim p.
Proof.
  intro H. rewrite step_sim_eq.
  apply step_core_pins_frame; intro E; subst p; simpl in H;
    repeat (destruct H as [H|H]; [discriminate|]); contradiction.
Qed.

Lemma step_writes_only_output_pins_witness :
  pins (snd (step normal_world 1000)) PIN_TXD = pins (snd normal_world) PIN_TXD.
Proof.
  apply (step_writes_only_output_pins (fst normal_world) (snd normal_world)
           1000 PIN_TXD).
  simpl. auto.
Defined.

Lemma nfault_write (pin : Pin) (nf : bool) (vio_v : float) :
  min_voltage pin = 0.0%float -> max_voltage pin = 5.5%float ->
  (vio_v <? 0.0)%float = false -> (5.5 <? vio_v)%float = false ->
  state (snd (pin_set_value pin
                (if nf then PIN_STATE_LOW else PIN_STATE_HIGH)
                (if nf then 0.0%float else vio_v)))
  = (if nf then PIN_STATE_LOW else PIN_STATE_HIGH).
Proof.
  intros Hmin Hmax Hlo Hhi.
  rewrite pin_set_value_accepted; [reflexivity|].
  unfold pin_validate_voltage. rewrite Hmin, Hmax.
  destruct nf.
  - destruct (state pin); reflexivity.
  - rewrite Hlo, Hhi.
    destruct (negb (PinState_beq (state pin) PIN_STATE_ANALOG)
              && (vio_v =? 0.0)%float); reflexivity.
Qed.

(** *** Pins of reachable states *)

Lemma float_zero_bounds (v : float) :
  (v =? 0.0)%float = true ->
  (v <? 0.0)%float = false /\ (5.5 <? v)%float = false.
Proof.
  rewrite eqb_spec, !ltb_spec.
  set (z := Prim2SF 0.0) in *. vm_compute in z. subst z.
  set (h := Prim2SF 5.5) in *. vm_compute in h. subst h.
  destruct (Prim2SF v) as [s|s| |s m e]; try destruct s; simpl;
    intro H; try discriminate; auto.
Qed.

Lemma float_not_below_vio_min (v : float) :
  (v <? 1.65)%float = false -> (v <? 0.0)%float = false.
Proof.
  rewrite !ltb_spec.
  set (z := Prim2SF 0.0) in *. vm_compute in z. subst z.
  set (h := Prim2SF 1.65) in *. vm_compute in h. subst h.
  destruct (Prim2SF v) as [s|s| |s m e]; try destruct s; simpl;
    intro H; try discriminate; auto.
Qed.

Lemma pin_set_value_range (pin : Pin) (st : PinState) (v : float) :
  min_voltage (snd (pin_set_value pin st v)) = min_voltage pin
  /\ max_voltage (snd (pin_set_value pin st v)) = max_voltage pin.
Proof.
  unfold pin_set_value.
  destruct (negb (pin_validate_voltage pin v)); split; reflexivity.
Qed.

Lemma pin_store_static (ps : PinArray) (p : PinType) (st : PinState)
    (v : float) :
  pins_static_ok ps ->
  pins_static_ok (pin_store ps p (snd (pin_set_value (ps p) st v))).
Proof.
  intros H q. unfold pin_store.
  destruct (PinType_beq q p) eqn:E; [|apply H].
  apply PinType_beq_eq in E. subst q.
  destruct (pin_set_value_range (ps p) st v) as [A B].
  rewrite A, B. apply H.
Qed.

Lemma drive_bus_pins_static (ct : CANTransceiver) (fs : FaultState)
    (bb : BusBiasController) (vcc_v : float) (txd_low : bool) (ps : PinArray) :
  pins_static_ok ps ->
  pins_static_ok (snd (drive_bus_pins ct fs bb vcc_v txd_low ps)).
Proof.
  intro H. unfold drive_bus_pins, write_pin.
  destruct (driver_enabled ct && negb (fault_detector_should_disable_driver fs)).
  - cbn [snd]. apply pin_store_static, pin_store_static, H.
  - destruct (negb (BusBiasState_beq (bias_state bb) BIAS_STATE_OFF));
      cbn [snd]; apply pin_store_static, pin_store_static, H.
Qed.

Lemma step_pins_static (m : Memory) (sim : TCAN1463Q1Simulator) (d : Z) :
  pins_static_ok (pins sim) ->
  pins_static_ok (pins (snd (tcan1463q1_simulator_step m sim d))).
Proof.
  intro H. rewrite step_sim_eq. unfold step_core. cbn [snd pins].
  unfold write_inh_pin.
  match goal with
  | |- pins_static_ok (match ?x with _ => _ end) => destruct x
  end; unfold write_pin;
    repeat apply pin_store_static; apply drive_bus_pins_static, H.
Qed.

Lemma set_pin_vio_ok (sim : TCAN1463Q1Simulator) (i : Z) (st : PinState)
    (v : float) :
  pins_static_ok (pins sim) -> vio_ok (pins sim) ->
  vio_ok (pins (snd (tcan1463q1_simulator_set_pin sim i st v))).
Proof.
  intros Hs Hv. unfold tcan1463q1_simulator_set_pin.
  destruct (pin_of_index i) as [p|]; [|exact Hv].
  cbn [snd pins set_pins]. unfold vio_ok, pin_store.
  destruct (PinType_beq PIN_VIO p) eqn:E; [|exact Hv].
  apply PinType_beq_eq in E. subst p.
  unfold pin_set_value.
  destruct (pin_validate_voltage (pins sim PIN_VIO) v) eqn:V;
    cbn [negb snd voltage]; [|exact Hv].
  unfold pin_validate_voltage in V.
  destruct (Hs PIN_VIO) as [A B]. rewrite A, B in V.
  cbn [fst snd pin_voltage_ranges] in V.
  destruct (v =? 0.0)%float.
  - left. reflexivity.
  - right. rewrite andb_false_r in V.
    destruct (v <? 1.65)%float; [discriminate|].
    destruct (5.5 <? v)%float; [discriminate|]. auto.
Qed.

Lemma api_reachable_pins (sim : TCAN1463Q1Simulator) :
  api_reachable sim -> pins_static_ok (pins sim) /\ vio_ok (pins sim).
Proof.
  induction 1 as [m sim|sim i st v R [Hs Hv]|m sim d R [Hs Hv]
                  |sim sim' R [Hs Hv] E].
  - split.
    + intro p. destruct p; split; reflexivity.
    + right. split; reflexivity.
  - split; [|apply set_pin_vio_ok; assumption].
    unfold tcan1463q1_simulator_set_pin.
    destruct (pin_of_index i) as [p|]; [|exact Hs].
    cbn [snd pins set_pins]. apply pin_store_static, Hs.
  - split; [apply step_pins_static, Hs|].
    unfold vio_ok. rewrite step_sim_eq.
    rewrite step_core_pins_frame by discriminate. exact Hv.
  - rewrite E. split; assumption.
Qed.

(** In every reachable state the write of the step to NFAULT is accepted:
    the pin has its 0-5.5 V range and VIO is not outside it. *)
Lemma api_reachable_nfault_writable (sim : TCAN1463Q1Simulator) :
  api_reachable sim ->
  min_voltage (pins sim PIN_NFAULT) = 0.0%float
  /\ max_voltage (pins sim PIN_NFAULT) = 5.5%float
  /\ (voltage (pins sim PIN_VIO) <? 0.0)%float = false
  /\ (5.5 <? voltage (pins sim PIN_VIO))%float = false.
Proof.
  intro R. destruct (api_reachable_pins sim R) as [Hs Hv].
  destruct (Hs PIN_NFAULT) as [A B].
  split; [exact A|]. split; [exact B|].
  destruct Hv as [Z0|[L H]].
  - apply float_zero_bounds. exact Z0.
  - split; [apply float_not_below_vio_min; exact L | exact H].
Qed.

(** C1 (counterexample). After Sleep has been reached and the WAKE pin
    toggled, the next step drives NFAULT low although none of the six fault
    flags is set: the wake request pulls it low. *)
Lemma fault_aggregation_claim_fails : ~ fault_aggregation_claim.
Proof.
  intro H.
  specialize (H (fst woken_world) (snd woken_world) 1000).
  cbv zeta in H. apply proj1 in H.
  assert (L : state (pins (snd (tcan1463q1_simulator_step (fst woken_world)
                                  (snd woken_world) 1000)) PIN_NFAULT)
              = PIN_STATE_LOW) by (vm_compute; reflexivity).
  apply H in L. vm_compute in L. discriminate.
Qed.

(** The state the step leaves in NFAULT, given that the write is
    accepted: NFAULT has its 0-5.5 V range and VIO is not outside it. *)
Lemma step_nfault_state (m : Memory) (sim : TCAN1463Q1Simulator) (d : Z) :
  min_voltage (pins sim PIN_NFAULT) = 0.0%float ->
  max_voltage (pins sim PIN_NFAULT) = 5.5%float ->
  (voltage (pins sim PIN_VIO) <? 0.0)%float = false ->
  (5.5 <? voltage (pins sim PIN_VIO))%float = false ->
  state (pins (snd (tcan1463q1_simulator_step m sim d)) PIN_NFAULT)
  = PIN_STATE_LOW <->
  fault_detector_has_any_fault
    (fault_state (snd (tcan1463q1_simulator_step m sim d))) = true
  \/ step_wakerq sim d = true.
Proof.
  intros Hmin Hmax Hlo Hhi.
  rewrite step_sim_eq. unfold step_core. cbn [snd pins fault_state].
  rewrite write_inh_pin_other by discriminate.
  unfold write_pin at 1. rewrite pin_store_same.
  rewrite write_pin_other by discriminate.
  rewrite drive_bus_pins_other by discriminate.
  match goal with
  | |- context [fault_detector_get_nfault_state ?f || ?w] =>
      set (A := fault_detector_get_nfault_state f);
      change (fault_detector_has_any_fault f) with A;
      set (W := w)
  end.
  change (step_wakerq sim d) with W.
  rewrite (nfault_write _ (A || W) _ Hmin Hmax Hlo Hhi).
  destruct A, W; simpl; split; intro H; auto; try discriminate;
    destruct H; discriminate.
Qed.

(** C1, as the step implements it. After a step from any state the API
    can reach, the NFAULT pin is low exactly when at least one of the six
    fault flags is set or the wake-request flag, sampled right after the
    wake handler update of that step, is set. *)
Theorem nfault_low_iff_fault_or_wake_request (m : Memory)
    (sim : TCAN1463Q1Simulator) (d : Z) :
  api_reachable sim ->
  state (pins (snd (tcan1463q1_simulator_step m sim d)) PIN_NFAULT)
  = PIN_STATE_LOW <->
  fault_detector_has_any_fault
    (fault_state (snd (tcan1463q1_simulator_step m sim d))) = true
  \/ step_wakerq sim d = true.
Proof.
  intro R.
  destruct (api_reachable_nfault_writable sim R) as [A [B [C D]]].
  exact (step_nfault_state m sim d A B C D).
Qed.

Lemma api_reachable_set_input (w : World) (p : PinType) (st : PinState)
    (v : float) :
  api_reachable (snd w) -> api_reachable (snd (set_input w p st v)).
Proof. intro R. unfold set_input. cbn [snd]. apply reach_set_pin, R. Qed.

Lemma api_reachable_steps (deltas : list Z) :
  forall w, api_reachable (snd w) -> api_reachable (snd (steps w deltas)).
Proof.
  induction deltas as [|d rest IH]; intros w R; [exact R|].
  simpl. apply IH. unfold step. apply reach_step, R.
Qed.

Lemma woken_world_reachable : api_reachable (snd woken_world).
Proof.
  unfold woken_world, normal_world, to_normal.
  repeat first [apply api_reachable_set_input | apply api_reachable_steps].
  unfold created, tcan1463q1_simulator_create. cbn [fst snd].
  apply reach_reset.
Qed.

Lemma nfault_low_iff_fault_or_wake_request_witness :
  state (pins (snd (tcan1463q1_simulator_step (fst woken_world)
                      (snd woken_world) 1000)) PIN_NFAULT)
  = PIN_STATE_LOW <->
  fault_detector_has_any_fault
    (fault_state (snd (tcan1463q1_simulator_step (fst woken_world)
                         (snd woken_world) 1000))) = true
  \/ step_wakerq (snd woken_world) 1000 = true.
Proof.
  exact (nfault_low_iff_fault_or_wake_request (fst woken_world)
           (snd woken_world) 1000 woken_world_reachable).
Defined.

(** *** Entering Normal mode *)

Lemma wake_handler_process_wup_wakesr (st : WakeState) (bus : BusState)
    (t : Z) :
  wakesr_flag st = true ->
  wakesr_flag (wake_handler_process_wup st bus t) = true.
Proof.
  intro H. unfold wake_handler_process_wup.
  destruct (negb (wup_timeout_start st =? UINT64_MAX)
            && negb (WUPState_beq (wup_state st) WUP_STATE_IDLE)
            && negb (WUPState_beq (wup_state st) WUP_STATE_COMPLETE)
            && (sub64 t (wup_timeout_start st) >=? TWK_TIMEOUT_NS));
    [exact H|].
  destruct (wup_state st), bus;
    try destruct (sub64 t (wup_phase_start st) >=? TWK_FILTER_NS);
    first [exact H | reflexivity].
Qed.

Lemma wake_handler_update_wakesr (st : WakeState) (bus : BusState)
    (wake_pin_high : bool) (mode : OperatingMode) (t : Z) :
  wakesr_flag st = true ->
  wakesr_flag (wake_handler_update st bus wake_pin_high mode t) = true.
Proof.
  intro H. unfold wake_handler_update. cbn [wakesr_flag].
  destruct (OperatingMode_beq mode MODE_STANDBY
            || OperatingMode_beq mode MODE_SLEEP).
  - pose proof (wake_handler_process_wup_wakesr st bus t H) as P.
    destruct (OperatingMode_beq mode MODE_SLEEP); [|exact P].
    unfold wake_handler_process_lwu.
    destruct (negb (Bool.eqb wake_pin_high
                      (wake_pin_prev_state
                         (wake_handler_process_wup st bus t))));
      [reflexivity | exact P].
  - destruct (negb (WUPState_beq (wup_state st) WUP_STATE_IDLE)); exact H.
Qed.

Lemma wake_handler_clear_flags_wakesr (st : WakeState) :
  wakesr_flag (wake_handler_clear_flags st) = wakesr_flag st.
Proof. reflexivity. Qed.

Lemma step_entering_normal (m : Memory) (sim : TCAN1463Q1Simulator) (d : Z) :
  current_mode (mode_state sim) <> MODE_NORMAL ->
  current_mode (mode_state (snd (tcan1463q1_simulator_step m sim d)))
  = MODE_NORMAL ->
  pwron_flag (power_state (snd (tcan1463q1_simulator_step m sim d))) = false
  /\ wake_state (snd (tcan1463q1_simulator_step m sim d))
     = wake_handler_clear_flags (step_wake_update sim d).
Proof.
  intros Hold Hnew. rewrite step_sim_eq in *. unfold step_core in *.
  cbn [snd mode_state power_state wake_state] in *.
  rewrite Hnew.
  assert (E : OperatingMode_beq (current_mode (mode_state sim)) MODE_NORMAL
              = false).
  { destruct (OperatingMode_beq (current_mode (mode_state sim)) MODE_NORMAL)
      eqn:B; [|reflexivity].
    apply OperatingMode_beq_eq in B. contradiction. }
  rewrite E. cbn [OperatingMode_beq negb andb].
  split; reflexivity.
Qed.

(** C8. A step that takes the mode from anything else into Normal ends
    with the power-on flag and the wake-request flag clear; the wake state
    it leaves is the clear applied to the wake state of that step's wake
    handler update, and the clear keeps the wake-source-recognized flag: a
    flag that was set before the step is still set after it. *)
Theorem entering_normal_clears_pwron_and_wakerq (m : Memory)
    (sim : TCAN1463Q1Simulator) (d : Z) :
  current_mode (mode_state sim) <> MODE_NORMAL ->
  current_mode (mode_state (snd (tcan1463q1_simulator_step m sim d)))
  = MODE_NORMAL ->
  let sim' := snd (tcan1463q1_simulator_step m sim d) in
  pwron_flag (power_state sim') = false
  /\ wakerq_flag (wake_state sim') = false
  /\ wakesr_flag (wake_state sim') = wakesr_flag (step_wake_update sim d)
  /\ (wakesr_flag (wake_state sim) = true ->
      wakesr_flag (wake_state sim') = true)
  /\ (forall ws, wakesr_flag (wake_handler_clear_flags ws) = wakesr_flag ws).
Proof.
  intros Hold Hnew sim'. subst sim'.
  destruct (step_entering_normal m sim d Hold Hnew) as [P W].
  rewrite W. repeat split; try reflexivity; try exact P.
  intro S. rewrite wake_handler_clear_flags_wakesr.
  unfold step_wake_update. apply wake_handler_update_wakesr. exact S.
Qed.

Lemma entering_normal_clears_pwron_and_wakerq_witness :
  wakesr_flag (wake_state (snd standby_to_normal)) = true
  /\ wakerq_flag (wake_state (snd standby_to_normal)) = true
  /\ pwron_flag (power_state (snd (step standby_to_normal 1000))) = false
  /\ wakerq_flag (wake_state (snd (step standby_to_normal 1000))) = false
  /\ wakesr_flag (wake_state (snd (step standby_to_normal 1000))) = true.
Proof.
  assert (Hold : current_mode (mode_state (snd standby_to_normal))
                 <> MODE_NORMAL) by (vm_compute; discriminate).
  assert (Hnew : current_mode
                   (mode_state (snd (tcan1463q1_simulator_step
                                       (fst standby_to_normal)
                                       (snd standby_to_normal) 1000)))
                 = MODE_NORMAL) by (vm_compute; reflexivity).
  assert (S : wakesr_flag (wake_state (snd standby_to_normal)) = true)
    by (vm_compute; reflexivity).
  pose proof (entering_normal_clears_pwron_and_wakerq
                (fst standby_to_normal) (snd standby_to_normal) 1000
                Hold Hnew) as T.
  cbv zeta in T.
  split; [exact S|]. split; [vm_compute; reflexivity|].
  split; [exact (proj1 T)|]. split; [exact (proj1 (proj2 T))|].
  exact (proj1 (proj2 (proj2 (proj2 T))) S).
Defined.


(** ** Several instances *)

(** C7 (counterexample). Two simulators in Normal mode, [b] transmitting
    dominant and [a] idle, stepped alternately three times: a further step
    of [a] leaves its bus-fault flag clear, but the same step taken after
    one more step of [b] sets it. *)
Lemma instance_isolation_claim_fails : ~ instance_isolation_claim.
Proof.
  intro H.
  specialize (H (shared three_rounds) (inst_a three_rounds)
                (inst_b three_rounds) 10 10).
  assert (N : inh_controller (inst_a three_rounds)
              <> inh_controller (inst_b three_rounds))
    by (vm_compute; discriminate).
  apply H in N.
  apply (f_equal (fun o => snd (fst (fst o)))) in N.
  vm_compute in N. discriminate.
Qed.

Lemma step_core_inh_none (lbat : Z) (prev : BusState)
    (inh : option INHController) (sim : TCAN1463Q1Simulator) (d : Z) :
  snd (fst (step_core lbat prev inh sim d)) = None -> inh = None.
Proof.
  unfold step_core. cbn [fst snd].
  destruct inh; [discriminate | reflexivity].
Qed.

Lemma step_memory_eq (m : Memory) (sim : TCAN1463Q1Simulator) (d : Z) :
  let r := step_core (last_bus_activity_time m) (prev_bus_state m)
                     (deref_inh m sim) sim d in
  last_bus_activity_time (fst (tcan1463q1_simulator_step m sim d))
  = fst (fst (fst r))
  /\ prev_bus_state (fst (tcan1463q1_simulator_step m sim d))
     = snd (fst (fst r))
  /\ deref_inh (fst (tcan1463q1_simulator_step m sim d)) sim = snd (fst r).
Proof.
  intro r. split; [reflexivity|]. split; [reflexivity|].
  pose proof (step_core_inh_none (last_bus_activity_time m) (prev_bus_state m)
                (deref_inh m sim) sim d) as I.
  fold r in I.
  unfold tcan1463q1_simulator_step. fold r.
  unfold deref_inh in *. cbn [fst inh_heap].
  destruct (inh_controller sim) as [a|].
  - destruct (snd (fst r)) as [c|] eqn:E.
    + unfold heap_store. rewrite Nat.eqb_refl. reflexivity.
    + apply I. reflexivity.
  - symmetry. apply I.
    destruct (snd (fst r)) eqn:E; [|reflexivity].
    subst r. unfold step_core in E. cbn [fst snd] in E. discriminate.
Qed.

(** C7, as the code stands. What a step yields is determined by the instance's own
    structure, the controller its pointer refers to, and the two static
    variables shared by every instance (the bus-activity time of the
    transceiver state machine and the previous bus state of the bus-fault
    check); it writes the structure, that controller and those two statics,
    and no other heap cell. *)
Theorem step_depends_on_instance_and_statics (m1 m2 : Memory)
    (sim : TCAN1463Q1Simulator) (d : Z) :
  last_bus_activity_time m1 = last_bus_activity_time m2 ->
  prev_bus_state m1 = prev_bus_state m2 ->
  deref_inh m1 sim = deref_inh m2 sim ->
  let r1 := tcan1463q1_simulator_step m1 sim d in
  let r2 := tcan1463q1_simulator_step m2 sim d in
  snd r1 = snd r2
  /\ last_bus_activity_time (fst r1) = last_bus_activity_time (fst r2)
  /\ prev_bus_state (fst r1) = prev_bus_state (fst r2)
  /\ deref_inh (fst r1) sim = deref_inh (fst r2) sim
  /\ (forall a, inh_controller sim <> Some a ->
        inh_heap (fst r1) a = inh_heap m1 a).
Proof.
  intros Hl Hp Hi r1 r2. subst r1 r2.
  destruct (step_memory_eq m1 sim d) as [A1 [B1 C1]].
  destruct (step_memory_eq m2 sim d) as [A2 [B2 C2]].
  cbv zeta in *.
  rewrite A1, A2, B1, B2, C1, C2, !step_sim_eq, Hl, Hp, Hi.
  repeat split.
  intros a Ha. unfold tcan1463q1_simulator_step. cbn [fst inh_heap].
  destruct (inh_controller sim) as [b|]; [|reflexivity].
  match goal with |- match ?x with _ => _ end a = _ => destruct x end;
    [|reflexivity].
  unfold heap_store.
  destruct (Nat.eqb a b) eqn:E; [|reflexivity].
  apply Nat.eqb_eq in E. subst. contradiction Ha. reflexivity.
Qed.

Lemma step_depends_on_instance_and_statics_witness :
  snd (tcan1463q1_simulator_step (shared three_rounds) (inst_a three_rounds) 10)
  = snd (tcan1463q1_simulator_step private_copy (inst_a three_rounds) 10).
Proof.
  assert (H1 : last_bus_activity_time (shared three_rounds)
               = last_bus_activity_time private_copy)
    by (vm_compute; reflexivity).
  assert (H2 : prev_bus_state (shared three_rounds)
               = prev_bus_state private_copy)
    by (vm_compute; reflexivity).
  assert (H3 : deref_inh (shared three_rounds) (inst_a three_rounds)
               = deref_inh private_copy (inst_a three_rounds))
    by (vm_compute; reflexivity).
  exact (proj1 (step_depends_on_instance_and_statics (shared three_rounds)
                  private_copy (inst_a three_rounds) 10 H1 H2 H3)).
Defined.

(** ** Snapshot and restore *)

Lemma set_inh_pointer_same (x : TCAN1463Q1Simulator) :
  set_inh_pointer x (inh_controller x) = x.
Proof. destruct x; reflexivity. Qed.

Lemma observe_set_inh_pointer (x : TCAN1463Q1Simulator) (p : option addr) :
  observe (set_inh_pointer x p) = observe x.
Proof. reflexivity. Qed.

Lemma restore_succeeds_inv (sizeof_sim : Z) (y : TCAN1463Q1Simulator)
    (s : option SimulatorSnapshot) :
  fst (tcan1463q1_simulator_restore sizeof_sim y s) = true ->
  exists snap image,
    s = Some snap /\ data snap = Some image /\ size snap = sizeof_sim
    /\ snd (tcan1463q1_simulator_restore sizeof_sim y s)
       = set_inh_pointer image (inh_controller y).
Proof.
  unfold tcan1463q1_simulator_restore.
  destruct s as [snap|]; [|discriminate].
  destruct (data snap) as [image|] eqn:D; [|discriminate].
  destruct (size snap =? sizeof_sim) eqn:E; simpl; [|discriminate].
  intros _. exists snap, image. apply Z.eqb_eq in E. auto.
Qed.

Lemma restore_fails_unchanged (sizeof_sim : Z) (y : TCAN1463Q1Simulator)
    (s : option SimulatorSnapshot) :
  fst (tcan1463q1_simulator_restore sizeof_sim y s) = false ->
  snd (tcan1463q1_simulator_restore sizeof_sim y s) = y.
Proof.
  unfold tcan1463q1_simulator_restore.
  destruct s as [snap|]; [|reflexivity].
  destruct (data snap) as [image|]; [|reflexivity].
  destruct (size snap =? sizeof_sim); simpl; [discriminate|reflexivity].
Qed.

(** C6. A snapshot that was obtained from [x] restores with success: onto
    [x] itself it gives back [x], and onto any later state [y] of the
    instance it gives a state whose every queryable field (mode, the twelve
    flags, each pin's state and voltage, the time) is that of [x].  A
    restore that succeeds was given a snapshot whose size is exactly the
    structure's size, and a restore that fails leaves the instance as it
    was. *)
Theorem restore_of_snapshot (sizeof_sim : Z) (x y : TCAN1463Q1Simulator)
    (a1 a2 : bool) (snap : SimulatorSnapshot)
    (s : option SimulatorSnapshot) :
  tcan1463q1_simulator_snapshot sizeof_sim x a1 a2 = Some snap ->
  tcan1463q1_simulator_restore sizeof_sim x (Some snap) = (true, x)
  /\ fst (tcan1463q1_simulator_restore sizeof_sim y (Some snap)) = true
  /\ observe (snd (tcan1463q1_simulator_restore sizeof_sim y (Some snap)))
     = observe x
  /\ (fst (tcan1463q1_simulator_restore sizeof_sim y s) = true ->
      exists sn, s = Some sn /\ size sn = sizeof_sim)
  /\ (fst (tcan1463q1_simulator_restore sizeof_sim y s) = false ->
      snd (tcan1463q1_simulator_restore sizeof_sim y s) = y).
Proof.
  intro H. unfold tcan1463q1_simulator_snapshot in H.
  destruct a1; [|discriminate]. destruct a2; [|discriminate].
  simpl in H. injection H as <-.
  unfold tcan1463q1_simulator_restore at 1 2 3. cbn [data size].
  rewrite Z.eqb_refl. cbn [negb fst snd].
  rewrite set_inh_pointer_same.
  split; [reflexivity|]. split; [reflexivity|].
  split; [apply observe_set_inh_pointer|]. split.
  - intro A. destruct (restore_succeeds_inv sizeof_sim y s A)
      as [sn [image [E1 [_ [E2 _]]]]].
    exists sn. auto.
  - apply restore_fails_unchanged.
Qed.

Lemma restore_of_snapshot_witness :
  tcan1463q1_simulator_restore 1024 (snd normal_world)
    (Some (mkSnapshot (Some (snd normal_world)) 1024))
  = (true, snd normal_world).
Proof.
  exact (proj1 (restore_of_snapshot 1024 (snd normal_world)
                  (snd woken_world) true true
                  (mkSnapshot (Some (snd normal_world)) 1024) None
                  eq_refl)).
Defined.

(** * Further properties of the code *)

(** ** Ordering of a double against constants *)

Ltac sf_const c :=
  let z := fresh "z" in
  set (z := Prim2SF c) in *; vm_compute in z; subst z.

Lemma pos_cmp_spec (a b : positive) :
  CompareSpec (Z.pos a = Z.pos b) (Z.pos a < Z.pos b) (Z.pos b < Z.pos a)
              (PosDef.Pos.compare_cont Eq a b).
Proof.
  change (PosDef.Pos.compare_cont Eq a b) with (Pos.compare a b).
  destruct (Pos.compare_spec a b); constructor; lia.
Qed.

Ltac sf_cases :=
  repeat match goal with
  | H : context [Z.compare ?a ?b] |- _ => destruct (Z.compare_spec a b)
  | |- context [Z.compare ?a ?b] => destruct (Z.compare_spec a b)
  | H : context [PosDef.Pos.compare_cont Eq ?a ?b] |- _ =>
      destruct (pos_cmp_spec a b)
  | |- context [PosDef.Pos.compare_cont Eq ?a ?b] =>
      destruct (pos_cmp_spec a b)
  end.

(** Decides a goal about comparisons of [v] with constants, once the
    comparisons are stated on [Prim2SF] and the constants are evaluated. *)
Ltac float_order v :=
  destruct (Prim2SF v) as [s|s| |s m e]; try destruct s;
  unfold SFltb, SFleb, SFeqb, SFcompare in *;
  try discriminate; sf_cases; try lia; try discriminate; try reflexivity.

Lemma float_le_3_5_not_gt_3_85 (v : float) :
  (v <=? 3.5)%float = true -> (3.85 <? v)%float = false.
Proof.
  intro H. rewrite ?ltb_spec, ?leb_spec in *.
  sf_const 3.5%float. sf_const 3.85%float. float_order v.
Qed.

Lemma float_ge_0_9_not_le_0_5 (v : float) :
  (0.9 <=? v)%float = true -> (v <=? 0.5)%float = false.
Proof.
  intro H. rewrite ?ltb_spec, ?leb_spec in *.
  sf_const 0.9%float. sf_const 0.5%float. float_order v.
Qed.

(** ** Pin API: round trip, bounds, batches *)

Lemma pin_of_index_out_of_range (i : Z) :
  i < 0 \/ 14 <= i -> pin_of_index i = None.
Proof.
  intro H. unfold pin_of_index.
  destruct (i <? 0) eqn:A; [reflexivity|].
  destruct (i >=? 14) eqn:B; [reflexivity|]. lia.
Qed.

Lemma pin_of_index_in_range (i : Z) :
  0 <= i < 14 -> exists p, pin_of_index i = Some p /\ pin_index p = i.
Proof.
  intro H.
  assert (C : i = 0 \/ i = 1 \/ i = 2 \/ i = 3 \/ i = 4 \/ i = 5 \/ i = 6
              \/ i = 7 \/ i = 8 \/ i = 9 \/ i = 10 \/ i = 11 \/ i = 12
              \/ i = 13) by lia.
  repeat (destruct C as [C|C]; [subst i; eexists; split; reflexivity|]).
  subst i; eexists; split; reflexivity.
Qed.

Lemma pin_of_index_other (i j : Z) (p q : PinType) :
  pin_of_index i = Some p -> pin_of_index j = Some q -> j <> i -> q <> p.
Proof.
  intros A B N E. subst q.
  apply pin_of_index_inv in A. apply pin_of_index_inv in B. congruence.
Qed.

(** X1. A pin write the simulator accepts is read back exactly: get_pin on
    the same index returns the written state and voltage, every other index
    reads as before, and no pin's direction or range changes. *)
Theorem simulator_set_pin_then_get_pin (sim : TCAN1463Q1Simulator) (i : Z)
    (st : PinState) (v : float) :
  fst (tcan1463q1_simulator_set_pin sim i st v) = true ->
  let sim' := snd (tcan1463q1_simulator_set_pin sim i st v) in
  tcan1463q1_simulator_get_pin sim' i = Some (st, v)
  /\ (forall j, j <> i ->
        tcan1463q1_simulator_get_pin sim' j = tcan1463q1_simulator_get_pin sim j)
  /\ (forall j, tcan1463q1_simulator_get_pin_info sim' j
                = tcan1463q1_simulator_get_pin_info sim j).
Proof.
  unfold tcan1463q1_simulator_set_pin, tcan1463q1_simulator_get_pin,
    tcan1463q1_simulator_get_pin_info.
  destruct (pin_of_index i) as [p|] eqn:E; [|discriminate].
  cbn [fst snd pins set_pins]. rewrite pin_set_value_fst. intro V.
  rewrite (pin_set_value_accepted _ st v V). cbn [snd].
  split; [|split].
  - rewrite pin_store_same. reflexivity.
  - intros j N. destruct (pin_of_index j) as [q|] eqn:F; [|reflexivity].
    rewrite pin_store_other by exact (pin_of_index_other i j p q E F N).
    reflexivity.
  - intro j. destruct (pin_of_index j) as [q|] eqn:F; [|reflexivity].
    unfold pin_store. destruct (PinType_beq q p) eqn:G; [|reflexivity].
    apply PinType_beq_eq in G. subst q. reflexivity.
Qed.

Lemma simulator_set_pin_then_get_pin_witness :
  tcan1463q1_simulator_get_pin
    (snd (tcan1463q1_simulator_set_pin (snd (created initial_memory 1%nat))
            (pin_index PIN_EN) PIN_STATE_HIGH 3.3%float))
    (pin_index PIN_EN)
  = Some (PIN_STATE_HIGH, 3.3%float).
Proof.
  apply (simulator_set_pin_then_get_pin (snd (created initial_memory 1%nat))
           (pin_index PIN_EN) PIN_STATE_HIGH 3.3%float).
  vm_compute. reflexivity.
Defined.

(** X2. Pin indices are bounds-checked everywhere: with an index below 0 or
    at least 14 every set operation fails and changes nothing, and every
    get, get_pin_info and validate operation fails; with an index from 0 to
    13 the get operations always succeed. *)
Theorem pin_index_bounds (sim : TCAN1463Q1Simulator) (i : Z) (st : PinState)
    (v : float) :
  (i < 0 \/ 14 <= i ->
     tcan1463q1_simulator_set_pin sim i st v = (false, sim)
     /\ tcan1463q1_simulator_get_pin sim i = None
     /\ tcan1463q1_simulator_get_pin_info sim i = None
     /\ pin_manager_set_pin (pins sim) i st v = (false, pins sim)
     /\ pin_manager_get_pin (pins sim) i = None
     /\ pin_manager_get_pin_info (pins sim) i = None
     /\ pin_manager_validate_pin (pins sim) i v = false)
  /\ (0 <= i < 14 ->
     tcan1463q1_simulator_get_pin sim i <> None
     /\ tcan1463q1_simulator_get_pin_info sim i <> None
     /\ pin_manager_get_pin (pins sim) i <> None
     /\ pin_manager_get_pin_info (pins sim) i <> None).
Proof.
  unfold tcan1463q1_simulator_set_pin, tcan1463q1_simulator_get_pin,
    tcan1463q1_simulator_get_pin_info, pin_manager_set_pin,
    pin_manager_get_pin, pin_manager_get_pin_info, pin_manager_validate_pin.
  split; intro H.
  - rewrite (pin_of_index_out_of_range i H). repeat split.
  - destruct (pin_of_index_in_range i H) as [p [E _]]. rewrite E.
    repeat split; discriminate.
Qed.

Lemma pin_index_bounds_witness :
  tcan1463q1_simulator_set_pin (snd (created initial_memory 1%nat)) 14
    PIN_STATE_LOW 0.0%float
  = (false, snd (created initial_memory 1%nat))
  /\ tcan1463q1_simulator_get_pin (snd (created initial_memory 1%nat)) 13
     <> None.
Proof.
  split.
  - apply (proj1 (pin_index_bounds (snd (created initial_memory 1%nat)) 14
                    PIN_STATE_LOW 0.0%float)). lia.
  - apply (proj2 (pin_index_bounds (snd (created initial_memory 1%nat)) 13
                    PIN_STATE_LOW 0.0%float)). lia.
Defined.

(** *** Batches *)





(** ** What a pin can hold *)

Lemma pin_set_value_wellformed (p : PinType) (pin : Pin) (st : PinState)
    (v : float) :
  pin_wellformed p pin -> pin_wellformed p (snd (pin_set_value pin st v)).
Proof.
  intros [T S]. unfold pin_set_value.
  destruct (pin_validate_voltage pin v) eqn:V; cbn [negb snd];
    [|split; assumption].
  split; [exact T|]. unfold stored_voltage_ok. cbn [voltage min_voltage
    max_voltage].
  unfold pin_validate_voltage in V.
  destruct (v =? 0.0)%float; [left; reflexivity|].
  rewrite andb_false_r in V.
  destruct (v <? min_voltage pin)%float; [discriminate|].
  destruct (max_voltage pin <? v)%float; [discriminate|].
  right. split; reflexivity.
Qed.

Lemma write_pin_wellformed (ps : PinArray) (p : PinType) (st : PinState)
    (v : float) :
  pins_forall pin_wellformed ps ->
  pins_forall pin_wellformed (write_pin ps p st v).
Proof.
  intros H q. unfold write_pin, pin_store.
  destruct (PinType_beq q p) eqn:E; [|apply H].
  apply PinType_beq_eq in E. subst q.
  apply pin_set_value_wellformed, H.
Qed.

Lemma drive_bus_pins_wellformed (ct : CANTransceiver) (fs : FaultState)
    (bb : BusBiasController) (vcc_v : float) (txd_low : bool) (ps : PinArray) :
  pins_forall pin_wellformed ps ->
  pins_forall pin_wellformed (snd (drive_bus_pins ct fs bb vcc_v txd_low ps)).
Proof.
  intro H. unfold drive_bus_pins.
  destruct (driver_enabled ct && negb (fault_detector_should_disable_driver fs)).
  - cbn [snd]. apply write_pin_wellformed, write_pin_wellformed, H.
  - destruct (negb (BusBiasState_beq (bias_state bb) BIAS_STATE_OFF));
      cbn [snd]; apply write_pin_wellformed, write_pin_wellformed, H.
Qed.

Lemma step_pins_wellformed (m : Memory) (sim : TCAN1463Q1Simulator) (d : Z) :
  pins_forall pin_wellformed (pins sim) ->
  pins_forall pin_wellformed (pins (snd (tcan1463q1_simulator_step m sim d))).
Proof.
  intro H. rewrite step_sim_eq. unfold step_core. cbn [snd pins].
  unfold write_inh_pin.
  match goal with
  | |- pins_forall _ (match ?x with _ => _ end) => destruct x
  end; repeat apply write_pin_wellformed; apply drive_bus_pins_wellformed, H.
Qed.

Lemma set_pin_wellformed (sim : TCAN1463Q1Simulator) (i : Z) (st : PinState)
    (v : float) :
  pins_forall pin_wellformed (pins sim) ->
  pins_forall pin_wellformed
    (pins (snd (tcan1463q1_simulator_set_pin sim i st v))).
Proof.
  intro H. unfold tcan1463q1_simulator_set_pin.
  destruct (pin_of_index i) as [p|]; [|exact H].
  cbn [snd pins set_pins]. apply (write_pin_wellformed (pins sim) p st v H).
Qed.

Lemma pin_manager_init_wellformed : pins_forall pin_wellformed pin_manager_init.
Proof.
  intro p. destruct p; (split; [repeat split|]);
    first [left; reflexivity | right; split; reflexivity].
Qed.

Lemma api_reachable_wellformed (sim : TCAN1463Q1Simulator) :
  api_reachable sim -> pins_forall pin_wellformed (pins sim).
Proof.
  induction 1 as [m sim|sim i st v R IH|m sim d R IH|sim sim' R IH E].
  - exact pin_manager_init_wellformed.
  - apply set_pin_wellformed, IH.
  - apply step_pins_wellformed, IH.
  - rewrite E. exact IH.
Qed.

Lemma normal_world_reachable : api_reachable (snd normal_world).
Proof.
  unfold normal_world, to_normal.
  repeat first [apply api_reachable_set_input | apply api_reachable_steps].
  unfold created, tcan1463q1_simulator_create. cbn [fst snd].
  apply reach_reset.
Qed.

(** X4. In every state the API can reach (after reset, pin writes, steps,
    and calls that leave the pins alone) each of the 14 pins still has the
    direction and voltage range of the static tables, and its stored
    voltage either compares equal to zero or is not below the pin's
    minimum and not above its maximum. *)
Theorem reachable_pins_keep_table_and_range (sim : TCAN1463Q1Simulator)
    (p : PinType) :
  api_reachable sim ->
  is_input (pins sim p) = fst (pin_directions p)
  /\ is_output (pins sim p) = snd (pin_directions p)
  /\ min_voltage (pins sim p) = fst (pin_voltage_ranges p)
  /\ max_voltage (pins sim p) = snd (pin_voltage_ranges p)
  /\ ((voltage (pins sim p) =? 0.0)%float = true
      \/ ((voltage (pins sim p) <? fst (pin_voltage_ranges p))%float = false
          /\ (snd (pin_voltage_ranges p) <? voltage (pins sim p))%float
             = false)).
Proof.
  intro R. destruct (api_reachable_wellformed sim R p) as [[A [B [C D]]] S].
  repeat (split; [assumption|]).
  unfold stored_voltage_ok in S. rewrite C, D in S. exact S.
Qed.

Lemma reachable_pins_keep_table_and_range_witness :
  max_voltage (pins (snd normal_world) PIN_CANH) = 42.0%float.
Proof.
  exact (proj1 (proj2 (proj2 (proj2
    (reachable_pins_keep_table_and_range (snd normal_world) PIN_CANH
       normal_world_reachable))))).
Defined.

(** X5. While a supply pin (VSUP, VCC or VIO) is stored in the ANALOG
    state and has its table range, no write the simulator accepts puts a
    voltage in the undervoltage region of the power monitor on it: the
    validation range starts above the undervoltage threshold. *)
Theorem analog_supply_write_never_undervoltage (sim : TCAN1463Q1Simulator)
    (p : PinType) (st : PinState) (v : float) :
  In p [PIN_VSUP; PIN_VCC; PIN_VIO] ->
  min_voltage (pins sim p) = fst (pin_voltage_ranges p) ->
  state (pins sim p) = PIN_STATE_ANALOG ->
  fst (tcan1463q1_simulator_set_pin sim (pin_index p) st v) = true ->
  supply_undervoltage p v = false.
Proof.
  intros Hp Hmin Hst. rewrite simulator_set_pin_succeeds_iff.
  unfold pin_validate_voltage. rewrite Hst, Hmin. cbn [PinState_beq negb andb].
  destruct (v <? fst (pin_voltage_ranges p))%float eqn:L; [discriminate|].
  intros _. unfold supply_undervoltage.
  simpl in Hp. destruct Hp as [E|[E|[E|[]]]]; subst p;
    cbn [pin_voltage_ranges fst] in L;
    unfold UVSUP_FALLING_MIN, UVCC_FALLING_MAX, UVIO_FALLING_MAX;
    rewrite ?ltb_spec, ?leb_spec in *.
  - sf_const 4.5%float. sf_const 3.5%float. float_order v.
  - sf_const 4.5%float. sf_const 3.9%float. float_order v.
  - sf_const 1.65%float. sf_const 1.25%float. float_order v.
Qed.

Lemma analog_supply_write_never_undervoltage_witness :
  supply_undervoltage PIN_VCC 5.0%float = false.
Proof.
  apply (analog_supply_write_never_undervoltage
           (snd (created initial_memory 1%nat)) PIN_VCC PIN_STATE_ANALOG
           5.0%float).
  - simpl. auto.
  - reflexivity.
  - reflexivity.
  - vm_compute. reflexivity.
Defined.


(** ** Timing engine *)

Lemma sub64_add64 (a d : Z) : 0 <= d < 2 ^ 64 -> sub64 (add64 a d) a = d.
Proof.
  intro H. unfold sub64, add64.
  rewrite Zminus_mod_idemp_l.
  replace (a + d - a) with d by lia. apply Z.mod_small. exact H.
Qed.

Lemma sub64_small (a b : Z) : 0 <= b <= a -> a < 2 ^ 64 -> sub64 a b = a - b.
Proof. intros H1 H2. unfold sub64. apply Z.mod_small. lia. Qed.

(** X6. Elapsed time is measured correctly across a wrap of the 64-bit
    clock: after the engine advances by [d] (below 2^64), a timeout counted
    from the time before the advance has expired exactly when it is at
    most [d]. A start time that lies [k] ns in the future, as add_delay
    returns it, reads as expired for every timeout up to 2^64 - k. *)
Theorem timing_engine_timeout_measures_advance (e : TimingEngine)
    (d k timeout_ns : Z) :
  0 <= d < 2 ^ 64 ->
  timing_engine_is_timeout (timing_engine_advance e d)
    (timing_engine_get_time e) timeout_ns = (timeout_ns <=? d)
  /\ last_update_ns (timing_engine_advance e d) = timing_engine_get_time e
  /\ (0 < k < 2 ^ 64 -> timeout_ns <= 2 ^ 64 - k ->
      timing_engine_is_timeout e
        (timing_engine_add_delay e (timing_engine_get_time e) k) timeout_ns
      = true).
Proof.
  intro H. unfold timing_engine_is_timeout, timing_engine_advance,
    timing_engine_get_time, timing_engine_add_delay. cbn [current_time_ns
    last_update_ns].
  split; [|split; [reflexivity|]].
  - rewrite sub64_add64 by exact H. rewrite Z.geb_leb. reflexivity.
  - intros Hk Ht. unfold sub64, add64. rewrite Zminus_mod_idemp_r.
    replace (current_time_ns e - (current_time_ns e + k)) with (- k) by lia.
    replace (- k) with (2 ^ 64 - k + (-1) * 2 ^ 64) by lia.
    rewrite Z.mod_add by lia. rewrite Z.mod_small by lia.
    rewrite Z.geb_leb. apply Z.leb_le. exact Ht.
Qed.

Lemma timing_engine_timeout_measures_advance_witness :
  timing_engine_is_timeout
    (timing_engine_advance (mkTimingEngine (2 ^ 64 - 10) 0) 100)
    (2 ^ 64 - 10) 100 = true.
Proof.
  apply (proj1 (timing_engine_timeout_measures_advance
                  (mkTimingEngine (2 ^ 64 - 10) 0) 100 1 100
                  ltac:(lia))).
Defined.

(** ** Power monitor *)

Lemma float_gt_3_85_not_le_3_5 (v : float) :
  (3.85 <? v)%float = true -> (v <=? 3.5)%float = false.
Proof.
  intro H. destruct (v <=? 3.5)%float eqn:E; [|reflexivity].
  apply float_le_3_5_not_gt_3_85 in E. congruence.
Qed.

Lemma float_gt_4_1_not_lt_3_9 (v : float) :
  (4.1 <? v)%float = true -> (v <? 3.9)%float = false.
Proof.
  intro H. rewrite ?ltb_spec, ?leb_spec in *.
  sf_const 4.1%float. sf_const 3.9%float. float_order v.
Qed.

Lemma float_gt_1_4_not_lt_1_25 (v : float) :
  (1.4 <? v)%float = true -> (v <? 1.25)%float = false.
Proof.
  intro H. rewrite ?ltb_spec, ?leb_spec in *.
  sf_const 1.4%float. sf_const 1.25%float. float_order v.
Qed.

Lemma power_monitor_update_vsup (st : PowerState) (vs vc vi : float) (t : Z) :
  let st' := power_monitor_update st vs vc vi t in
  uvsup_flag st'
  = (if negb (uvsup_flag st) && (vs <=? UVSUP_FALLING_MIN)%float then true
     else if uvsup_flag st && (UVSUP_RISING_MIN <? vs)%float then false
     else uvsup_flag st)
  /\ pwron_flag st'
     = (if negb (uvsup_flag st) && (vs <=? UVSUP_FALLING_MIN)%float
        then pwron_flag st
        else if uvsup_flag st && (UVSUP_RISING_MIN <? vs)%float then true
        else pwron_flag st).
Proof.
  unfold power_monitor_update.
  destruct (negb (uvsup_flag st) && (vs <=? UVSUP_FALLING_MIN)%float);
    [split; reflexivity|].
  destruct (uvsup_flag st && (UVSUP_RISING_MIN <? vs)%float);
    split; reflexivity.
Qed.

Lemma power_monitor_update_rails (st : PowerState) (vs vc vi : float) (t : Z) :
  let st' := power_monitor_update st vs vc vi t in
  (uvcc_flag st', uvcc_start_time st')
  = filtered_rail vc (vcc st) UVCC_FALLING_MAX UVCC_RISING_MIN
                  (uvcc_flag st) (uvcc_start_time st) t
  /\ (uvio_flag st', uvio_start_time st')
     = filtered_rail vi (vio st) UVIO_FALLING_MAX UVIO_RISING_MIN
                     (uvio_flag st) (uvio_start_time st) t
  /\ vsup st' = vs /\ vcc st' = vc /\ vio st' = vi.
Proof.
  unfold power_monitor_update.
  destruct (if negb (uvsup_flag st) && (vs <=? UVSUP_FALLING_MIN)%float
            then (true, pwron_flag st)
            else if uvsup_flag st && (UVSUP_RISING_MIN <? vs)%float
                 then (false, true)
                 else (uvsup_flag st, pwron_flag st)) as [a b].
  cbn [uvcc_flag uvcc_start_time uvio_flag uvio_start_time vsup vcc vio].
  repeat split;
    match goal with
    | |- (fst ?x, snd ?x) = _ => destruct x; reflexivity
    end.
Qed.

(** X7. VSUP undervoltage has hysteresis and no filter: after an update
    the flag is set if VSUP is at or below 3.5 V, clear if VSUP is above
    3.85 V, and unchanged in between. The power-on flag is set by the
    update in which the undervoltage flag is cleared and is never cleared
    by an update. *)
Theorem power_monitor_vsup_hysteresis (st : PowerState) (vs vc vi : float)
    (t : Z) :
  let st' := power_monitor_update st vs vc vi t in
  ((vs <=? UVSUP_FALLING_MIN)%float = true ->
     uvsup_flag st' = true /\ pwron_flag st' = pwron_flag st)
  /\ ((UVSUP_RISING_MIN <? vs)%float = true ->
     uvsup_flag st' = false
     /\ pwron_flag st' = (pwron_flag st || uvsup_flag st))
  /\ ((vs <=? UVSUP_FALLING_MIN)%float = false ->
      (UVSUP_RISING_MIN <? vs)%float = false ->
     uvsup_flag st' = uvsup_flag st /\ pwron_flag st' = pwron_flag st)
  /\ (pwron_flag st = true -> pwron_flag st' = true).
Proof.
  destruct (power_monitor_update_vsup st vs vc vi t) as [U P].
  cbv zeta in *. rewrite U, P. unfold UVSUP_FALLING_MIN, UVSUP_RISING_MIN.
  split; [|split; [|split]].
  - intro L. rewrite L, (float_le_3_5_not_gt_3_85 vs L).
    destruct (uvsup_flag st); split; reflexivity.
  - intro G. rewrite G, (float_gt_3_85_not_le_3_5 vs G).
    destruct (uvsup_flag st), (pwron_flag st); split; reflexivity.
  - intros L G. rewrite L, G.
    destruct (uvsup_flag st); split; reflexivity.
  - intro Q. rewrite Q.
    destruct (negb (uvsup_flag st) && (vs <=? 3.5)%float); [reflexivity|].
    destruct (uvsup_flag st && (3.85 <? vs)%float); reflexivity.
Qed.

Lemma power_monitor_vsup_hysteresis_witness :
  uvsup_flag (power_monitor_update power_monitor_init 3.0%float 5.0%float
                3.3%float 1000) = true.
Proof.
  apply (proj1 (power_monitor_vsup_hysteresis power_monitor_init 3.0%float
                  5.0%float 3.3%float 1000)).
  reflexivity.
Defined.

(** *** The filter of the VCC and VIO rails *)

Lemma filtered_rail_low (v prev fmax rmin : float) (flag : bool) (t0 t : Z) :
  (v <? fmax)%float = true -> t0 <> UINT64_MAX -> 0 <= t0 <= t -> t < 2 ^ 64 ->
  filtered_rail v prev fmax rmin flag t0 t
  = (flag || (t0 + TUV_MIN_NS <=? t), t0).
Proof.
  intros L N H1 H2. unfold filtered_rail. rewrite L.
  assert (E : (t0 =? UINT64_MAX) = false) by (apply Z.eqb_neq; exact N).
  rewrite E. rewrite sub64_small by lia. rewrite Z.geb_leb.
  replace (TUV_MIN_NS <=? t - t0) with (t0 + TUV_MIN_NS <=? t)
    by (destruct (Z.leb_spec (t0 + TUV_MIN_NS) t),
                 (Z.leb_spec TUV_MIN_NS (t - t0)); try reflexivity; lia).
  destruct flag, (t0 + TUV_MIN_NS <=? t); reflexivity.
Qed.

Lemma filtered_rail_first (v prev fmax rmin : float) (t : Z) :
  (v <? fmax)%float = true -> 0 <= t < 2 ^ 64 ->
  filtered_rail v prev fmax rmin false UINT64_MAX t = (false, t).
Proof.
  intros L H. unfold filtered_rail. rewrite L, Z.eqb_refl.
  unfold sub64. rewrite Z.sub_diag. reflexivity.
Qed.

Lemma uvcc_run (calls : list PowerInputs) (t0 : Z) :
  forall st,
  uvcc_start_time st = t0 -> t0 <> UINT64_MAX -> 0 <= t0 ->
  Forall (fun c => t0 <= pi_time c < 2 ^ 64) calls ->
  Forall (fun c => (pi_vcc c <? UVCC_FALLING_MAX)%float = true) calls ->
  uvcc_flag (power_monitor_updates st calls)
  = (uvcc_flag st || filter_time_reached t0 calls).
Proof.
  induction calls as [|c rest IH]; intros st S N P T L.
  - simpl. rewrite orb_false_r. reflexivity.
  - inversion T as [|? ? Tc Tr]; subst. inversion L as [|? ? Lc Lr]; subst.
    cbn [power_monitor_updates filter_time_reached existsb].
    destruct (power_monitor_update_rails st (pi_vsup c) (pi_vcc c) (pi_vio c)
                (pi_time c)) as [R _]. cbv zeta in R.
    rewrite filtered_rail_low in R by (try assumption; lia).
    injection R as Rf Rs.
    rewrite (IH _ Rs N P Tr Lr). rewrite Rf.
    unfold filter_time_reached. rewrite orb_assoc. reflexivity.
Qed.

Lemma uvio_run (calls : list PowerInputs) (t0 : Z) :
  forall st,
  uvio_start_time st = t0 -> t0 <> UINT64_MAX -> 0 <= t0 ->
  Forall (fun c => t0 <= pi_time c < 2 ^ 64) calls ->
  Forall (fun c => (pi_vio c <? UVIO_FALLING_MAX)%float = true) calls ->
  uvio_flag (power_monitor_updates st calls)
  = (uvio_flag st || filter_time_reached t0 calls).
Proof.
  induction calls as [|c rest IH]; intros st S N P T L.
  - simpl. rewrite orb_false_r. reflexivity.
  - inversion T as [|? ? Tc Tr]; subst. inversion L as [|? ? Lc Lr]; subst.
    cbn [power_monitor_updates filter_time_reached existsb].
    destruct (power_monitor_update_rails st (pi_vsup c) (pi_vcc c) (pi_vio c)
                (pi_time c)) as [_ [R _]]. cbv zeta in R.
    rewrite filtered_rail_low in R by (try assumption; lia).
    injection R as Rf Rs.
    rewrite (IH _ Rs N P Tr Lr). rewrite Rf.
    unfold filter_time_reached. rewrite orb_assoc. reflexivity.
Qed.

(** X8. The VCC and VIO undervoltage flags are filtered by 100 ms counted
    from the first update that sees the rail low: starting with the flag
    clear and the timer idle, over any sequence of updates that all see
    the rail below its falling threshold (3.9 V for VCC, 1.25 V for VIO),
    the flag ends set exactly when some update after the first comes 100 ms
    or more after the first. *)
Theorem undervoltage_filter_run (st : PowerState) (c0 : PowerInputs)
    (rest : list PowerInputs) :
  0 <= pi_time c0 < UINT64_MAX ->
  Forall (fun c => pi_time c0 <= pi_time c < 2 ^ 64) rest ->
  (uvcc_flag st = false -> uvcc_start_time st = UINT64_MAX ->
   Forall (fun c => (pi_vcc c <? UVCC_FALLING_MAX)%float = true) (c0 :: rest) ->
   uvcc_flag (power_monitor_updates st (c0 :: rest))
   = filter_time_reached (pi_time c0) rest)
  /\ (uvio_flag st = false -> uvio_start_time st = UINT64_MAX ->
      Forall (fun c => (pi_vio c <? UVIO_FALLING_MAX)%float = true)
             (c0 :: rest) ->
      uvio_flag (power_monitor_updates st (c0 :: rest))
      = filter_time_reached (pi_time c0) rest).
Proof.
  intros H0 T. unfold UINT64_MAX in H0.
  assert (N : pi_time c0 <> UINT64_MAX) by (unfold UINT64_MAX; lia).
  split; intros F S L; inversion L as [|? ? Lc Lr]; subst;
    cbn [power_monitor_updates].
  - destruct (power_monitor_update_rails st (pi_vsup c0) (pi_vcc c0)
                (pi_vio c0) (pi_time c0)) as [R _]. cbv zeta in R.
    rewrite F, S, filtered_rail_first in R by (try assumption; lia).
    injection R as Rf Rs.
    rewrite (uvcc_run rest (pi_time c0) _ Rs N ltac:(lia) T Lr), Rf.
    reflexivity.
  - destruct (power_monitor_update_rails st (pi_vsup c0) (pi_vcc c0)
                (pi_vio c0) (pi_time c0)) as [_ [R _]]. cbv zeta in R.
    rewrite F, S, filtered_rail_first in R by (try assumption; lia).
    injection R as Rf Rs.
    rewrite (uvio_run rest (pi_time c0) _ Rs N ltac:(lia) T Lr), Rf.
    reflexivity.
Qed.

Lemma undervoltage_filter_run_witness :
  uvcc_flag (power_monitor_updates power_monitor_init
               [mkPowerInputs 12.0 3.0 3.3 1000;
                mkPowerInputs 12.0 3.0 3.3 50000000;
                mkPowerInputs 12.0 3.0 3.3 100001000]%float)
  = true.
Proof.
  apply (proj1 (undervoltage_filter_run power_monitor_init
                  (mkPowerInputs 12.0 3.0 3.3 1000)
                  [mkPowerInputs 12.0 3.0 3.3 50000000;
                   mkPowerInputs 12.0 3.0 3.3 100001000]%float
                  ltac:(vm_compute; split; [discriminate | reflexivity])
                  ltac:(repeat constructor; simpl; lia))).
  - reflexivity.
  - reflexivity.
  - repeat constructor.
Defined.

(** X9. Recovery of VCC and VIO is immediate and has hysteresis: an
    update that sees the rail above its rising threshold (4.1 V for VCC,
    1.4 V for VIO) clears the undervoltage flag and stops the filter timer
    whatever the timer had reached; with the rail between the two
    thresholds the flag is left as it was. *)
Theorem undervoltage_recovery (st : PowerState) (vs vc vi : float) (t : Z) :
  let st' := power_monitor_update st vs vc vi t in
  ((UVCC_RISING_MIN <? vc)%float = true ->
     uvcc_flag st' = false /\ uvcc_start_time st' = UINT64_MAX)
  /\ ((vc <? UVCC_FALLING_MAX)%float = false ->
      (UVCC_RISING_MIN <? vc)%float = false ->
     uvcc_flag st' = uvcc_flag st)
  /\ ((UVIO_RISING_MIN <? vi)%float = true ->
     uvio_flag st' = false /\ uvio_start_time st' = UINT64_MAX)
  /\ ((vi <? UVIO_FALLING_MAX)%float = false ->
      (UVIO_RISING_MIN <? vi)%float = false ->
     uvio_flag st' = uvio_flag st).
Proof.
  destruct (power_monitor_update_rails st vs vc vi t) as [C [I _]].
  cbv zeta in *. unfold filtered_rail in C, I.
  unfold UVCC_RISING_MIN, UVCC_FALLING_MAX, UVIO_RISING_MIN,
    UVIO_FALLING_MAX in *.
  split; [|split; [|split]].
  - intro G. rewrite G, (float_gt_4_1_not_lt_3_9 vc G) in C.
    injection C as A B. auto.
  - intros L G. rewrite L, G in C.
    destruct (vcc st <? vc)%float; injection C as A B; exact A.
  - intro G. rewrite G, (float_gt_1_4_not_lt_1_25 vi G) in I.
    injection I as A B. auto.
  - intros L G. rewrite L, G in I.
    destruct (vio st <? vi)%float; injection I as A B; exact A.
Qed.

Lemma undervoltage_recovery_witness :
  uvcc_flag (power_monitor_update
               (mkPowerState 12.0 3.0 3.3 false true false false 1000
                             UINT64_MAX)
               12.0 5.0 3.3 2000)%float = false.
Proof.
  apply (proj1 (undervoltage_recovery
                  (mkPowerState 12.0 3.0 3.3 false true false false 1000
                                UINT64_MAX)
                  12.0 5.0 3.3 2000)%float).
  reflexivity.
Defined.

(** ** Mode controller: the next mode in closed form *)

Lemma mode_controller_update_supply_lost (st : ModeState) (en nstb wk : bool)
    (t : Z) :
  current_mode (mode_controller_update st en nstb false wk t) = MODE_OFF.
Proof.
  unfold mode_controller_update, determine_target_mode. cbn [negb].
  destruct (current_mode st) eqn:E; simpl; try reflexivity. exact E.
Qed.

(** X10. The low-power modes can only be left along one path. From Sleep
    the next mode is Off on supply loss, Standby when nSTB is low and a
    wake request is set, and Sleep otherwise: raising nSTB does not leave
    Sleep. From Go-to-sleep the next mode is Off on supply loss, Sleep once
    the time in the mode has reached 600 ms, and Go-to-sleep otherwise:
    neither nSTB nor a wake request aborts it. *)
Theorem mode_low_power_exits (st : ModeState) (en nstb vs wk : bool) (t : Z) :
  (current_mode st = MODE_SLEEP ->
   current_mode (mode_controller_update st en nstb vs wk t)
   = if negb vs then MODE_OFF
     else if negb nstb && wk then MODE_STANDBY else MODE_SLEEP)
  /\ (current_mode st = MODE_GO_TO_SLEEP ->
      current_mode (mode_controller_update st en nstb vs wk t)
      = if negb vs then MODE_OFF
        else if mode_time_in_mode st t >=? mode_TSILENCE_NS then MODE_SLEEP
        else MODE_GO_TO_SLEEP).
Proof.
  split; intro E; unfold mode_controller_update, determine_target_mode;
    rewrite E;
    destruct (mode_time_in_mode st t >=? mode_TSILENCE_NS);
    destruct en, nstb, vs, wk; simpl; try reflexivity; exact E.
Qed.

Lemma mode_low_power_exits_witness :
  current_mode (mode_controller_update
                  (mkModeState MODE_SLEEP MODE_GO_TO_SLEEP 0 false)
                  true true true true 1000) = MODE_SLEEP.
Proof.
  apply (proj1 (mode_low_power_exits
                  (mkModeState MODE_SLEEP MODE_GO_TO_SLEEP 0 false)
                  true true true true 1000)).
  reflexivity.
Defined.

(** X11. From Normal and Silent the next mode is always the decoded
    target: Off on supply loss, else Normal or Silent by EN when nSTB is
    high, else Standby with a wake request and Go-to-sleep without. From
    Standby and from Off only nSTB high leads on (to Normal or Silent by
    EN); Standby never goes to sleep directly, and Off is left only with a
    valid supply. *)
Theorem mode_active_and_standby_exits (st : ModeState) (en nstb vs wk : bool)
    (t : Z) :
  let next := current_mode (mode_controller_update st en nstb vs wk t) in
  (current_mode st = MODE_NORMAL \/ current_mode st = MODE_SILENT ->
   next = if negb vs then MODE_OFF
          else if nstb then (if en then MODE_NORMAL else MODE_SILENT)
          else if wk then MODE_STANDBY else MODE_GO_TO_SLEEP)
  /\ (current_mode st = MODE_STANDBY ->
      next = if negb vs then MODE_OFF
             else if nstb then (if en then MODE_NORMAL else MODE_SILENT)
             else MODE_STANDBY)
  /\ (current_mode st = MODE_OFF ->
      next = if vs && nstb then (if en then MODE_NORMAL else MODE_SILENT)
             else MODE_OFF).
Proof.
  cbv zeta. repeat split; intro E; try destruct E as [E|E];
    unfold mode_controller_update, determine_target_mode; rewrite E;
    destruct (mode_time_in_mode st t >=? mode_TSILENCE_NS);
    destruct en, nstb, vs, wk; simpl; try reflexivity; exact E.
Qed.

Lemma mode_active_and_standby_exits_witness :
  current_mode (mode_controller_update
                  (mkModeState MODE_STANDBY MODE_SLEEP 0 false)
                  true false true false 1000) = MODE_STANDBY.
Proof.
  apply (proj1 (proj2 (mode_active_and_standby_exits
                  (mkModeState MODE_STANDBY MODE_SLEEP 0 false)
                  true false true false 1000))).
  reflexivity.
Defined.

(** ** CAN transceiver *)

(** X12. The bus classification has three exclusive outcomes decided by the
    differential voltage alone: dominant exactly when it is at least 0.9 V,
    recessive exactly when it is at most 0.5 V, and indeterminate exactly
    when both comparisons fail (between the thresholds, or not a number). *)
Theorem bus_state_classification (vdiff : float) :
  (can_transceiver_get_bus_state vdiff = BUS_STATE_DOMINANT
   <-> (VDIFF_DOMINANT_THRESHOLD <=? vdiff)%float = true)
  /\ (can_transceiver_get_bus_state vdiff = BUS_STATE_RECESSIVE
      <-> (vdiff <=? VDIFF_RECESSIVE_THRESHOLD)%float = true)
  /\ (can_transceiver_get_bus_state vdiff = BUS_STATE_INDETERMINATE
      <-> (VDIFF_DOMINANT_THRESHOLD <=? vdiff)%float = false
          /\ (vdiff <=? VDIFF_RECESSIVE_THRESHOLD)%float = false).
Proof.
  unfold can_transceiver_get_bus_state, VDIFF_DOMINANT_THRESHOLD,
    VDIFF_RECESSIVE_THRESHOLD.
  destruct (0.9 <=? vdiff)%float eqn:D.
  - rewrite (float_ge_0_9_not_le_0_5 vdiff D).
    repeat split; intros; try discriminate; try reflexivity;
      match goal with H : _ /\ _ |- _ => destruct H; discriminate end.
  - destruct (vdiff <=? 0.5)%float eqn:R;
      repeat split; intros; try discriminate; try reflexivity;
      match goal with H : _ /\ _ |- _ => destruct H; discriminate end.
Qed.

Lemma update_rxd_keeps_state (t : CANTransceiver) (bus : BusState)
    (c s : Z) :
  can_state (can_transceiver_update_rxd t bus c s) = can_state t
  /\ driver_enabled (can_transceiver_update_rxd t bus c s) = driver_enabled t
  /\ receiver_enabled (can_transceiver_update_rxd t bus c s)
     = receiver_enabled t.
Proof.
  unfold can_transceiver_update_rxd.
  destruct (negb (receiver_enabled t)); [repeat split|].
  destruct (rxd_pending t && (c >=? rxd_update_time t));
    destruct bus; cbv zeta;
    repeat match goal with
    | |- context [if ?b then _ else _] => destruct b
    end; repeat split.
Qed.

Lemma drive_bus_keeps_state (t : CANTransceiver) (dominant : bool) :
  can_state (fst (fst (can_transceiver_drive_bus t dominant))) = can_state t
  /\ driver_enabled (fst (fst (can_transceiver_drive_bus t dominant)))
     = driver_enabled t
  /\ receiver_enabled (fst (fst (can_transceiver_drive_bus t dominant)))
     = receiver_enabled t.
Proof.
  unfold can_transceiver_drive_bus.
  destruct (dominant && driver_enabled t); repeat split.
Qed.

Lemma drive_bus_pins_keeps_state (ct : CANTransceiver) (fs : FaultState)
    (bb : BusBiasController) (vcc_v : float) (txd_low : bool) (ps : PinArray) :
  can_state (fst (drive_bus_pins ct fs bb vcc_v txd_low ps)) = can_state ct
  /\ driver_enabled (fst (drive_bus_pins ct fs bb vcc_v txd_low ps))
     = driver_enabled ct
  /\ receiver_enabled (fst (drive_bus_pins ct fs bb vcc_v txd_low ps))
     = receiver_enabled ct.
Proof.
  unfold drive_bus_pins.
  destruct (driver_enabled ct && negb (fault_detector_should_disable_driver fs)).
  - cbn [fst]. apply drive_bus_keeps_state.
  - destruct (negb (BusBiasState_beq (bias_state bb) BIAS_STATE_OFF));
      repeat split.
Qed.

(** What the state machine leaves: the enables are functions of the new
    state and the mode. *)
Lemma state_machine_enables (lbat : Z) (t : CANTransceiver)
    (mode : OperatingMode) (bus : BusState) (vs : bool) (now : Z) :
  let t' := snd (can_transceiver_update_state_machine lbat t mode bus vs now) in
  driver_enabled t'
  = (CANTransceiverState_beq (can_state t') CAN_STATE_ACTIVE
     && OperatingMode_beq mode MODE_NORMAL)
  /\ receiver_enabled t'
     = negb (CANTransceiverState_beq (can_state t') CAN_STATE_OFF)
  /\ (can_state t' = CAN_STATE_ACTIVE -> mode_is_active mode = true)
  /\ (vs = false -> can_state t' = CAN_STATE_OFF).
Proof.
  unfold can_transceiver_update_state_machine.
  destruct (can_state t), vs, mode; cbn [negb mode_is_active OperatingMode_beq
    orb];
    repeat match goal with
    | |- context [if ?b then _ else _] => destruct b
    end; cbn; repeat split; intros; try reflexivity; try discriminate.
Qed.

Lemma step_can_state (m : Memory) (sim : TCAN1463Q1Simulator) (d : Z) :
  let now := add64 (timing_engine_get_time (timing sim)) d in
  let sim' := snd (tcan1463q1_simulator_step m sim d) in
  let bus_prev := can_transceiver_get_bus_state
                    (voltage (pins sim PIN_CANH)
                     - voltage (pins sim PIN_CANL))%float in
  let r1 := can_transceiver_update (last_bus_activity_time m)
              (can_transceiver sim) (current_mode (mode_state sim'))
              (PinState_beq (state (pins sim PIN_TXD)) PIN_STATE_LOW)
              (voltage (pins sim PIN_CANH)) (voltage (pins sim PIN_CANL))
              now in
  let r2 := can_transceiver_update_state_machine (fst r1) (snd r1)
              (current_mode (mode_state sim')) bus_prev
              (negb (uvsup_flag (power_state sim'))) now in
  can_state (can_transceiver sim') = can_state (snd r2)
  /\ driver_enabled (can_transceiver sim') = driver_enabled (snd r2)
  /\ receiver_enabled (can_transceiver sim') = receiver_enabled (snd r2)
  /\ bias_state (bus_bias sim')
     = match can_state (snd r2) with
       | CAN_STATE_OFF => BIAS_STATE_OFF
       | CAN_STATE_AUTONOMOUS_INACTIVE => BIAS_STATE_AUTONOMOUS_INACTIVE
       | CAN_STATE_AUTONOMOUS_ACTIVE => BIAS_STATE_AUTONOMOUS_ACTIVE
       | CAN_STATE_ACTIVE => BIAS_STATE_ACTIVE
       end.
Proof.
  cbv zeta. rewrite step_sim_eq. unfold step_core.
  cbn [snd can_transceiver mode_state power_state bus_bias].
  unfold timing_engine_advance, timing_engine_get_time.
  cbn [current_time_ns].
  assert (U : forall (ps : PowerState) (b : bool), uvsup_flag (if b then power_monitor_clear_pwron_flag ps
                                       else ps) = uvsup_flag ps)
    by (intros ps b; destruct b; reflexivity).
  rewrite U. unfold power_monitor_is_vsup_valid.
  match goal with
  | |- context [can_transceiver_update_rxd (fst ?dr) ?b ?c ?s] =>
      destruct (update_rxd_keeps_state (fst dr) b c s) as [A1 [A2 A3]];
      rewrite A1, A2, A3
  end.
  match goal with
  | |- context [drive_bus_pins ?ct ?fs ?bb ?v ?x ?ps] =>
      destruct (drive_bus_pins_keeps_state ct fs bb v x ps) as [B1 [B2 B3]];
      rewrite B1, B2, B3
  end.
  repeat split.
Qed.

(** X13. After every step the transceiver's enables and the bus bias
    follow from its state and the mode: the driver is enabled exactly when
    the state is Active and the mode is Normal, the receiver is enabled
    exactly when the state is not Off, the state is Active only in Normal
    or Silent mode, the bias state mirrors the transceiver state, and an
    undervoltage on VSUP leaves the state Off. *)
Theorem step_transceiver_enables (m : Memory) (sim : TCAN1463Q1Simulator)
    (d : Z) :
  let sim' := snd (tcan1463q1_simulator_step m sim d) in
  let ct := can_transceiver sim' in
  let mode := current_mode (mode_state sim') in
  driver_enabled ct
  = (CANTransceiverState_beq (can_state ct) CAN_STATE_ACTIVE
     && OperatingMode_beq mode MODE_NORMAL)
  /\ receiver_enabled ct
     = negb (CANTransceiverState_beq (can_state ct) CAN_STATE_OFF)
  /\ (can_state ct = CAN_STATE_ACTIVE ->
      mode = MODE_NORMAL \/ mode = MODE_SILENT)
  /\ bias_state (bus_bias sim')
     = match can_state ct with
       | CAN_STATE_OFF => BIAS_STATE_OFF
       | CAN_STATE_AUTONOMOUS_INACTIVE => BIAS_STATE_AUTONOMOUS_INACTIVE
       | CAN_STATE_AUTONOMOUS_ACTIVE => BIAS_STATE_AUTONOMOUS_ACTIVE
       | CAN_STATE_ACTIVE => BIAS_STATE_ACTIVE
       end
  /\ (uvsup_flag (power_state sim') = true -> can_state ct = CAN_STATE_OFF).
Proof.
  cbv zeta. destruct (step_can_state m sim d) as [A [B [C D]]].
  cbv zeta in A, B, C, D. rewrite A, B, C, D.
  match goal with
  | |- context [can_transceiver_update_state_machine ?l ?t ?md ?b ?v ?n] =>
      destruct (state_machine_enables l t md b v n) as [E1 [E2 [E3 E4]]]
  end.
  cbv zeta in E1, E2, E3, E4.
  split; [exact E1|]. split; [exact E2|]. split; [|split; [reflexivity|]].
  - intro H. apply E3 in H. unfold mode_is_active in H.
    apply orb_true_iff in H. destruct H as [H|H];
      apply OperatingMode_beq_eq in H; auto.
  - intro H. apply E4. rewrite H. reflexivity.
Qed.

Lemma step_transceiver_enables_witness :
  current_mode (mode_state (snd (tcan1463q1_simulator_step (fst normal_world)
                                   (snd normal_world) 1000))) = MODE_NORMAL
  \/ current_mode (mode_state (snd (tcan1463q1_simulator_step
                                      (fst normal_world) (snd normal_world)
                                      1000))) = MODE_SILENT.
Proof.
  assert (H : can_state (can_transceiver
                (snd (tcan1463q1_simulator_step (fst normal_world)
                        (snd normal_world) 1000))) = CAN_STATE_ACTIVE)
    by (vm_compute; reflexivity).
  exact (proj1 (proj2 (proj2 (step_transceiver_enables (fst normal_world)
                                (snd normal_world) 1000))) H).
Defined.

(** *** The transmit path of a step *)

Lemma step_mode_normal_supply (m : Memory) (sim : TCAN1463Q1Simulator)
    (d : Z) :
  current_mode (mode_state (snd (tcan1463q1_simulator_step m sim d)))
  <> MODE_OFF ->
  uvsup_flag (power_state (snd (tcan1463q1_simulator_step m sim d))) = false.
Proof.
  rewrite step_sim_eq. unfold step_core. cbn [snd mode_state power_state].
  assert (U : forall (ps : PowerState) (b : bool),
             uvsup_flag (if b then power_monitor_clear_pwron_flag ps else ps)
             = uvsup_flag ps)
    by (intros ps b; destruct b; reflexivity).
  rewrite U. unfold power_monitor_is_vsup_valid.
  match goal with
  | |- context [uvsup_flag ?ps] => destruct (uvsup_flag ps)
  end; [|reflexivity].
  cbn [negb]. rewrite mode_controller_update_supply_lost.
  intro H. contradiction H. reflexivity.
Qed.

Lemma two_updates_active (lbat : Z) (t : CANTransceiver) (txd_low : bool)
    (canh canl : float) (bus2 : BusState) (now : Z) :
  let r1 := can_transceiver_update lbat t MODE_NORMAL txd_low canh canl now in
  let r2 := can_transceiver_update_state_machine (fst r1) (snd r1) MODE_NORMAL
              bus2 true now in
  driver_enabled (snd r2) = true.
Proof.
  cbv zeta. unfold can_transceiver_update.
  cbn [OperatingMode_beq negb].
  set (b1 := can_transceiver_get_bus_state (canh - canl)).
  pose proof (drive_bus_keeps_state
                (snd (can_transceiver_update_state_machine lbat t MODE_NORMAL
                        b1 true now)) txd_low) as [K _].
  destruct (can_transceiver_drive_bus
              (snd (can_transceiver_update_state_machine lbat t MODE_NORMAL b1
                      true now)) txd_low) as [[t2 h] l].
  cbn [fst snd] in *.
  assert (S1 : can_state t2 <> CAN_STATE_OFF).
  { rewrite K. unfold can_transceiver_update_state_machine.
    destruct (can_state t); cbn; discriminate. }
  unfold can_transceiver_update_state_machine.
  destruct (can_state t2); [contradiction S1; reflexivity| | |];
    cbn; reflexivity.
Qed.

Lemma step_bus_pins_eq (m : Memory) (sim : TCAN1463Q1Simulator) (d : Z)
    (p : PinType) :
  p = PIN_CANH \/ p = PIN_CANL ->
  let sim' := snd (tcan1463q1_simulator_step m sim d) in
  let txd_low := PinState_beq (state (pins sim PIN_TXD)) PIN_STATE_LOW in
  let entering :=
    OperatingMode_beq (current_mode (mode_state sim')) MODE_NORMAL
    && negb (OperatingMode_beq (current_mode (mode_state sim)) MODE_NORMAL) in
  let fs0 := if entering
             then fault_detector_check_txdclp (fault_state sim) txd_low
                    (current_mode (mode_state sim'))
             else fault_state sim in
  exists ct,
    driver_enabled ct = driver_enabled (can_transceiver sim')
    /\ pins sim' p
       = snd (drive_bus_pins ct fs0 (bus_bias sim')
                (voltage (pins sim PIN_VCC)) txd_low (pins sim)) p.
Proof.
  intro Hp. cbv zeta. rewrite step_sim_eq. unfold step_core.
  cbn [snd pins mode_state can_transceiver bus_bias].
  rewrite write_inh_pin_other by (destruct Hp; subst p; discriminate).
  rewrite !write_pin_other by (destruct Hp; subst p; discriminate).
  eexists. split; [|reflexivity].
  match goal with
  | |- _ = driver_enabled (can_transceiver_update_rxd (fst ?dr) ?b ?c ?s) =>
      destruct (update_rxd_keeps_state (fst dr) b c s) as [_ [A2 _]];
      rewrite A2
  end.
  match goal with
  | |- _ = driver_enabled (fst (drive_bus_pins ?ct ?fs ?bb ?v ?x ?ps)) =>
      destruct (drive_bus_pins_keeps_state ct fs bb v x ps) as [_ [B2 _]];
      rewrite B2
  end.
  reflexivity.
Qed.

Lemma bus_pin_write_accepted (pin : Pin) (st : PinState) (v : float) :
  min_voltage pin = (-27.0)%float -> max_voltage pin = 42.0%float ->
  (v <? -27.0)%float = false -> (42.0 <? v)%float = false ->
  snd (pin_set_value pin st v)
  = mkPin st v (is_input pin) (is_output pin) (-27.0)%float 42.0%float.
Proof.
  intros A B L H. rewrite pin_set_value_accepted.
  - cbn [snd]. rewrite A, B. reflexivity.
  - unfold pin_validate_voltage. rewrite A, B, L, H.
    destruct (negb (PinState_beq (state pin) PIN_STATE_ANALOG)
              && (v =? 0.0)%float); reflexivity.
Qed.

Lemma drive_bus_pins_driven (ct : CANTransceiver) (fs : FaultState)
    (bb : BusBiasController) (vcc_v : float) (txd_low : bool) (ps : PinArray) :
  pin_table_ok PIN_CANH (ps PIN_CANH) -> pin_table_ok PIN_CANL (ps PIN_CANL) ->
  driver_enabled ct = true ->
  fault_detector_should_disable_driver fs = false ->
  let ps' := snd (drive_bus_pins ct fs bb vcc_v txd_low ps) in
  pin_get_value (ps' PIN_CANH)
  = (PIN_STATE_ANALOG,
     if txd_low then CANH_DOMINANT_VOLTAGE else CANH_RECESSIVE_VOLTAGE)
  /\ pin_get_value (ps' PIN_CANL)
     = (PIN_STATE_ANALOG,
        if txd_low then CANL_DOMINANT_VOLTAGE else CANL_RECESSIVE_VOLTAGE).
Proof.
  intros [_ [_ [H1 H2]]] [_ [_ [L1 L2]]] D F. cbv zeta.
  cbn [pin_voltage_ranges fst snd] in H1, H2, L1, L2.
  unfold drive_bus_pins. rewrite D, F. cbn [negb andb snd fst].
  unfold can_transceiver_drive_bus. rewrite D, andb_true_r.
  unfold write_pin at 1 3. rewrite pin_store_same.
  rewrite pin_store_other by discriminate.
  unfold write_pin. rewrite pin_store_same.
  rewrite pin_store_other by discriminate.
  destruct txd_low; cbn [fst snd];
    rewrite !bus_pin_write_accepted by (first [assumption | reflexivity]);
    split; reflexivity.
Qed.

(** X14. In Normal mode the transmit input reaches the bus within the
    step: from any reachable state, if the step ends in Normal mode, no
    driver-disabling fault (TXD clamp, TXD timeout, TXD-RXD short, thermal
    shutdown) was flagged before it, and the step is not an entry into
    Normal with TXD low, then the driver is enabled, CANH and CANL hold
    3.5 V and 1.5 V when TXD is low and 2.5 V and 2.5 V otherwise, and the
    bus classifies as dominant exactly when TXD is low. *)
Theorem step_normal_mode_drives_bus (m : Memory) (sim : TCAN1463Q1Simulator)
    (d : Z) :
  api_reachable sim ->
  current_mode (mode_state (snd (tcan1463q1_simulator_step m sim d)))
  = MODE_NORMAL ->
  fault_detector_should_disable_driver (fault_state sim) = false ->
  current_mode (mode_state sim) = MODE_NORMAL
  \/ state (pins sim PIN_TXD) <> PIN_STATE_LOW ->
  let sim' := snd (tcan1463q1_simulator_step m sim d) in
  let txd_low := PinState_beq (state (pins sim PIN_TXD)) PIN_STATE_LOW in
  driver_enabled (can_transceiver sim') = true
  /\ pin_get_value (pins sim' PIN_CANH)
     = (PIN_STATE_ANALOG, if txd_low then 3.5%float else 2.5%float)
  /\ pin_get_value (pins sim' PIN_CANL)
     = (PIN_STATE_ANALOG, if txd_low then 1.5%float else 2.5%float)
  /\ bus_of sim'
     = (if txd_low then BUS_STATE_DOMINANT else BUS_STATE_RECESSIVE).
Proof.
  intros R Hn Hf Hc. cbv zeta.
  pose proof (step_can_state m sim d) as B. cbv zeta in B.
  apply proj2, proj1 in B.
  pose proof (step_mode_normal_supply m sim d) as U.
  destruct (step_bus_pins_eq m sim d PIN_CANH (or_introl eq_refl))
    as [ct1 [D1 P1]].
  destruct (step_bus_pins_eq m sim d PIN_CANL (or_intror eq_refl))
    as [ct2 [D2 P2]].
  cbv zeta in P1, P2.
  set (sim' := snd (tcan1463q1_simulator_step m sim d)) in *.
  set (txd_low := PinState_beq (state (pins sim PIN_TXD)) PIN_STATE_LOW) in *.
  assert (Hd : driver_enabled (can_transceiver sim') = true).
  { rewrite B, Hn. rewrite U by (rewrite Hn; discriminate).
    apply two_updates_active. }
  rewrite Hd in D1, D2. rewrite Hn in P1, P2.
  set (fs0 := if OperatingMode_beq MODE_NORMAL MODE_NORMAL
                 && negb (OperatingMode_beq (current_mode (mode_state sim))
                            MODE_NORMAL)
              then fault_detector_check_txdclp (fault_state sim) txd_low
                     MODE_NORMAL
              else fault_state sim) in *.
  assert (F0 : fault_detector_should_disable_driver fs0 = false).
  { unfold fs0. destruct Hc as [Hc|Hc].
    - rewrite Hc. exact Hf.
    - assert (T : txd_low = false).
      { unfold txd_low. destruct (state (pins sim PIN_TXD));
          try reflexivity. contradiction Hc. reflexivity. }
      rewrite T. unfold fault_detector_check_txdclp.
      cbn [OperatingMode_beq andb].
      destruct (negb (OperatingMode_beq (current_mode (mode_state sim))
                        MODE_NORMAL)); exact Hf. }
  pose proof (api_reachable_wellformed sim R) as W.
  destruct (drive_bus_pins_driven ct1 fs0 (bus_bias sim')
              (voltage (pins sim PIN_VCC)) txd_low (pins sim)
              (proj1 (W PIN_CANH)) (proj1 (W PIN_CANL)) D1 F0) as [Q1 _].
  destruct (drive_bus_pins_driven ct2 fs0 (bus_bias sim')
              (voltage (pins sim PIN_VCC)) txd_low (pins sim)
              (proj1 (W PIN_CANH)) (proj1 (W PIN_CANL)) D2 F0) as [_ Q2].
  cbv zeta in Q1, Q2. rewrite <- P1 in Q1. rewrite <- P2 in Q2.
  split; [exact Hd|]. split; [exact Q1|]. split; [exact Q2|].
  assert (V1 : voltage (pins sim' PIN_CANH)
               = if txd_low then CANH_DOMINANT_VOLTAGE
                 else CANH_RECESSIVE_VOLTAGE) by exact (f_equal snd Q1).
  assert (V2 : voltage (pins sim' PIN_CANL)
               = if txd_low then CANL_DOMINANT_VOLTAGE
                 else CANL_RECESSIVE_VOLTAGE) by exact (f_equal snd Q2).
  unfold bus_of. rewrite V1, V2.
  destruct txd_low; reflexivity.
Qed.

Lemma step_normal_mode_drives_bus_witness :
  bus_of (snd (tcan1463q1_simulator_step (fst txd_falls) (snd txd_falls) 10))
  = BUS_STATE_DOMINANT.
Proof.
  assert (R : api_reachable (snd txd_falls)).
  { unfold txd_falls. apply api_reachable_set_input, normal_world_reachable. }
  assert (Hn : current_mode
                 (mode_state (snd (tcan1463q1_simulator_step (fst txd_falls)
                                     (snd txd_falls) 10))) = MODE_NORMAL)
    by (vm_compute; reflexivity).
  assert (Hf : fault_detector_should_disable_driver
                 (fault_state (snd txd_falls)) = false)
    by (vm_compute; reflexivity).
  assert (Hc : current_mode (mode_state (snd txd_falls)) = MODE_NORMAL
               \/ state (pins (snd txd_falls) PIN_TXD) <> PIN_STATE_LOW)
    by (left; vm_compute; reflexivity).
  assert (T : PinState_beq (state (pins (snd txd_falls) PIN_TXD))
                PIN_STATE_LOW = true) by (vm_compute; reflexivity).
  pose proof (step_normal_mode_drives_bus (fst txd_falls) (snd txd_falls) 10
                R Hn Hf Hc) as H.
  cbv zeta in H. apply proj2, proj2, proj2 in H.
  rewrite T in H. exact H.
Defined.

(** ** Fault detector *)

Ltac split_ifs :=
  repeat match goal with
  | |- context [if ?b then _ else _] => destruct b
  end.

Lemma check_txddto_frame (st : FaultState) (txd : bool) (t : Z) :
  let st' := fault_detector_check_txddto st txd t in
  txdclp_flag st' = txdclp_flag st /\ txdrxd_flag st' = txdrxd_flag st
  /\ candom_flag st' = candom_flag st /\ tsd_flag st' = tsd_flag st
  /\ cbf_flag st' = cbf_flag st
  /\ bus_dominant_start st' = bus_dominant_start st
  /\ cbf_transition_count st' = cbf_transition_count st.
Proof.
  cbv zeta. unfold fault_detector_check_txddto, set_txd_timer.
  split_ifs; repeat split.
Qed.

Lemma check_txdrxd_frame (st : FaultState) (txd rxd : bool) (t : Z) :
  let st' := fault_detector_check_txdrxd st txd rxd t in
  txdclp_flag st' = txdclp_flag st /\ txddto_flag st' = txddto_flag st
  /\ candom_flag st' = candom_flag st /\ tsd_flag st' = tsd_flag st
  /\ cbf_flag st' = cbf_flag st
  /\ bus_dominant_start st' = bus_dominant_start st
  /\ cbf_transition_count st' = cbf_transition_count st.
Proof.
  cbv zeta. unfold fault_detector_check_txdrxd, set_txd_timer.
  split_ifs; repeat split.
Qed.

Lemma check_candom_frame (st : FaultState) (bus : BusState) (t : Z) :
  let st' := fault_detector_check_candom st bus t in
  txdclp_flag st' = txdclp_flag st /\ txddto_flag st' = txddto_flag st
  /\ txdrxd_flag st' = txdrxd_flag st /\ tsd_flag st' = tsd_flag st
  /\ cbf_flag st' = cbf_flag st
  /\ txd_dominant_start st' = txd_dominant_start st
  /\ cbf_transition_count st' = cbf_transition_count st.
Proof.
  cbv zeta. unfold fault_detector_check_candom, set_bus_timer.
  split_ifs; repeat split.
Qed.

Lemma check_cbf_frame (prev : BusState) (st : FaultState) (bus : BusState)
    (mode : OperatingMode) :
  let st' := snd (fault_detector_check_cbf prev st bus mode) in
  txdclp_flag st' = txdclp_flag st /\ txddto_flag st' = txddto_flag st
  /\ txdrxd_flag st' = txdrxd_flag st /\ candom_flag st' = candom_flag st
  /\ tsd_flag st' = tsd_flag st
  /\ txd_dominant_start st' = txd_dominant_start st
  /\ bus_dominant_start st' = bus_dominant_start st.
Proof.
  cbv zeta. unfold fault_detector_check_cbf, set_cbf.
  split_ifs; repeat split.
Qed.

Lemma check_candom_congr (a b : FaultState) (bus : BusState) (t : Z) :
  candom_flag a = candom_flag b ->
  bus_dominant_start a = bus_dominant_start b ->
  candom_flag (fault_detector_check_candom a bus t)
  = candom_flag (fault_detector_check_candom b bus t)
  /\ bus_dominant_start (fault_detector_check_candom a bus t)
     = bus_dominant_start (fault_detector_check_candom b bus t).
Proof.
  intros H1 H2. unfold fault_detector_check_candom, set_bus_timer.
  rewrite H1, H2. split_ifs; split; cbn; congruence.
Qed.

Lemma check_cbf_congr (prev : BusState) (a b : FaultState) (bus : BusState)
    (mode : OperatingMode) :
  cbf_flag a = cbf_flag b ->
  cbf_transition_count a = cbf_transition_count b ->
  fst (fault_detector_check_cbf prev a bus mode)
  = fst (fault_detector_check_cbf prev b bus mode)
  /\ cbf_flag (snd (fault_detector_check_cbf prev a bus mode))
     = cbf_flag (snd (fault_detector_check_cbf prev b bus mode))
  /\ cbf_transition_count (snd (fault_detector_check_cbf prev a bus mode))
     = cbf_transition_count (snd (fault_detector_check_cbf prev b bus mode)).
Proof.
  intros H1 H2. unfold fault_detector_check_cbf, set_cbf.
  rewrite H1, H2. split_ifs; repeat split; cbn; congruence.
Qed.

(** Each group of fields after an update, by the check that owns it. *)
Lemma fault_detector_update_eq (prev : BusState) (st : FaultState)
    (txd rxd : bool) (bus : BusState) (tj : float) (t : Z)
    (mode : OperatingMode) :
  let st2 := fault_detector_check_txdrxd
               (fault_detector_check_txddto st txd t) txd rxd t in
  let st3 := fault_detector_check_candom st bus t in
  let r := fault_detector_update prev st txd rxd bus tj t mode in
  txdclp_flag (snd r) = txdclp_flag st
  /\ txddto_flag (snd r) = txddto_flag st2
  /\ txdrxd_flag (snd r) = txdrxd_flag st2
  /\ txd_dominant_start (snd r) = txd_dominant_start st2
  /\ candom_flag (snd r) = candom_flag st3
  /\ bus_dominant_start (snd r) = bus_dominant_start st3
  /\ tsd_flag (snd r) = (TSDR_CELSIUS <=? tj)%float
  /\ fst r = fst (fault_detector_check_cbf prev st bus mode)
  /\ cbf_flag (snd r) = cbf_flag (snd (fault_detector_check_cbf prev st bus mode))
  /\ cbf_transition_count (snd r)
     = cbf_transition_count (snd (fault_detector_check_cbf prev st bus mode)).
Proof.
  cbv zeta. unfold fault_detector_update.
  set (st1 := fault_detector_check_txddto st txd t).
  set (st2 := fault_detector_check_txdrxd st1 txd rxd t).
  set (st3 := fault_detector_check_candom st2 bus t).
  set (st4 := fault_detector_check_tsd st3 tj).
  destruct (check_txddto_frame st txd t) as [A1 [A2 [A3 [A4 [A5 [A6 A7]]]]]].
  destruct (check_txdrxd_frame st1 txd rxd t)
    as [B1 [B2 [B3 [B4 [B5 [B6 B7]]]]]].
  destruct (check_candom_frame st2 bus t) as [C1 [C2 [C3 [C4 [C5 [C6 C7]]]]]].
  destruct (check_cbf_frame prev st4 bus mode)
    as [D1 [D2 [D3 [D4 [D5 [D6 D7]]]]]].
  cbv zeta in *. fold st1 in A1, A2, A3, A4, A5, A6, A7.
  fold st2 in B1, B2, B3, B4, B5, B6, B7.
  fold st3 in C1, C2, C3, C4, C5, C6, C7.
  assert (K : candom_flag st2 = candom_flag st
              /\ bus_dominant_start st2 = bus_dominant_start st)
    by (split; congruence).
  destruct (check_candom_congr st2 st bus t (proj1 K) (proj2 K)) as [E1 E2].
  fold st3 in E1, E2.
  assert (Q : cbf_flag st4 = cbf_flag st
              /\ cbf_transition_count st4 = cbf_transition_count st).
  { unfold st4, fault_detector_check_tsd. cbn [cbf_flag cbf_transition_count].
    split; congruence. }
  destruct (check_cbf_congr prev st4 st bus mode (proj1 Q) (proj2 Q))
    as [F1 [F2 F3]].
  rewrite D1, D2, D3, D4, D5, D6, D7, F1, F2, F3.
  unfold st4, fault_detector_check_tsd.
  cbn [txdclp_flag txddto_flag txdrxd_flag candom_flag tsd_flag
       txd_dominant_start bus_dominant_start].
  rewrite C1, C2, C3, C6, B1, A1, E1, E2.
  repeat split.
Qed.

Lemma geb_elapsed (limit t0 t : Z) :
  (limit <=? t - t0) = (t0 + limit <=? t).
Proof.
  destruct (Z.leb_spec limit (t - t0)), (Z.leb_spec (t0 + limit) t);
    try reflexivity; lia.
Qed.

(** *** Latching *)

Lemma fault_detector_update_latches (prev : BusState) (st : FaultState)
    (txd rxd : bool) (bus : BusState) (tj : float) (t : Z)
    (mode : OperatingMode) :
  let st' := snd (fault_detector_update prev st txd rxd bus tj t mode) in
  (txdclp_flag st = true -> txdclp_flag st' = true)
  /\ (txddto_flag st = true -> txddto_flag st' = true)
  /\ (txdrxd_flag st = true -> txdrxd_flag st' = true)
  /\ (candom_flag st = true -> candom_flag st' = true)
  /\ (cbf_flag st = true -> cbf_flag st' = true).
Proof.
  destruct (fault_detector_update_eq prev st txd rxd bus tj t mode)
    as [A [B [C [_ [D [_ [_ [_ [E _]]]]]]]]].
  cbv zeta in *. rewrite A, B, C, D, E.
  split; [auto|]. split; [|split; [|split]]; intro H.
  - unfold fault_detector_check_txdrxd, fault_detector_check_txddto,
      set_txd_timer.
    destruct txd; split_ifs; cbn; try exact H; reflexivity.
  - unfold fault_detector_check_txdrxd, fault_detector_check_txddto,
      set_txd_timer.
    destruct txd; split_ifs; cbn; try exact H; reflexivity.
  - unfold fault_detector_check_candom, set_bus_timer.
    split_ifs; cbn; try exact H; reflexivity.
  - unfold fault_detector_check_cbf, set_cbf.
    split_ifs; cbn; try exact H; reflexivity.
Qed.

Lemma step_fault_state_eq (m : Memory) (sim : TCAN1463Q1Simulator) (d : Z) :
  let sim' := snd (tcan1463q1_simulator_step m sim d) in
  let txd_low := PinState_beq (state (pins sim PIN_TXD)) PIN_STATE_LOW in
  let entering :=
    OperatingMode_beq (current_mode (mode_state sim')) MODE_NORMAL
    && negb (OperatingMode_beq (current_mode (mode_state sim)) MODE_NORMAL) in
  let fs0 := if entering
             then fault_detector_check_txdclp (fault_state sim) txd_low
                    (current_mode (mode_state sim'))
             else fault_state sim in
  exists rxd_low bus,
    fault_state sim'
    = snd (fault_detector_update (prev_bus_state m) fs0 txd_low rxd_low bus
             (tj_temperature sim)
             (add64 (timing_engine_get_time (timing sim)) d)
             (current_mode (mode_state sim'))).
Proof.
  cbv zeta. rewrite step_sim_eq. unfold step_core.
  cbn [snd fault_state mode_state].
  eexists. eexists. reflexivity.
Qed.

(** X15. Fault flags latch: a step never clears the TXD clamp, TXD
    timeout, TXD-RXD short, bus dominant or bus fault flag, whatever the
    inputs are; only the thermal flag follows its cause, being after every
    step exactly "junction temperature at or above 165 degrees". *)
Theorem step_fault_flags_latch (m : Memory) (sim : TCAN1463Q1Simulator)
    (d : Z) :
  let fs := fault_state sim in
  let fs' := fault_state (snd (tcan1463q1_simulator_step m sim d)) in
  (txdclp_flag fs = true -> txdclp_flag fs' = true)
  /\ (txddto_flag fs = true -> txddto_flag fs' = true)
  /\ (txdrxd_flag fs = true -> txdrxd_flag fs' = true)
  /\ (candom_flag fs = true -> candom_flag fs' = true)
  /\ (cbf_flag fs = true -> cbf_flag fs' = true)
  /\ tsd_flag fs' = (TSDR_CELSIUS <=? tj_temperature sim)%float.
Proof.
  cbv zeta. destruct (step_fault_state_eq m sim d) as [rxd [bus E]].
  cbv zeta in E. rewrite E. clear E.
  set (sim' := snd (tcan1463q1_simulator_step m sim d)).
  match goal with
  | |- context [fault_detector_update _ ?f _ _ _ _ _ _] => set (fs0 := f)
  end.
  assert (K : (txdclp_flag (fault_state sim) = true -> txdclp_flag fs0 = true)
              /\ txddto_flag fs0 = txddto_flag (fault_state sim)
              /\ txdrxd_flag fs0 = txdrxd_flag (fault_state sim)
              /\ candom_flag fs0 = candom_flag (fault_state sim)
              /\ cbf_flag fs0 = cbf_flag (fault_state sim)).
  { unfold fs0, fault_detector_check_txdclp. split_ifs; cbn; repeat split;
      auto. }
  destruct K as [K1 [K2 [K3 [K4 K5]]]].
  match goal with
  | |- context [fault_detector_update ?p fs0 ?a ?b ?c ?e ?f ?g] =>
      destruct (fault_detector_update_latches p fs0 a b c e f g)
        as [L1 [L2 [L3 [L4 L5]]]];
      destruct (fault_detector_update_eq p fs0 a b c e f g)
        as [_ [_ [_ [_ [_ [_ [T _]]]]]]]
  end.
  cbv zeta in *. rewrite K2 in L2. rewrite K3 in L3. rewrite K4 in L4.
  rewrite K5 in L5.
  repeat split; auto.
Qed.

Lemma step_fault_flags_latch_witness :
  txdclp_flag
    (fault_state
       (snd (tcan1463q1_simulator_step (fst (step clamped_entry 1000))
               (snd (step clamped_entry 1000)) 1000))) = true.
Proof.
  assert (H : txdclp_flag (fault_state (snd (step clamped_entry 1000)))
              = true) by (vm_compute; reflexivity).
  exact (proj1 (step_fault_flags_latch (fst (step clamped_entry 1000))
                  (snd (step clamped_entry 1000)) 1000) H).
Defined.

(** *** The timers *)

Lemma check_candom_running (st : FaultState) (t0 t : Z) :
  bus_dominant_start st = t0 -> t0 <> UINT64_MAX -> 0 <= t0 <= t ->
  t < 2 ^ 64 ->
  candom_flag (fault_detector_check_candom st BUS_STATE_DOMINANT t)
  = (candom_flag st || (t0 + TBUSDOM_MIN_NS <=? t))
  /\ bus_dominant_start (fault_detector_check_candom st BUS_STATE_DOMINANT t)
     = t0.
Proof.
  intros S N H1 H2. unfold fault_detector_check_candom, set_bus_timer.
  cbn [BusState_beq]. rewrite S.
  assert (E : (t0 =? UINT64_MAX) = false) by (apply Z.eqb_neq; exact N).
  rewrite E, sub64_small by lia. rewrite Z.geb_leb, geb_elapsed.
  destruct (t0 + TBUSDOM_MIN_NS <=? t); cbn.
  - rewrite orb_true_r. auto.
  - rewrite orb_false_r. auto.
Qed.

Lemma candom_run (calls : list FaultInputs) (t0 : Z) :
  forall prev st,
  bus_dominant_start st = t0 -> t0 <> UINT64_MAX -> 0 <= t0 ->
  Forall (fun c => t0 <= fi_time c < 2 ^ 64) calls ->
  Forall (fun c => fi_bus c = BUS_STATE_DOMINANT) calls ->
  candom_flag (snd (fault_detector_updates prev st calls))
  = (candom_flag st || timeout_reached t0 TBUSDOM_MIN_NS calls).
Proof.
  induction calls as [|c rest IH]; intros prev st S N P T L.
  - simpl. rewrite orb_false_r. reflexivity.
  - inversion T as [|? ? Tc Tr]; subst. inversion L as [|? ? Lc Lr]; subst.
    cbn [fault_detector_updates].
    destruct (fault_detector_update_eq prev st (fi_txd_low c) (fi_rxd_low c)
                (fi_bus c) (fi_tj c) (fi_time c) (fi_mode c))
      as [_ [_ [_ [_ [A [B _]]]]]].
    cbv zeta in A, B. rewrite Lc in A, B |- *.
    destruct (check_candom_running st (bus_dominant_start st) (fi_time c)
                eq_refl N ltac:(lia) ltac:(lia)) as [F G].
    rewrite F in A. rewrite G in B.
    rewrite (IH _ _ B N P Tr Lr), A.
    unfold timeout_reached. cbn [existsb]. rewrite orb_assoc. reflexivity.
Qed.

(** X16. The bus dominant fault is a 1.4 ms timeout counted from the first
    update that sees the bus dominant: starting with the flag clear and the
    timer idle, over any sequence of updates that all see a dominant bus,
    the flag ends set exactly when some update after the first comes
    1.4 ms or more after the first. *)
Theorem candom_timeout_run (prev : BusState) (st : FaultState)
    (c0 : FaultInputs) (rest : list FaultInputs) :
  candom_flag st = false -> bus_dominant_start st = UINT64_MAX ->
  0 <= fi_time c0 < UINT64_MAX ->
  Forall (fun c => fi_time c0 <= fi_time c < 2 ^ 64) rest ->
  Forall (fun c => fi_bus c = BUS_STATE_DOMINANT) (c0 :: rest) ->
  candom_flag (snd (fault_detector_updates prev st (c0 :: rest)))
  = timeout_reached (fi_time c0) TBUSDOM_MIN_NS rest.
Proof.
  intros F S H0 T L. inversion L as [|? ? Lc Lr]; subst.
  assert (N : fi_time c0 <> UINT64_MAX) by lia.
  cbn [fault_detector_updates].
  destruct (fault_detector_update_eq prev st (fi_txd_low c0) (fi_rxd_low c0)
              (fi_bus c0) (fi_tj c0) (fi_time c0) (fi_mode c0))
    as [_ [_ [_ [_ [A [B _]]]]]].
  cbv zeta in A, B. rewrite Lc in A, B |- *.
  unfold fault_detector_check_candom, set_bus_timer in A, B.
  cbn [BusState_beq] in A, B. rewrite S, Z.eqb_refl in A, B.
  cbn [candom_flag bus_dominant_start] in A, B.
  rewrite (candom_run rest (fi_time c0) _ _ B N ltac:(lia) T Lr), A, F.
  reflexivity.
Qed.

Lemma candom_timeout_run_witness :
  candom_flag
    (snd (fault_detector_updates BUS_STATE_RECESSIVE fault_detector_init
            [mkFaultInputs false false BUS_STATE_DOMINANT 25.0 1000 MODE_NORMAL;
             mkFaultInputs false false BUS_STATE_DOMINANT 25.0 1401000
                           MODE_NORMAL]%float))
  = true.
Proof.
  apply (candom_timeout_run BUS_STATE_RECESSIVE fault_detector_init
           (mkFaultInputs false false BUS_STATE_DOMINANT 25.0 1000 MODE_NORMAL)
           [mkFaultInputs false false BUS_STATE_DOMINANT 25.0 1401000
                          MODE_NORMAL]%float).
  - reflexivity.
  - reflexivity.
  - vm_compute. split; [discriminate | reflexivity].
  - repeat constructor; simpl; lia.
  - repeat constructor.
Defined.

Lemma check_txd_both_low_running (st : FaultState) (t0 t : Z) :
  txd_dominant_start st = t0 -> t0 <> UINT64_MAX -> 0 <= t0 <= t ->
  t < 2 ^ 64 ->
  let st2 := fault_detector_check_txdrxd
               (fault_detector_check_txddto st true t) true true t in
  txddto_flag st2 = (txddto_flag st || (t0 + TTXDDTO_MIN_NS <=? t))
  /\ txdrxd_flag st2 = (txdrxd_flag st || (t0 + TTXDDTO_MIN_NS <=? t))
  /\ txd_dominant_start st2 = t0.
Proof.
  intros S N H1 H2. cbv zeta.
  unfold fault_detector_check_txdrxd, fault_detector_check_txddto,
    set_txd_timer.
  cbn [Bool.eqb]. rewrite S.
  assert (E : (t0 =? UINT64_MAX) = false) by (apply Z.eqb_neq; exact N).
  rewrite E, sub64_small by lia. rewrite Z.geb_leb, geb_elapsed.
  destruct (t0 + TTXDDTO_MIN_NS <=? t) eqn:G;
    cbn [txd_dominant_start txddto_flag txdrxd_flag];
    rewrite ?S, ?E, ?sub64_small by lia;
    rewrite ?Z.geb_leb, ?geb_elapsed, ?G;
    cbn [txd_dominant_start txddto_flag txdrxd_flag];
    rewrite ?orb_true_r, ?orb_false_r; auto.
Qed.

Lemma txd_both_low_run (calls : list FaultInputs) (t0 : Z) :
  forall prev st,
  txd_dominant_start st = t0 -> t0 <> UINT64_MAX -> 0 <= t0 ->
  Forall (fun c => t0 <= fi_time c < 2 ^ 64) calls ->
  Forall (fun c => fi_txd_low c = true /\ fi_rxd_low c = true) calls ->
  txddto_flag (snd (fault_detector_updates prev st calls))
  = (txddto_flag st || timeout_reached t0 TTXDDTO_MIN_NS calls)
  /\ txdrxd_flag (snd (fault_detector_updates prev st calls))
     = (txdrxd_flag st || timeout_reached t0 TTXDDTO_MIN_NS calls).
Proof.
  induction calls as [|c rest IH]; intros prev st S N P T L.
  - simpl. rewrite !orb_false_r. auto.
  - inversion T as [|? ? Tc Tr]; subst.
    inversion L as [|? ? [Lc1 Lc2] Lr]; subst.
    cbn [fault_detector_updates].
    destruct (fault_detector_update_eq prev st (fi_txd_low c) (fi_rxd_low c)
                (fi_bus c) (fi_tj c) (fi_time c) (fi_mode c))
      as [_ [A [B [C _]]]].
    cbv zeta in A, B, C. rewrite Lc1, Lc2 in A, B, C |- *.
    destruct (check_txd_both_low_running st (txd_dominant_start st)
                (fi_time c) eq_refl N ltac:(lia) ltac:(lia)) as [F [G K]].
    cbv zeta in F, G, K. rewrite F in A. rewrite G in B. rewrite K in C.
    match goal with
    | |- context [fault_detector_updates ?p ?s rest] =>
        destruct (IH p s C N P Tr Lr) as [I1 I2]
    end.
    rewrite I1, I2, A, B.
    unfold timeout_reached. cbn [existsb]. rewrite !orb_assoc. auto.
Qed.

(** X17. With TXD and RXD both low the TXD dominant timeout and the
    TXD-RXD short are one timer and fire together: starting with both
    flags clear and the timer idle, over any sequence of updates that all
    see TXD low and RXD low, both flags end set exactly when some update
    after the first comes 1.2 ms or more after the first. *)
Theorem txd_timeout_and_short_fire_together (prev : BusState)
    (st : FaultState) (c0 : FaultInputs) (rest : list FaultInputs) :
  txddto_flag st = false -> txdrxd_flag st = false ->
  txd_dominant_start st = UINT64_MAX ->
  0 <= fi_time c0 < UINT64_MAX ->
  Forall (fun c => fi_time c0 <= fi_time c < 2 ^ 64) rest ->
  Forall (fun c => fi_txd_low c = true /\ fi_rxd_low c = true) (c0 :: rest) ->
  txddto_flag (snd (fault_detector_updates prev st (c0 :: rest)))
  = timeout_reached (fi_time c0) TTXDDTO_MIN_NS rest
  /\ txdrxd_flag (snd (fault_detector_updates prev st (c0 :: rest)))
     = timeout_reached (fi_time c0) TTXDDTO_MIN_NS rest.
Proof.
  intros F1 F2 S H0 T L. inversion L as [|? ? [Lc1 Lc2] Lr]; subst.
  assert (N : fi_time c0 <> UINT64_MAX) by lia.
  cbn [fault_detector_updates].
  destruct (fault_detector_update_eq prev st (fi_txd_low c0) (fi_rxd_low c0)
              (fi_bus c0) (fi_tj c0) (fi_time c0) (fi_mode c0))
    as [_ [A [B [C _]]]].
  cbv zeta in A, B, C. rewrite Lc1, Lc2 in A, B, C |- *.
  assert (E : (fi_time c0 =? UINT64_MAX) = false)
    by (apply Z.eqb_neq; exact N).
  unfold fault_detector_check_txdrxd, fault_detector_check_txddto,
    set_txd_timer in A, B, C.
  cbn [Bool.eqb] in A, B, C. rewrite S, Z.eqb_refl in A, B, C.
  cbn [txd_dominant_start] in A, B, C. rewrite E in A, B, C.
  unfold sub64 in A, B, C. rewrite Z.sub_diag in A, B, C.
  change (0 mod 2 ^ 64 >=? TTXDDTO_MIN_NS) with false in A, B, C.
  cbn [txd_dominant_start txddto_flag txdrxd_flag] in A, B, C.
  match goal with
  | |- context [fault_detector_updates ?p ?s rest] =>
      destruct (txd_both_low_run rest (fi_time c0) p s C N ltac:(lia) T Lr)
        as [I1 I2]
  end.
  rewrite I1, I2, A, B, F1, F2. split; reflexivity.
Qed.

Lemma txd_timeout_and_short_fire_together_witness :
  txdrxd_flag
    (snd (fault_detector_updates BUS_STATE_RECESSIVE fault_detector_init
            [mkFaultInputs true true BUS_STATE_DOMINANT 25.0 1000 MODE_NORMAL;
             mkFaultInputs true true BUS_STATE_DOMINANT 25.0 1201000
                           MODE_NORMAL]%float))
  = true.
Proof.
  apply (proj2 (txd_timeout_and_short_fire_together BUS_STATE_RECESSIVE
           fault_detector_init
           (mkFaultInputs true true BUS_STATE_DOMINANT 25.0 1000 MODE_NORMAL)
           [mkFaultInputs true true BUS_STATE_DOMINANT 25.0 1201000
                          MODE_NORMAL]%float
           eq_refl eq_refl eq_refl
           ltac:(vm_compute; split; [discriminate | reflexivity])
           ltac:(repeat constructor; simpl; lia)
           ltac:(repeat constructor))).
Defined.

(** X18. While TXD and RXD are at opposite levels the shared timer is
    stopped by every update, so neither the TXD dominant timeout nor the
    TXD-RXD short is ever flagged: starting with the timer idle, over any
    sequence of updates in which RXD is the inverse of TXD (TXD held low
    with RXD high included), both flags stay as they were and the timer
    stays idle, however much time passes. *)
Theorem txd_faults_never_fire_on_opposite_levels (calls : list FaultInputs) :
  forall (prev : BusState) (st : FaultState),
  txd_dominant_start st = UINT64_MAX ->
  Forall (fun c => fi_rxd_low c = negb (fi_txd_low c)) calls ->
  let st' := snd (fault_detector_updates prev st calls) in
  txddto_flag st' = txddto_flag st
  /\ txdrxd_flag st' = txdrxd_flag st
  /\ txd_dominant_start st' = UINT64_MAX.
Proof.
  induction calls as [|c rest IH]; intros prev st S L; cbv zeta.
  - simpl. auto.
  - inversion L as [|? ? Lc Lr]; subst.
    cbn [fault_detector_updates].
    destruct (fault_detector_update_eq prev st (fi_txd_low c) (fi_rxd_low c)
                (fi_bus c) (fi_tj c) (fi_time c) (fi_mode c))
      as [_ [A [B [C _]]]].
    cbv zeta in A, B, C.
    assert (K : txddto_flag
                  (fault_detector_check_txdrxd
                     (fault_detector_check_txddto st (fi_txd_low c) (fi_time c))
                     (fi_txd_low c) (fi_rxd_low c) (fi_time c))
                = txddto_flag st
                /\ txdrxd_flag
                     (fault_detector_check_txdrxd
                        (fault_detector_check_txddto st (fi_txd_low c)
                           (fi_time c))
                        (fi_txd_low c) (fi_rxd_low c) (fi_time c))
                   = txdrxd_flag st
                /\ txd_dominant_start
                     (fault_detector_check_txdrxd
                        (fault_detector_check_txddto st (fi_txd_low c)
                           (fi_time c))
                        (fi_txd_low c) (fi_rxd_low c) (fi_time c))
                   = UINT64_MAX).
    { rewrite Lc.
      unfold fault_detector_check_txdrxd, fault_detector_check_txddto,
        set_txd_timer.
      rewrite S, Z.eqb_refl. destruct (fi_txd_low c); cbn; auto. }
    destruct K as [K1 [K2 K3]].
    rewrite K1 in A. rewrite K2 in B. rewrite K3 in C.
    match goal with
    | |- context [fault_detector_updates ?p ?s rest] =>
        destruct (IH p s C Lr) as [I1 [I2 I3]]
    end.
    cbv zeta in I1, I2, I3. rewrite I1, I2, I3, A, B. auto.
Qed.

Lemma txd_faults_never_fire_on_opposite_levels_witness :
  txddto_flag
    (snd (fault_detector_updates BUS_STATE_RECESSIVE fault_detector_init
            [mkFaultInputs true false BUS_STATE_RECESSIVE 25.0 1000 MODE_SILENT;
             mkFaultInputs true false BUS_STATE_RECESSIVE 25.0 5000000000
                           MODE_SILENT]%float))
  = false.
Proof.
  apply (proj1 (txd_faults_never_fire_on_opposite_levels
           [mkFaultInputs true false BUS_STATE_RECESSIVE 25.0 1000 MODE_SILENT;
            mkFaultInputs true false BUS_STATE_RECESSIVE 25.0 5000000000
                          MODE_SILENT]%float
           BUS_STATE_RECESSIVE fault_detector_init eq_refl
           ltac:(repeat constructor))).
Defined.

(** *** The bus fault counter *)






(** *** Entering Normal with TXD low *)

(** X20. A step that enters Normal mode while TXD is low latches the TXD
    clamp flag in that same step: from any reachable state, after the step
    the flag is set, the driver-disabling condition holds, and NFAULT is
    low. *)
Theorem step_entering_normal_with_txd_low_clamps (m : Memory)
    (sim : TCAN1463Q1Simulator) (d : Z) :
  api_reachable sim ->
  current_mode (mode_state sim) <> MODE_NORMAL ->
  current_mode (mode_state (snd (tcan1463q1_simulator_step m sim d)))
  = MODE_NORMAL ->
  state (pins sim PIN_TXD) = PIN_STATE_LOW ->
  let sim' := snd (tcan1463q1_simulator_step m sim d) in
  txdclp_flag (fault_state sim') = true
  /\ fault_detector_should_disable_driver (fault_state sim') = true
  /\ state (pins sim' PIN_NFAULT) = PIN_STATE_LOW.
Proof.
  intros R Ho Hn Ht. cbv zeta.
  assert (C : txdclp_flag
                (fault_state (snd (tcan1463q1_simulator_step m sim d)))
              = true).
  { destruct (step_fault_state_eq m sim d) as [rxd [bus E]].
    cbv zeta in E. rewrite E. clear E.
    match goal with
    | |- context [fault_detector_update ?p ?f ?a ?b ?c ?e ?g ?h] =>
        destruct (fault_detector_update_eq p f a b c e g h) as [T _]
    end.
    cbv zeta in T. rewrite T. rewrite Hn, Ht.
    assert (N : OperatingMode_beq (current_mode (mode_state sim)) MODE_NORMAL
                = false).
    { destruct (OperatingMode_beq (current_mode (mode_state sim)) MODE_NORMAL)
        eqn:B; [|reflexivity].
      apply OperatingMode_beq_eq in B. contradiction. }
    rewrite N. reflexivity. }
  split; [exact C|]. split.
  - unfold fault_detector_should_disable_driver. rewrite C. reflexivity.
  - destruct (api_reachable_nfault_writable sim R) as [A [B [V1 V2]]].
    apply (step_nfault_state m sim d A B V1 V2). left.
    unfold fault_detector_has_any_fault. rewrite C. reflexivity.
Qed.

Lemma step_entering_normal_with_txd_low_clamps_witness :
  txdclp_flag (fault_state (snd (tcan1463q1_simulator_step (fst clamped_entry)
                                   (snd clamped_entry) 1000))) = true.
Proof.
  assert (R : api_reachable (snd clamped_entry)).
  { unfold clamped_entry. repeat apply api_reachable_set_input.
    unfold created, tcan1463q1_simulator_create. cbn [fst snd].
    apply reach_reset. }
  assert (Ho : current_mode (mode_state (snd clamped_entry)) <> MODE_NORMAL)
    by (vm_compute; discriminate).
  assert (Hn : current_mode
                 (mode_state (snd (tcan1463q1_simulator_step
                                     (fst clamped_entry) (snd clamped_entry)
                                     1000))) = MODE_NORMAL)
    by (vm_compute; reflexivity).
  assert (Ht : state (pins (snd clamped_entry) PIN_TXD) = PIN_STATE_LOW)
    by (vm_compute; reflexivity).
  exact (proj1 (step_entering_normal_with_txd_low_clamps (fst clamped_entry)
                  (snd clamped_entry) 1000 R Ho Hn Ht)).
Defined.

(** ** Wake handler *)

Lemma elapsed_geb (a b lim : Z) :
  0 <= b <= a -> a < 2 ^ 64 -> (sub64 a b >=? lim) = (b + lim <=? a).
Proof.
  intros H1 H2. rewrite sub64_small by lia. rewrite Z.geb_leb.
  apply geb_elapsed.
Qed.

Lemma process_wup_keeps_prev (st : WakeState) (bus : BusState) (t : Z) :
  wake_pin_prev_state (wake_handler_process_wup st bus t)
  = wake_pin_prev_state st.
Proof.
  unfold wake_handler_process_wup, wup_reset, wup_goto.
  destruct (negb (wup_timeout_start st =? UINT64_MAX)
            && negb (WUPState_beq (wup_state st) WUP_STATE_IDLE)
            && negb (WUPState_beq (wup_state st) WUP_STATE_COMPLETE)
            && (sub64 t (wup_timeout_start st) >=? TWK_TIMEOUT_NS));
    [reflexivity|].
  destruct (wup_state st), bus;
    try destruct (sub64 t (wup_phase_start st) >=? TWK_FILTER_NS);
    reflexivity.
Qed.

(** The update in a mode that listens for the pattern, with no edge on
    the WAKE pin when in Sleep. *)
Lemma wake_handler_update_listening (st : WakeState) (bus : BusState)
    (w : bool) (mode : OperatingMode) (t : Z) :
  mode = MODE_STANDBY \/ (mode = MODE_SLEEP /\ w = wake_pin_prev_state st) ->
  let s := wake_handler_process_wup st bus t in
  wake_handler_update st bus w mode t
  = mkWakeState (wakerq_flag s) (wakesr_flag s) (wake_source_local s)
                (wup_state s) (wup_phase_start s) (wup_timeout_start s) w.
Proof.
  intros [M|[M W]]; subst mode; cbv zeta; unfold wake_handler_update;
    cbn [OperatingMode_beq orb]; [reflexivity|].
  unfold wake_handler_process_lwu. rewrite process_wup_keeps_prev, <- W.
  rewrite Bool.eqb_reflx. reflexivity.
Qed.

Lemma wup_step_idle (rq sr loc prev : bool) (ps ts t0 : Z) :
  wake_handler_process_wup (mkWakeState rq sr loc WUP_STATE_IDLE ps ts prev)
    BUS_STATE_DOMINANT t0
  = mkWakeState rq sr loc WUP_STATE_FIRST_DOMINANT t0 t0 prev.
Proof.
  unfold wake_handler_process_wup, wup_goto.
  cbn [wup_state wup_timeout_start WUPState_beq negb andb].
  rewrite andb_false_r. reflexivity.
Qed.

Ltac wup_running :=
  unfold wake_handler_process_wup, wup_goto;
  cbn [wup_state wup_timeout_start wup_phase_start WUPState_beq negb andb
       wakerq_flag wakesr_flag wake_source_local wake_pin_prev_state];
  match goal with N : (_ =? UINT64_MAX) = false |- _ => rewrite N end;
  rewrite !elapsed_geb by lia;
  rewrite (proj2 (Z.leb_gt (_ + TWK_TIMEOUT_NS) _)) by lia;
  rewrite (proj2 (Z.leb_le (_ + TWK_FILTER_NS) _)) by lia.

Lemma wup_step_first (rq sr loc prev : bool) (t0 t1 : Z) :
  0 <= t0 -> t0 + TWK_FILTER_NS <= t1 -> t1 < t0 + TWK_TIMEOUT_NS ->
  t1 < 2 ^ 64 ->
  wake_handler_process_wup
    (mkWakeState rq sr loc WUP_STATE_FIRST_DOMINANT t0 t0 prev)
    BUS_STATE_DOMINANT t1
  = mkWakeState rq sr loc WUP_STATE_RECESSIVE t1 t0 prev.
Proof.
  intros H0 H1 H2 H3.
  assert (F : 0 < TWK_FILTER_NS) by reflexivity.
  assert (N : (t0 =? UINT64_MAX) = false)
    by (apply Z.eqb_neq; unfold UINT64_MAX; lia).
  wup_running. reflexivity.
Qed.

Lemma wup_step_recessive (rq sr loc prev : bool) (b : BusState)
    (t0 t1 t2 : Z) :
  b <> BUS_STATE_INDETERMINATE ->
  0 <= t0 <= t1 -> t1 + TWK_FILTER_NS <= t2 -> t2 < t0 + TWK_TIMEOUT_NS ->
  t2 < 2 ^ 64 ->
  wake_handler_process_wup
    (mkWakeState rq sr loc WUP_STATE_RECESSIVE t1 t0 prev) b t2
  = mkWakeState rq sr loc WUP_STATE_SECOND_DOMINANT t2 t0 prev.
Proof.
  intros Hb H0 H1 H2 H3.
  assert (F : 0 < TWK_FILTER_NS) by reflexivity.
  assert (N : (t0 =? UINT64_MAX) = false)
    by (apply Z.eqb_neq; unfold UINT64_MAX; lia).
  wup_running.
  destruct b; [reflexivity|reflexivity|contradiction Hb; reflexivity].
Qed.

Lemma wup_step_second (rq sr loc prev : bool) (t0 t2 t3 : Z) :
  0 <= t0 <= t2 -> t2 + TWK_FILTER_NS <= t3 -> t3 < t0 + TWK_TIMEOUT_NS ->
  t3 < 2 ^ 64 ->
  wake_handler_process_wup
    (mkWakeState rq sr loc WUP_STATE_SECOND_DOMINANT t2 t0 prev)
    BUS_STATE_DOMINANT t3
  = mkWakeState true true false WUP_STATE_COMPLETE UINT64_MAX UINT64_MAX prev.
Proof.
  intros H0 H1 H2 H3.
  assert (F : 0 < TWK_FILTER_NS) by reflexivity.
  assert (N : (t0 =? UINT64_MAX) = false)
    by (apply Z.eqb_neq; unfold UINT64_MAX; lia).
  wup_running. reflexivity.
Qed.

(** X21. The wake-up pattern is three filtered phases inside one timeout
    window, and the middle phase need not be recessive: in Standby, or in
    Sleep with the WAKE pin steady, starting from an idle pattern machine,
    four updates that see the bus dominant, dominant, recessive or
    dominant, and dominant, each at least 0.5 us after the one before and
    the last less than 2 ms after the first, end with the wake request and
    wake source flags set, the source marked remote, and the machine
    complete. *)
Theorem wake_up_pattern_recognized (st : WakeState) (mode : OperatingMode)
    (w : bool) (b : BusState) (t0 t1 t2 t3 : Z) :
  wup_state st = WUP_STATE_IDLE ->
  mode = MODE_STANDBY \/ (mode = MODE_SLEEP /\ w = wake_pin_prev_state st) ->
  b <> BUS_STATE_INDETERMINATE ->
  0 <= t0 -> t0 + TWK_FILTER_NS <= t1 -> t1 + TWK_FILTER_NS <= t2 ->
  t2 + TWK_FILTER_NS <= t3 -> t3 < t0 + TWK_TIMEOUT_NS -> t3 < 2 ^ 64 ->
  let st' := wake_handler_updates st
               [mkWakeInputs BUS_STATE_DOMINANT w mode t0;
                mkWakeInputs BUS_STATE_DOMINANT w mode t1;
                mkWakeInputs b w mode t2;
                mkWakeInputs BUS_STATE_DOMINANT w mode t3] in
  wakerq_flag st' = true /\ wakesr_flag st' = true
  /\ wake_source_local st' = false /\ wup_state st' = WUP_STATE_COMPLETE.
Proof.
  intros Hi Hm Hb H0 H1 H2 H3 H4 H5. cbv zeta.
  destruct st as [rq sr loc ws ps ts prev]. cbn [wup_state] in Hi. subst ws.
  cbn [wake_pin_prev_state] in Hm.
  assert (Hm' : mode = MODE_STANDBY
                \/ (mode = MODE_SLEEP /\ w = w)) by (destruct Hm as [M|[M _]]; auto).
  assert (F : 0 < TWK_FILTER_NS) by reflexivity.
  cbn [wake_handler_updates wi_bus wi_wake_pin_high wi_mode wi_time].
  rewrite (wake_handler_update_listening
             (mkWakeState rq sr loc WUP_STATE_IDLE ps ts prev)
             BUS_STATE_DOMINANT w mode t0 Hm).
  cbv zeta. rewrite wup_step_idle.
  cbn [wakerq_flag wakesr_flag wake_source_local wup_state wup_phase_start
       wup_timeout_start].
  rewrite (wake_handler_update_listening
             (mkWakeState rq sr loc WUP_STATE_FIRST_DOMINANT t0 t0 w)
             BUS_STATE_DOMINANT w mode t1 Hm').
  cbv zeta. rewrite wup_step_first by lia.
  cbn [wakerq_flag wakesr_flag wake_source_local wup_state wup_phase_start
       wup_timeout_start].
  rewrite (wake_handler_update_listening
             (mkWakeState rq sr loc WUP_STATE_RECESSIVE t1 t0 w)
             b w mode t2 Hm').
  cbv zeta. rewrite wup_step_recessive by (first [assumption | lia]).
  cbn [wakerq_flag wakesr_flag wake_source_local wup_state wup_phase_start
       wup_timeout_start].
  rewrite (wake_handler_update_listening
             (mkWakeState rq sr loc WUP_STATE_SECOND_DOMINANT t2 t0 w)
             BUS_STATE_DOMINANT w mode t3 Hm').
  cbv zeta. rewrite wup_step_second by lia.
  cbn. auto.
Qed.

Lemma wake_up_pattern_recognized_witness :
  wakerq_flag
    (wake_handler_updates wake_handler_init
       [mkWakeInputs BUS_STATE_DOMINANT false MODE_SLEEP 1000;
        mkWakeInputs BUS_STATE_DOMINANT false MODE_SLEEP 2000;
        mkWakeInputs BUS_STATE_DOMINANT false MODE_SLEEP 3000;
        mkWakeInputs BUS_STATE_DOMINANT false MODE_SLEEP 4000])
  = true.
Proof.
  apply (proj1 (wake_up_pattern_recognized wake_handler_init MODE_SLEEP false
                  BUS_STATE_DOMINANT 1000 2000 3000 4000
                  eq_refl (or_intror (conj eq_refl eq_refl))
                  ltac:(discriminate) ltac:(lia)
                  ltac:(vm_compute; discriminate)
                  ltac:(vm_compute; discriminate)
                  ltac:(vm_compute; discriminate)
                  ltac:(vm_compute; reflexivity)
                  ltac:(lia))).
Defined.

Lemma wake_handler_update_wakerq (st : WakeState) (bus : BusState)
    (w : bool) (mode : OperatingMode) (t : Z) :
  wakerq_flag st = true ->
  wakerq_flag (wake_handler_update st bus w mode t) = true.
Proof.
  intro H. unfold wake_handler_update. cbn [wakerq_flag].
  destruct (OperatingMode_beq mode MODE_STANDBY
            || OperatingMode_beq mode MODE_SLEEP).
  - assert (P : wakerq_flag (wake_handler_process_wup st bus t) = true).
    { unfold wake_handler_process_wup.
      destruct (negb (wup_timeout_start st =? UINT64_MAX)
                && negb (WUPState_beq (wup_state st) WUP_STATE_IDLE)
                && negb (WUPState_beq (wup_state st) WUP_STATE_COMPLETE)
                && (sub64 t (wup_timeout_start st) >=? TWK_TIMEOUT_NS));
        [exact H|].
      destruct (wup_state st), bus;
        try destruct (sub64 t (wup_phase_start st) >=? TWK_FILTER_NS);
        first [exact H | reflexivity]. }
    destruct (OperatingMode_beq mode MODE_SLEEP); [|exact P].
    unfold wake_handler_process_lwu.
    destruct (negb (Bool.eqb w (wake_pin_prev_state
                                  (wake_handler_process_wup st bus t))));
      [reflexivity | exact P].
  - destruct (negb (WUPState_beq (wup_state st) WUP_STATE_IDLE)); exact H.
Qed.

(** X22. The wake handler only sets flags, and only in Standby and Sleep:
    in every other mode an update leaves the wake request, wake source and
    local-source flags as they were and the pattern machine idle; in every
    mode a set wake request or wake source flag stays set, and the WAKE
    level is recorded for the next edge detection. *)
Theorem wake_flags_change_only_when_listening (st : WakeState)
    (bus : BusState) (w : bool) (mode : OperatingMode) (t : Z) :
  let st' := wake_handler_update st bus w mode t in
  (mode <> MODE_STANDBY -> mode <> MODE_SLEEP ->
   wakerq_flag st' = wakerq_flag st /\ wakesr_flag st' = wakesr_flag st
   /\ wake_source_local st' = wake_source_local st
   /\ wup_state st' = WUP_STATE_IDLE)
  /\ (wakerq_flag st = true -> wakerq_flag st' = true)
  /\ (wakesr_flag st = true -> wakesr_flag st' = true)
  /\ wake_pin_prev_state st' = w.
Proof.
  cbv zeta. split; [|split; [|split]].
  - intros M1 M2. unfold wake_handler_update.
    assert (E : OperatingMode_beq mode MODE_STANDBY
                || OperatingMode_beq mode MODE_SLEEP = false)
      by (destruct mode; try reflexivity; contradiction).
    rewrite E.
    destruct (wup_state st) eqn:S; cbn; rewrite ?S; auto.
  - apply wake_handler_update_wakerq.
  - apply wake_handler_update_wakesr.
  - reflexivity.
Qed.

Lemma wake_flags_change_only_when_listening_witness :
  wakerq_flag (wake_handler_update wake_handler_init BUS_STATE_DOMINANT true
                 MODE_NORMAL 1000) = false.
Proof.
  apply (proj1 (wake_flags_change_only_when_listening wake_handler_init
                  BUS_STATE_DOMINANT true MODE_NORMAL 1000));
    discriminate.
Defined.

(** X23. A local wake-up is an edge on the WAKE pin seen in Sleep mode
    only: in Sleep an update whose WAKE level differs from the recorded one
    sets the wake request and wake source flags, marks the source local and
    puts the pattern machine back to idle; in Standby the same edge sets
    nothing (with the machine idle and the bus not dominant every flag is
    left as it was) and is not seen later, the new level being recorded. *)
Theorem local_wake_only_in_sleep (st : WakeState) (bus : BusState) (w : bool)
    (t : Z) :
  w <> wake_pin_prev_state st ->
  (let st' := wake_handler_update st bus w MODE_SLEEP t in
   wakerq_flag st' = true /\ wakesr_flag st' = true
   /\ wake_source_local st' = true /\ wup_state st' = WUP_STATE_IDLE)
  /\ (wup_state st = WUP_STATE_IDLE -> bus <> BUS_STATE_DOMINANT ->
      let st' := wake_handler_update st bus w MODE_STANDBY t in
      wakerq_flag st' = wakerq_flag st /\ wakesr_flag st' = wakesr_flag st
      /\ wake_source_local st' = wake_source_local st
      /\ wake_pin_prev_state st' = w).
Proof.
  intro E. split; cbv zeta.
  - unfold wake_handler_update. cbn [OperatingMode_beq orb].
    unfold wake_handler_process_lwu. rewrite process_wup_keeps_prev.
    assert (B : Bool.eqb w (wake_pin_prev_state st) = false)
      by (destruct w, (wake_pin_prev_state st); try reflexivity;
          contradiction E; reflexivity).
    rewrite B. cbn. auto.
  - intros S Hb. unfold wake_handler_update. cbn [OperatingMode_beq orb].
    unfold wake_handler_process_wup. rewrite S.
    cbn [WUPState_beq negb andb]. rewrite andb_false_r.
    destruct bus; [contradiction Hb; reflexivity| |]; cbn; auto.
Qed.

Lemma local_wake_only_in_sleep_witness :
  wake_source_local (wake_handler_update wake_handler_init
                       BUS_STATE_RECESSIVE true MODE_SLEEP 1000) = true.
Proof.
  apply (proj1 (local_wake_only_in_sleep wake_handler_init BUS_STATE_RECESSIVE
                  true 1000 ltac:(discriminate))).
Defined.

(** ** Inhibit output *)

Lemma inh_update_masked_or_woken (c : INHController) (mode : OperatingMode)
    (mask wake : bool) (t : Z) :
  mask = true \/ wake = true ->
  inh_controller_get_pin_state (inh_controller_update c mode mask wake t)
  = (PIN_STATE_HIGH_IMPEDANCE, 0.0%float).
Proof.
  intro H. unfold inh_controller_update, inh_controller_get_pin_state.
  destruct mask; cbn [negb]; [reflexivity|].
  destruct H as [H|H]; [discriminate|]. subst wake.
  unfold sub64. rewrite Z.sub_diag.
  change (0 mod 2 ^ 64 >=? TINH_SLP_STB_NS) with false.
  cbn [andb inh_enabled inh_output_high negb orb].
  destruct mode; reflexivity.
Qed.

Lemma inh_update_steady (c : INHController) (mode : OperatingMode) (t : Z) :
  pending_inh_assertion c = false ->
  inh_controller_get_pin_state (inh_controller_update c mode false false t)
  = match mode with
    | MODE_NORMAL | MODE_SILENT | MODE_STANDBY => (PIN_STATE_HIGH, 4.25%float)
    | _ => (PIN_STATE_HIGH_IMPEDANCE, 0.0%float)
    end.
Proof.
  intro P. unfold inh_controller_update, inh_controller_get_pin_state.
  cbn [negb]. rewrite P. cbn [andb].
  destruct mode; reflexivity.
Qed.

Lemma step_inh_pin_eq (m : Memory) (sim : TCAN1463Q1Simulator) (d : Z)
    (c : INHController) :
  deref_inh m sim = Some c ->
  let sim' := snd (tcan1463q1_simulator_step m sim d) in
  let r := inh_controller_get_pin_state
             (inh_controller_update c (current_mode (mode_state sim'))
                (PinState_beq (state (pins sim PIN_INH_MASK)) PIN_STATE_HIGH)
                (step_wakerq sim d)
                (add64 (timing_engine_get_time (timing sim)) d)) in
  pins sim' PIN_INH
  = snd (pin_set_value (pins sim PIN_INH) (fst r) (snd r)).
Proof.
  intro H. cbv zeta. rewrite step_sim_eq. unfold step_core.
  cbn [snd pins mode_state]. rewrite H. unfold write_inh_pin.
  unfold write_pin at 1. rewrite pin_store_same.
  rewrite !write_pin_other by discriminate.
  rewrite drive_bus_pins_other by discriminate.
  reflexivity.
Qed.

Lemma inh_pin_write_accepted (pin : Pin) (st : PinState) (v : float) :
  pin_table_ok PIN_INH pin ->
  (v <? 0.0)%float = false -> (42.0 <? v)%float = false ->
  pin_get_value (snd (pin_set_value pin st v)) = (st, v).
Proof.
  intros [_ [_ [A B]]] L H. cbn [pin_voltage_ranges fst snd] in A, B.
  rewrite pin_set_value_accepted; [reflexivity|].
  unfold pin_validate_voltage. rewrite A, B, L, H.
  destruct (negb (PinState_beq (state pin) PIN_STATE_ANALOG)
            && (v =? 0.0)%float); reflexivity.
Qed.

(** X24. The inhibit output is released in every step that sees a wake
    request or a high INH_MASK: from any reachable state with a controller
    attached, after such a step the INH pin is high impedance at 0 V, in
    every mode. With neither, and no assertion pending, the pin is high at
    4.25 V exactly in Normal, Silent and Standby mode. *)
Theorem step_inh_output (m : Memory) (sim : TCAN1463Q1Simulator) (d : Z)
    (c : INHController) :
  api_reachable sim ->
  deref_inh m sim = Some c ->
  let sim' := snd (tcan1463q1_simulator_step m sim d) in
  let mask := PinState_beq (state (pins sim PIN_INH_MASK)) PIN_STATE_HIGH in
  (mask = true \/ step_wakerq sim d = true ->
   pin_get_value (pins sim' PIN_INH) = (PIN_STATE_HIGH_IMPEDANCE, 0.0%float))
  /\ (mask = false -> step_wakerq sim d = false ->
      pending_inh_assertion c = false ->
      pin_get_value (pins sim' PIN_INH)
      = match current_mode (mode_state sim') with
        | MODE_NORMAL | MODE_SILENT | MODE_STANDBY =>
            (PIN_STATE_HIGH, 4.25%float)
        | _ => (PIN_STATE_HIGH_IMPEDANCE, 0.0%float)
        end).
Proof.
  intros R D. cbv zeta.
  pose proof (step_inh_pin_eq m sim d c D) as E. cbv zeta in E.
  pose proof (proj1 (api_reachable_wellformed sim R PIN_INH)) as T.
  set (sim' := snd (tcan1463q1_simulator_step m sim d)) in *.
  split.
  - intro H. rewrite E, (inh_update_masked_or_woken c _ _ _ _ H).
    cbn [fst snd]. apply inh_pin_write_accepted; [exact T| |]; reflexivity.
  - intros M W P. rewrite E, M, W, (inh_update_steady c _ _ P).
    destruct (current_mode (mode_state sim')); cbn [fst snd];
      apply inh_pin_write_accepted; try exact T; reflexivity.
Qed.

Lemma step_inh_output_witness :
  pin_get_value
    (pins (snd (tcan1463q1_simulator_step (fst woken_world) (snd woken_world)
                  1000)) PIN_INH)
  = (PIN_STATE_HIGH_IMPEDANCE, 0.0%float).
Proof.
  assert (D : deref_inh (fst woken_world) (snd woken_world) = Some woken_inh)
    by (vm_compute; reflexivity).
  assert (W : PinState_beq (state (pins (snd woken_world) PIN_INH_MASK))
                PIN_STATE_HIGH = true
              \/ step_wakerq (snd woken_world) 1000 = true)
    by (right; vm_compute; reflexivity).
  exact (proj1 (step_inh_output (fst woken_world) (snd woken_world) 1000
                  woken_inh woken_world_reachable D) W).
Defined.

(** ** Receive output pin *)

Lemma step_rxd_pin_eq (m : Memory) (sim : TCAN1463Q1Simulator) (d : Z) :
  let sim' := snd (tcan1463q1_simulator_step m sim d) in
  let rxd_high := rxd_output (can_transceiver sim') in
  pins sim' PIN_RXD
  = snd (pin_set_value (pins sim PIN_RXD)
           (if rxd_high then PIN_STATE_HIGH else PIN_STATE_LOW)
           (if rxd_high then voltage (pins sim PIN_VIO) else 0.0%float)).
Proof.
  cbv zeta. rewrite step_sim_eq. unfold step_core.
  cbn [snd pins can_transceiver].
  rewrite write_inh_pin_other by discriminate.
  rewrite write_pin_other by discriminate.
  unfold write_pin at 1. rewrite pin_store_same.
  rewrite drive_bus_pins_other by discriminate.
  reflexivity.
Qed.

(** X25. After every step from a reachable state the RXD pin shows the
    receive output of the transceiver: high at the VIO pin's voltage when
    the output is recessive, low at 0 V when it is dominant. *)
Theorem step_rxd_pin_follows_output (m : Memory) (sim : TCAN1463Q1Simulator)
    (d : Z) :
  api_reachable sim ->
  let sim' := snd (tcan1463q1_simulator_step m sim d) in
  pin_get_value (pins sim' PIN_RXD)
  = if rxd_output (can_transceiver sim')
    then (PIN_STATE_HIGH, voltage (pins sim PIN_VIO))
    else (PIN_STATE_LOW, 0.0%float).
Proof.
  intro R. cbv zeta. rewrite step_rxd_pin_eq.
  destruct (api_reachable_nfault_writable sim R) as [_ [_ [V1 V2]]].
  destruct (api_reachable_wellformed sim R PIN_RXD) as [[_ [_ [A B]]] _].
  cbn [pin_voltage_ranges fst snd] in A, B.
  set (sim' := snd (tcan1463q1_simulator_step m sim d)).
  rewrite pin_set_value_accepted.
  - destruct (rxd_output (can_transceiver sim')); reflexivity.
  - unfold pin_validate_voltage. rewrite A, B.
    destruct (rxd_output (can_transceiver sim')).
    + rewrite V1, V2.
      destruct (negb (PinState_beq (state (pins sim PIN_RXD)) PIN_STATE_ANALOG)
                && (voltage (pins sim PIN_VIO) =? 0.0)%float); reflexivity.
    + destruct (negb (PinState_beq (state (pins sim PIN_RXD))
                        PIN_STATE_ANALOG)); reflexivity.
Qed.

Lemma step_rxd_pin_follows_output_witness :
  pin_get_value
    (pins (snd (tcan1463q1_simulator_step (fst normal_world) (snd normal_world)
                  1000)) PIN_RXD)
  = if rxd_output
         (can_transceiver (snd (tcan1463q1_simulator_step (fst normal_world)
                                  (snd normal_world) 1000)))
    then (PIN_STATE_HIGH, voltage (pins (snd normal_world) PIN_VIO))
    else (PIN_STATE_LOW, 0.0%float).
Proof.
  exact (step_rxd_pin_follows_output (fst normal_world) (snd normal_world)
           1000 normal_world_reachable).
Defined.

(** ** Supply undervoltage in a step *)

Lemma step_power_mode_eq (m : Memory) (sim : TCAN1463Q1Simulator) (d : Z) :
  let sim' := snd (tcan1463q1_simulator_step m sim d) in
  let now := add64 (timing_engine_get_time (timing sim)) d in
  let ps0 := power_monitor_update (power_state sim)
               (voltage (pins sim PIN_VSUP)) (voltage (pins sim PIN_VCC))
               (voltage (pins sim PIN_VIO)) now in
  uvsup_flag (power_state sim') = uvsup_flag ps0
  /\ uvcc_flag (power_state sim') = uvcc_flag ps0
  /\ uvio_flag (power_state sim') = uvio_flag ps0
  /\ mode_state sim'
     = mode_controller_update (mode_state sim)
         (PinState_beq (state (pins sim PIN_EN)) PIN_STATE_HIGH)
         (PinState_beq (state (pins sim PIN_NSTB)) PIN_STATE_HIGH)
         (negb (uvsup_flag ps0)) (step_wakerq sim d) now.
Proof.
  cbv zeta. rewrite step_sim_eq. unfold step_core.
  cbn [snd power_state mode_state].
  match goal with
  | |- context [if ?b then power_monitor_clear_pwron_flag ?p else ?p] =>
      destruct b
  end; repeat split.
Qed.

Lemma step_rxd_disabled (m : Memory) (sim : TCAN1463Q1Simulator) (d : Z) :
  receiver_enabled (can_transceiver (snd (tcan1463q1_simulator_step m sim d)))
  = false ->
  rxd_output (can_transceiver (snd (tcan1463q1_simulator_step m sim d)))
  = true.
Proof.
  rewrite step_sim_eq. unfold step_core. cbn [snd can_transceiver].
  match goal with
  | |- receiver_enabled (can_transceiver_update_rxd ?t ?b ?c ?s) = _ -> _ =>
      destruct (update_rxd_keeps_state t b c s) as [_ [_ K]]; rewrite K;
      intro H; unfold can_transceiver_update_rxd; rewrite H
  end.
  reflexivity.
Qed.

(** X26. A VSUP pin voltage at or below 3.5 V shuts the device down in the
    step that sees it, whatever the other inputs are: after the step the
    VSUP undervoltage flag is set, the mode is Off, the transceiver state
    is Off with driver and receiver disabled, the bias is off, and the
    receive output is recessive. *)
Theorem step_vsup_undervoltage_forces_off (m : Memory)
    (sim : TCAN1463Q1Simulator) (d : Z) :
  (voltage (pins sim PIN_VSUP) <=? UVSUP_FALLING_MIN)%float = true ->
  let sim' := snd (tcan1463q1_simulator_step m sim d) in
  uvsup_flag (power_state sim') = true
  /\ current_mode (mode_state sim') = MODE_OFF
  /\ can_state (can_transceiver sim') = CAN_STATE_OFF
  /\ driver_enabled (can_transceiver sim') = false
  /\ receiver_enabled (can_transceiver sim') = false
  /\ bias_state (bus_bias sim') = BIAS_STATE_OFF
  /\ rxd_output (can_transceiver sim') = true.
Proof.
  intro L. cbv zeta.
  destruct (step_power_mode_eq m sim d) as [U [_ [_ M]]]. cbv zeta in U, M.
  assert (F : uvsup_flag
                (power_monitor_update (power_state sim)
                   (voltage (pins sim PIN_VSUP)) (voltage (pins sim PIN_VCC))
                   (voltage (pins sim PIN_VIO))
                   (add64 (timing_engine_get_time (timing sim)) d)) = true).
  { match goal with
    | |- uvsup_flag (power_monitor_update ?st ?a ?b ?c ?t) = _ =>
        destruct (power_monitor_update_vsup st a b c t) as [P _]
    end.
    cbv zeta in P. rewrite P, L.
    unfold UVSUP_FALLING_MIN, UVSUP_RISING_MIN in *.
    rewrite (float_le_3_5_not_gt_3_85 _ L).
    destruct (uvsup_flag (power_state sim)); reflexivity. }
  rewrite F in U, M. cbn [negb] in M.
  destruct (step_can_state m sim d) as [A [B [C D]]]. cbv zeta in A, B, C, D.
  pose proof (step_rxd_disabled m sim d) as X.
  set (sim' := snd (tcan1463q1_simulator_step m sim d)) in *.
  rewrite U in A, B, C, D. cbn [negb] in A, B, C, D.
  match type of A with
  | _ = can_state (snd (can_transceiver_update_state_machine ?l ?t ?md ?b
                          false ?n)) =>
      destruct (state_machine_enables l t md b false n) as [E1 [E2 [_ E4]]]
  end.
  cbv zeta in E1, E2, E4. specialize (E4 eq_refl).
  rewrite E4 in E1, E2, A, D. rewrite E1 in B. rewrite E2 in C.
  cbn in B, C.
  rewrite M, mode_controller_update_supply_lost.
  repeat split; auto.
Qed.

Lemma step_vsup_undervoltage_forces_off_witness :
  current_mode
    (mode_state (snd (tcan1463q1_simulator_step (fst supply_lost)
                        (snd supply_lost) 1000))) = MODE_OFF.
Proof.
  assert (L : (voltage (pins (snd supply_lost) PIN_VSUP)
               <=? UVSUP_FALLING_MIN)%float = true)
    by (vm_compute; reflexivity).
  exact (proj1 (proj2 (step_vsup_undervoltage_forces_off (fst supply_lost)
                         (snd supply_lost) 1000 L))).
Defined.

(** ** Running until a condition holds *)

Lemma step_time (w : World) (d : Z) :
  timing_engine_get_time (timing (snd (step w d)))
  = add64 (timing_engine_get_time (timing (snd w))) d.
Proof. reflexivity. Qed.

Lemma run_until_loop_result (fuel : nat)
    (c : TCAN1463Q1Simulator -> bool) (start timeout_ns : Z) :
  forall (w : World) (b : bool) (w' : World),
  run_until_loop fuel c start timeout_ns w = Some (b, w') ->
  b = c (snd w')
  /\ (b = false ->
      timeout_ns <= sub64 (timing_engine_get_time (timing (snd w'))) start).
Proof.
  induction fuel as [|k IH]; intros w b w' H; [discriminate|].
  cbn [run_until_loop] in H.
  destruct (sub64 (timing_engine_get_time (timing (snd w))) start
            <? timeout_ns) eqn:E.
  - destruct (c (snd w)) eqn:C.
    + injection H as Hb Hw. subst. split; [auto|discriminate].
    + apply (IH _ _ _ H).
  - injection H as Hb Hw. subst. split; [reflexivity|].
    intros _. apply Z.ltb_ge in E. exact E.
Qed.

Lemma sub64_step (t s k : Z) :
  sub64 t s = 1000 * k -> 0 <= k -> 1000 * (k + 1) < 2 ^ 64 ->
  sub64 (add64 t 1000) s = 1000 * (k + 1).
Proof.
  unfold sub64, add64. intros H K B.
  rewrite Zminus_mod_idemp_l.
  replace (t + 1000 - s) with ((t - s) + 1000) by lia.
  rewrite <- Zplus_mod_idemp_l, H.
  rewrite Z.mod_small by lia. lia.
Qed.

Lemma run_until_loop_terminates (fuel : nat)
    (c : TCAN1463Q1Simulator -> bool) (start timeout_ns : Z) :
  timeout_ns <= 2 ^ 64 - 1000 ->
  forall (w : World) (k : Z),
  0 <= k ->
  sub64 (timing_engine_get_time (timing (snd w))) start = 1000 * k ->
  1000 * k < timeout_ns + 1000 ->
  timeout_ns - 1000 * k + 1000 <= 1000 * Z.of_nat fuel ->
  run_until_loop fuel c start timeout_ns w <> None.
Proof.
  intro T. induction fuel as [|f IH]; intros w k K E B F.
  - lia.
  - cbn [run_until_loop]. rewrite E.
    destruct (1000 * k <? timeout_ns) eqn:L; [|discriminate].
    destruct (c (snd w)); [discriminate|].
    apply Z.ltb_lt in L.
    apply (IH (step w 1000) (k + 1)); try lia.
    rewrite step_time. apply sub64_step; try assumption. lia.
Qed.

(** X27. With a timeout of at most 2^64 - 1000 ns the run-until loop
    ends, after at most timeout/1000 + 1 steps of 1 us: given that many
    iterations it returns, the result is the condition evaluated on the
    state it stops in, a false result is only returned once the whole
    timeout has elapsed on the clock, and if the condition holds at the
    start no step is taken. *)
Theorem run_until_terminates (fuel : nat)
    (c : TCAN1463Q1Simulator -> bool) (timeout_ns : Z) (w : World) :
  0 <= timeout_ns <= 2 ^ 64 - 1000 ->
  timeout_ns + 1000 <= 1000 * Z.of_nat fuel ->
  exists (b : bool) (w' : World),
    tcan1463q1_simulator_run_until fuel (Some c) timeout_ns w = Some (b, w')
    /\ b = c (snd w')
    /\ (b = false -> timeout_ns <= elapsed_since w w')
    /\ (c (snd w) = true -> w' = w).
Proof.
  intros T F. unfold tcan1463q1_simulator_run_until.
  set (start := timing_engine_get_time (timing (snd w))).
  destruct (run_until_loop fuel c start timeout_ns w) as [[b w']|] eqn:E.
  - exists b, w'. split; [reflexivity|].
    destruct (run_until_loop_result fuel c start timeout_ns w b w' E)
      as [A B].
    split; [exact A|]. split; [exact B|].
    intro C. destruct fuel as [|k]; [discriminate|].
    cbn [run_until_loop] in E. rewrite C in E.
    destruct (sub64 (timing_engine_get_time (timing (snd w))) start
              <? timeout_ns); injection E as _ Hw; auto.
  - exfalso.
    apply (run_until_loop_terminates fuel c start timeout_ns
             ltac:(lia) w 0 ltac:(lia)); try lia; try exact E.
    unfold start, sub64. rewrite Z.sub_diag. reflexivity.
Qed.

Lemma run_until_terminates_witness :
  exists (b : bool) (w' : World),
    tcan1463q1_simulator_run_until 4%nat
      (Some (fun s => OperatingMode_beq (current_mode (mode_state s))
                        MODE_SLEEP))
      2500 normal_world = Some (b, w')
    /\ b = OperatingMode_beq (current_mode (mode_state (snd w'))) MODE_SLEEP
    /\ (b = false -> 2500 <= elapsed_since normal_world w')
    /\ (OperatingMode_beq (current_mode (mode_state (snd normal_world)))
          MODE_SLEEP = true -> w' = normal_world).
Proof.
  apply (run_until_terminates 4%nat
           (fun s => OperatingMode_beq (current_mode (mode_state s))
                       MODE_SLEEP)
           2500 normal_world).
  - lia.
  - simpl. lia.
Defined.

Lemma parity_step (t s : Z) :
  (sub64 t s) mod 2 = 0 -> (sub64 (add64 t 1000) s) mod 2 = 0.
Proof.
  unfold sub64, add64.
  change (2 ^ 64) with 18446744073709551616.
  intro H. Z.div_mod_to_equations. lia.
Qed.

Lemma run_until_loop_max_timeout (fuel : nat)
    (c : TCAN1463Q1Simulator -> bool) (start : Z) :
  (forall s, c s = false) ->
  forall w : World,
  (sub64 (timing_engine_get_time (timing (snd w))) start) mod 2 = 0 ->
  run_until_loop fuel c start UINT64_MAX w = None.
Proof.
  intro C. induction fuel as [|k IH]; intros w P; [reflexivity|].
  cbn [run_until_loop].
  assert (L : (sub64 (timing_engine_get_time (timing (snd w))) start
               <? UINT64_MAX) = true).
  { apply Z.ltb_lt. revert P. unfold sub64, UINT64_MAX.
    change (2 ^ 64) with 18446744073709551616.
    intro P. Z.div_mod_to_equations. lia. }
  rewrite L, C. apply IH. rewrite step_time. apply parity_step. exact P.
Qed.

(** X28. With the largest timeout, 2^64 - 1 ns, and a condition that
    never holds the run-until loop does not end: the elapsed time is a
    multiple of 1000 modulo 2^64, always even, so it never reaches the odd
    timeout. However many iterations are followed, no result is returned. *)
Theorem run_until_max_timeout_never_returns (fuel : nat)
    (c : TCAN1463Q1Simulator -> bool) (w : World) :
  (forall s, c s = false) ->
  tcan1463q1_simulator_run_until fuel (Some c) UINT64_MAX w = None.
Proof.
  intro C. unfold tcan1463q1_simulator_run_until.
  apply run_until_loop_max_timeout; [exact C|].
  unfold sub64. rewrite Z.sub_diag. reflexivity.
Qed.

Lemma run_until_max_timeout_never_returns_witness :
  tcan1463q1_simulator_run_until 5%nat (Some (fun _ => false)) UINT64_MAX
    normal_world = None.
Proof.
  apply (run_until_max_timeout_never_returns 5%nat (fun _ => false)
           normal_world).
  reflexivity.
Defined.

(** ** Configuration *)

Lemma step_set_environment (m : Memory) (sim : TCAN1463Q1Simulator) (d : Z)
    (rl cl : float) (tp : TimingParameters) :
  tcan1463q1_simulator_step m
    (set_environment sim (tj_temperature sim) rl cl tp) d
  = (fst (tcan1463q1_simulator_step m sim d),
     set_environment (snd (tcan1463q1_simulator_step m sim d))
                     (tj_temperature sim) rl cl tp).
Proof.
  destruct sim as [ps ms ct pw fs ws bb ic tm tj rl0 cl0 tp0 cb].
  unfold tcan1463q1_simulator_step, deref_inh, step_core, set_environment.
  cbn [pins mode_state can_transceiver power_state fault_state wake_state
       bus_bias inh_controller timing tj_temperature rl_resistance
       cl_capacitance timing_params callbacks fst snd].
  reflexivity.
Qed.

Lemma step_keeps_environment (m : Memory) (sim : TCAN1463Q1Simulator)
    (d : Z) :
  let sim' := snd (tcan1463q1_simulator_step m sim d) in
  tj_temperature sim' = tj_temperature sim
  /\ rl_resistance sim' = rl_resistance sim
  /\ cl_capacitance sim' = cl_capacitance sim
  /\ timing_params sim' = timing_params sim
  /\ inh_controller sim' = inh_controller sim
  /\ callbacks sim' = callbacks sim.
Proof.
  cbv zeta. rewrite step_sim_eq. unfold step_core.
  cbn [snd tj_temperature rl_resistance cl_capacitance timing_params
       inh_controller callbacks].
  repeat split.
Qed.

(** X29. The timing parameters and the bus load values have no effect on
    the simulation: an accepted set_timing_parameters or set_bus_parameters
    commutes with a step. Stepping after the setter gives the same memory
    and the same simulator state as stepping first and calling the setter
    afterwards, so only the stored parameters differ from a run without
    the setter. An accepted set_timing_parameters is read back by
    get_timing_parameters; a rejected one changes nothing. *)
Theorem step_ignores_timing_and_bus_parameters (m : Memory)
    (sim : TCAN1463Q1Simulator) (d : Z) (p : TimingParameters)
    (rl cl : float) :
  (fst (tcan1463q1_simulator_set_timing_parameters sim p) = true ->
   tcan1463q1_simulator_step m
     (snd (tcan1463q1_simulator_set_timing_parameters sim p)) d
   = (fst (tcan1463q1_simulator_step m sim d),
      snd (tcan1463q1_simulator_set_timing_parameters
             (snd (tcan1463q1_simulator_step m sim d)) p)))
  /\ (fst (tcan1463q1_simulator_set_bus_parameters sim rl cl) = true ->
      tcan1463q1_simulator_step m
        (snd (tcan1463q1_simulator_set_bus_parameters sim rl cl)) d
      = (fst (tcan1463q1_simulator_step m sim d),
         snd (tcan1463q1_simulator_set_bus_parameters
                (snd (tcan1463q1_simulator_step m sim d)) rl cl)))
  /\ (fst (tcan1463q1_simulator_set_timing_parameters sim p) = true ->
      tcan1463q1_simulator_get_timing_parameters
        (snd (tcan1463q1_simulator_set_timing_parameters sim p)) = p)
  /\ (fst (tcan1463q1_simulator_set_timing_parameters sim p) = false ->
      snd (tcan1463q1_simulator_set_timing_parameters sim p) = sim).
Proof.
  unfold tcan1463q1_simulator_set_timing_parameters,
    tcan1463q1_simulator_set_bus_parameters,
    tcan1463q1_simulator_get_timing_parameters.
  split; [|split; [|split;
    destruct (tcan1463q1_simulator_validate_timing_parameters p);
    intro H; first [discriminate | reflexivity]]].
  - destruct (tcan1463q1_simulator_validate_timing_parameters p);
      [|discriminate].
    intros _. cbn [negb snd]. rewrite step_set_environment.
    destruct (step_keeps_environment m sim d) as [A [B [C _]]].
    cbv zeta in A, B, C. rewrite A, B, C. reflexivity.
  - destruct ((rl <? 0.0)%float || (cl <? 0.0)%float); [discriminate|].
    intros _. cbn [snd]. rewrite step_set_environment.
    destruct (step_keeps_environment m sim d) as [A [_ [_ [D _]]]].
    cbv zeta in A, D. rewrite A, D. reflexivity.
Qed.

Lemma step_ignores_timing_and_bus_parameters_witness :
  tcan1463q1_simulator_step (fst normal_world)
    (snd (tcan1463q1_simulator_set_timing_parameters (snd normal_world)
            (mkTimingParameters 350.0 3.8 3.8 1.8 0.8 1.2)%float)) 1000
  = (fst (tcan1463q1_simulator_step (fst normal_world) (snd normal_world)
            1000),
     snd (tcan1463q1_simulator_set_timing_parameters
            (snd (tcan1463q1_simulator_step (fst normal_world)
                    (snd normal_world) 1000))
            (mkTimingParameters 350.0 3.8 3.8 1.8 0.8 1.2)%float)).
Proof.
  assert (H : fst (tcan1463q1_simulator_set_timing_parameters
                     (snd normal_world)
                     (mkTimingParameters 350.0 3.8 3.8 1.8 0.8 1.2)%float)
              = true) by (vm_compute; reflexivity).
  exact (proj1 (step_ignores_timing_and_bus_parameters (fst normal_world)
                  (snd normal_world) 1000
                  (mkTimingParameters 350.0 3.8 3.8 1.8 0.8 1.2)%float
                  0.0%float 0.0%float) H).
Defined.

Lemma step_set_power_voltages (m : Memory) (sim : TCAN1463Q1Simulator)
    (d : Z) (vs vc vi : float) :
  let sim1 := snd (tcan1463q1_simulator_step m sim d) in
  let sim2 := snd (tcan1463q1_simulator_step m
                     (set_power_voltages sim vs vc vi) d) in
  uvsup_flag (power_state sim2) = uvsup_flag (power_state sim1)
  /\ pwron_flag (power_state sim2) = pwron_flag (power_state sim1)
  /\ mode_state sim2 = mode_state sim1.
Proof.
  cbv zeta.
  destruct sim as [ps ms ct pw fs ws bb ic tm tj rl0 cl0 tp0 cb].
  rewrite !step_sim_eq. unfold step_core, set_power_voltages.
  cbn [pins mode_state can_transceiver power_state fault_state wake_state
       bus_bias inh_controller timing tj_temperature rl_resistance
       cl_capacitance timing_params callbacks fst snd].
  unfold power_monitor_is_vsup_valid.
  match goal with
  | |- context [power_monitor_update (mkPowerState ?a ?b ?c ?f1 ?f2 ?f3 ?f4
                                         ?t1 ?t2) ?x ?y ?z ?t] =>
      destruct (power_monitor_update_vsup
                  (mkPowerState a b c f1 f2 f3 f4 t1 t2) x y z t) as [U2 P2];
      destruct (power_monitor_update_vsup pw x y z t) as [U1 P1]
  end.
  cbv zeta in U1, P1, U2, P2.
  cbn [uvsup_flag pwron_flag] in U2, P2.
  rewrite <- U1 in U2. rewrite <- P1 in P2.
  rewrite U2.
  assert (F : forall (b : bool) (x y : PowerState),
             uvsup_flag x = uvsup_flag y -> pwron_flag x = pwron_flag y ->
             uvsup_flag (if b then power_monitor_clear_pwron_flag x else x)
             = uvsup_flag (if b then power_monitor_clear_pwron_flag y else y)
             /\ pwron_flag (if b then power_monitor_clear_pwron_flag x else x)
                = pwron_flag (if b then power_monitor_clear_pwron_flag y
                              else y))
    by (intros b x y H1 H2; destruct b; cbn; auto).
  split; [apply F; assumption|]. split; [apply F; assumption|reflexivity].
Qed.

(** X30. The supply voltages a step works with are those stored on the
    VSUP, VCC and VIO pins: it overwrites the voltages that configure or
    set_supply_voltages stored in the power state, and an accepted
    set_supply_voltages, or a configure that keeps the temperature, before
    a step changes neither the VSUP undervoltage flag, nor the power-on
    flag, nor the mode after it. *)
Theorem step_takes_supplies_from_pins (m : Memory)
    (sim : TCAN1463Q1Simulator) (d : Z) (vs vc vi rl cl : float) :
  let sim1 := snd (tcan1463q1_simulator_step m sim d) in
  vsup (power_state sim1) = voltage (pins sim PIN_VSUP)
  /\ vcc (power_state sim1) = voltage (pins sim PIN_VCC)
  /\ vio (power_state sim1) = voltage (pins sim PIN_VIO)
  /\ (fst (tcan1463q1_simulator_set_supply_voltages sim vs vc vi) = true ->
      let sim2 :=
        snd (tcan1463q1_simulator_step m
               (snd (tcan1463q1_simulator_set_supply_voltages sim vs vc vi))
               d) in
      vsup (power_state sim2) = voltage (pins sim PIN_VSUP)
      /\ uvsup_flag (power_state sim2) = uvsup_flag (power_state sim1)
      /\ pwron_flag (power_state sim2) = pwron_flag (power_state sim1)
      /\ mode_state sim2 = mode_state sim1)
  /\ (let sim3 :=
        snd (tcan1463q1_simulator_step m
               (tcan1463q1_simulator_configure sim vs vc vi
                  (tj_temperature sim) rl cl) d) in
      vsup (power_state sim3) = voltage (pins sim PIN_VSUP)
      /\ uvsup_flag (power_state sim3) = uvsup_flag (power_state sim1)
      /\ pwron_flag (power_state sim3) = pwron_flag (power_state sim1)
      /\ mode_state sim3 = mode_state sim1).
Proof.
  cbv zeta.
  assert (V : forall s : TCAN1463Q1Simulator,
             vsup (power_state (snd (tcan1463q1_simulator_step m s d)))
             = voltage (pins s PIN_VSUP)
             /\ vcc (power_state (snd (tcan1463q1_simulator_step m s d)))
                = voltage (pins s PIN_VCC)
             /\ vio (power_state (snd (tcan1463q1_simulator_step m s d)))
                = voltage (pins s PIN_VIO)).
  { intro s. rewrite step_sim_eq. unfold step_core.
    cbn [snd power_state].
    match goal with
    | |- context [if ?b then power_monitor_clear_pwron_flag ?p else ?p] =>
        destruct b;
        match p with
        | power_monitor_update ?st ?x ?y ?z ?t =>
            destruct (power_monitor_update_rails st x y z t)
              as [_ [_ [A [B C]]]]
        end
    end; cbv zeta in A, B, C; cbn [power_monitor_clear_pwron_flag vsup vcc vio];
      auto. }
  destruct (V sim) as [V1 [V2 V3]].
  split; [exact V1|]. split; [exact V2|]. split; [exact V3|].
  pose proof (step_set_power_voltages m sim d vs vc vi) as Q.
  cbv zeta in Q.
  split.
  - unfold tcan1463q1_simulator_set_supply_voltages.
    destruct (tcan1463q1_simulator_validate_vsup vs); [|discriminate].
    destruct (tcan1463q1_simulator_validate_vcc vc); [|discriminate].
    destruct (tcan1463q1_simulator_validate_vio vi); [|discriminate].
    intros _. cbn [negb snd].
    split; [exact (proj1 (V (set_power_voltages sim vs vc vi)))|exact Q].
  - unfold tcan1463q1_simulator_configure.
    change (tj_temperature sim)
      with (tj_temperature (set_power_voltages sim vs vc vi)).
    rewrite step_set_environment.
    cbn [snd set_environment power_state mode_state].
    split; [exact (proj1 (V (set_power_voltages sim vs vc vi)))|exact Q].
Qed.

Lemma step_takes_supplies_from_pins_witness :
  uvsup_flag
    (power_state
       (snd (tcan1463q1_simulator_step (fst normal_world)
               (snd (tcan1463q1_simulator_set_supply_voltages
                       (snd normal_world) 0.0 5.0 3.3)%float) 1000)))
  = uvsup_flag
      (power_state (snd (tcan1463q1_simulator_step (fst normal_world)
                           (snd normal_world) 1000))).
Proof.
  assert (H : fst (tcan1463q1_simulator_set_supply_voltages
                     (snd normal_world) 0.0 5.0 3.3)%float = true)
    by (vm_compute; reflexivity).
  exact (proj1 (proj2 (proj1 (proj2 (proj2 (proj2
                  (step_takes_supplies_from_pins
                     (fst normal_world) (snd normal_world) 1000
                     0.0 5.0 3.3 0.0 0.0)%float))) H))).
Defined.
